(** * RFQM settlement service: validation, status reporting, last look,
      fee escalation and the transaction watch loop

    A shallow embedding of [src/services/rfqm_service.ts] (class
    [RfqmService]) together with the properties its specification states
    about it.  Pure static methods become functions; the asynchronous
    methods that talk to the job store, the maker's quote server and the
    chain become functions over an explicit world (stored job, event
    trace) and an environment of scripted answers. *)

From Stdlib Require Import ZArith QArith Qminmax Qround Bool List String Ascii Lia Lqa.
From Stdlib Require Import DecimalString DecimalN.
Import ListNotations.

Local Open Scope string_scope.
Local Open Scope list_scope.
Local Open Scope Q_scope.

(** ** bignumber.js values

    [BigNumber] of [@0x/utils] is an arbitrary-precision decimal that also
    has the values NaN and +/-Infinity.  Finite values are kept as
    rationals; only [dividedBy] rounds (to [DECIMAL_PLACES] digits, half
    up), every other operation used here is exact. *)
Module BigNumber.

Inductive t : Type :=
| NaN
| Inf (negative : bool)
| Fin (q : Q).

Definition ofZ (z : Z) : t := Fin (inject_Z z).

Definition isNaN (x : t) : bool :=
  match x with NaN => true | _ => false end.

Definition sgn_neg (q : Q) : bool := Qle_bool q 0 && negb (Qeq_bool q 0).

(** [x.times(y)] *)
Definition times (x y : t) : t :=
  match x, y with
  | NaN, _ | _, NaN => NaN
  | Fin a, Fin b => Fin (a * b)
  | Inf s, Inf s' => Inf (xorb s s')
  | Inf s, Fin b | Fin b, Inf s =>
      if Qeq_bool b 0 then NaN else Inf (xorb s (sgn_neg b))
  end.

(** [x.lte(y)]: every comparison with NaN is false *)
Definition lte (x y : t) : bool :=
  match x, y with
  | NaN, _ | _, NaN => false
  | Fin a, Fin b => Qle_bool a b
  | Inf true, _ => true
  | _, Inf false => true
  | Inf false, _ => false
  | _, Inf true => false
  end.

(** [x.lt(y)] *)
Definition lt (x y : t) : bool :=
  match x, y with
  | NaN, _ | _, NaN => false
  | Fin a, Fin b => negb (Qle_bool b a)
  | Inf s, Inf s' => s && negb s'
  | Inf s, Fin _ => s
  | Fin _, Inf s => negb s
  end.

(** Rounding modes of bignumber.js that the service uses. *)
Inductive RoundingMode := ROUND_DOWN | ROUND_HALF_UP.

(** The integer [n] with [n / 10^dp] the value of [q] rounded to [dp]
    decimal places: towards zero for [ROUND_DOWN], to the nearest
    neighbour and away from zero on a tie for [ROUND_HALF_UP]. *)
Definition scaled (rm : RoundingMode) (dp : nat) (q : Q) : Z :=
  let num := (Qnum q * 10 ^ Z.of_nat dp)%Z in
  let den := Zpos (Qden q) in
  match rm with
  | ROUND_DOWN => Z.quot num den
  | ROUND_HALF_UP =>
      (Z.sgn num * ((2 * Z.abs num + den) / (2 * den)))%Z
  end.

Definition roundQ (rm : RoundingMode) (dp : nat) (q : Q) : Q :=
  Qred (Qmake (scaled rm dp q) (Z.to_pos (10 ^ Z.of_nat dp))).

(** [x.decimalPlaces(dp, rm)]: [x] rounded to at most [dp] decimal
    places; NaN and the infinities are returned as they are. *)
Definition decimalPlaces (dp : nat) (rm : RoundingMode) (x : t) : t :=
  match x with
  | Fin q => Fin (roundQ rm dp q)
  | other => other
  end.

(** [x.div(y)] under a configured [DECIMAL_PLACES] (rounding mode
    half up, the library's default). *)
Definition div (DECIMAL_PLACES : nat) (x y : t) : t :=
  match x, y with
  | NaN, _ | _, NaN => NaN
  | Inf _, Inf _ => NaN
  | Inf s, Fin b => Inf (xorb s (sgn_neg b))
  | Fin _, Inf _ => Fin 0
  | Fin a, Fin b =>
      if Qeq_bool b 0
      then (if Qeq_bool a 0 then NaN else Inf (sgn_neg a))
      else Fin (roundQ ROUND_HALF_UP DECIMAL_PLACES (a / b))
  end.

End BigNumber.

(** ** Entities *)

(** [RfqmJobStatus] *)
Inductive RfqmJobStatus : Type :=
| PendingEnqueued
| PendingProcessing
| PendingLastLookAccepted
| PendingSubmitted
| FailedEthCallFailed
| FailedExpired
| FailedLastLookDeclined
| FailedPresignValidationFailed
| FailedRevertedConfirmed
| FailedRevertedUnconfirmed
| FailedSignFailed
| FailedSubmitFailed
| FailedValidationNoCallData
| FailedValidationNoFee
| FailedValidationNoMakerUri
| FailedValidationNoOrder
| FailedValidationNoTakerSignature
| SucceededConfirmed
| SucceededUnconfirmed.

Definition RfqmJobStatus_eq_dec (a b : RfqmJobStatus) : {a = b} + {a <> b}.
Proof. decide equality. Defined.

Definition RfqmJobStatus_eqb (a b : RfqmJobStatus) : bool :=
  if RfqmJobStatus_eq_dec a b then true else false.

(** [RfqmTransactionSubmissionStatus] *)
Inductive RfqmTransactionSubmissionStatus : Type :=
| TxPresubmit
| TxSubmitted
| TxSucceededUnconfirmed
| TxFailedRevertedUnconfirmed
| TxSucceededConfirmed
| TxFailedRevertedConfirmed.

(** [Signature] of [@0x/protocol-utils] *)
Record Signature : Type := mkSignature {
  sig_r : string;
  sig_s : string;
  sig_v : Z;
  sig_signatureType : Z
}.

(** The string fields of a stored OTC order ([StoredOtcOrder.order]). *)
Record OtcOrderStringFields : Type := mkOtcOrderStringFields {
  txOrigin : string;
  maker : string;
  taker : string;
  makerToken : string;
  takerToken : string;
  makerAmount : string;
  takerAmount : string;
  expiryAndNonce : string;
  verifyingContract : string
}.

(** [StoredOtcOrder]: [{ type, order }] *)
Record StoredOtcOrder : Type := mkStoredOtcOrder {
  so_order : OtcOrderStringFields
}.

(** [StoredFee] *)
Record StoredFee : Type := mkStoredFee {
  fee_token : string;
  fee_amount : string;
  fee_type : string
}.

(** [RfqmV2JobEntity].  A field the code tests against [undefined] or
    [null] is an [option]. *)
Record RfqmV2JobEntity : Type := mkJob {
  orderHash : string;
  job_expiry : Q;                        (* seconds *)
  makerUri : option string;
  job_order : option StoredOtcOrder;
  job_fee : option StoredFee;
  takerSignature : option Signature;
  makerSignature : option Signature;
  job_status : RfqmJobStatus;
  workerAddress : option string;
  lastLookResult : option bool;
  llRejectPriceDifferenceBps : option Z;
  integratorId : option string;
  isUnwrap : bool;
  affiliateAddress : option string
}.

Definition set_status (s : RfqmJobStatus) (j : RfqmV2JobEntity) : RfqmV2JobEntity :=
  mkJob (orderHash j) (job_expiry j) (makerUri j) (job_order j) (job_fee j)
        (takerSignature j) (makerSignature j) s (workerAddress j)
        (lastLookResult j) (llRejectPriceDifferenceBps j) (integratorId j)
        (isUnwrap j) (affiliateAddress j).

Definition set_lastLookResult (b : bool) (j : RfqmV2JobEntity) : RfqmV2JobEntity :=
  mkJob (orderHash j) (job_expiry j) (makerUri j) (job_order j) (job_fee j)
        (takerSignature j) (makerSignature j) (job_status j) (workerAddress j)
        (Some b) (llRejectPriceDifferenceBps j) (integratorId j)
        (isUnwrap j) (affiliateAddress j).

Definition set_makerSignature (s : Signature) (j : RfqmV2JobEntity) : RfqmV2JobEntity :=
  mkJob (orderHash j) (job_expiry j) (makerUri j) (job_order j) (job_fee j)
        (takerSignature j) (Some s) (job_status j) (workerAddress j)
        (lastLookResult j) (llRejectPriceDifferenceBps j) (integratorId j)
        (isUnwrap j) (affiliateAddress j).

Definition set_llRejectPriceDifferenceBps (z : option Z) (j : RfqmV2JobEntity)
  : RfqmV2JobEntity :=
  mkJob (orderHash j) (job_expiry j) (makerUri j) (job_order j) (job_fee j)
        (takerSignature j) (makerSignature j) (job_status j) (workerAddress j)
        (lastLookResult j) z (integratorId j)
        (isUnwrap j) (affiliateAddress j).

(** ** Constants *)

Definition ONE_SECOND_MS : Z := 1000.
Definition ONE_MINUTE_S : Z := 60.
Definition PRICE_DECIMAL_PLACES : nat := 6.
Definition MAX_PRIORITY_FEE_PER_GAS_CAP : Q := inject_Z 128000000000.
Definition MAX_PRIORITY_FEE_PER_GAS_MULTIPLIER : Q := 15 # 10.
Definition MAX_FEE_PER_GAS_MULTIPLIER : Q := 11 # 10.
Definition MAX_GAS_ESTIMATE : Z := 500000.

(** ** Job validation *)

Section ValidateJob.

(** The two library calls of the expiry check: [new BigNumber(s)] on the
    stored string, and the [expiry] component of
    [OtcOrder.parseExpiryAndNonce] ([@0x/protocol-utils]). *)
Variable BigNumber_ofString : string -> BigNumber.t.
Variable parseExpiryAndNonce_expiry : BigNumber.t -> BigNumber.t.

(** [expiry.times(ONE_SECOND_MS)] of the job's order *)
Definition expiryTimeMs (o : StoredOtcOrder) : BigNumber.t :=
  BigNumber.times
    (parseExpiryAndNonce_expiry (BigNumber_ofString (expiryAndNonce (so_order o))))
    (BigNumber.ofZ ONE_SECOND_MS).

(** [RfqmService.validateJob(job, now)]; [now] is [now.getTime()], in
    milliseconds.  [None] is the [null] of a valid job. *)
Definition validateJob (job : RfqmV2JobEntity) (now : Z) : option RfqmJobStatus :=
  match makerUri job with
  | None => Some FailedValidationNoMakerUri
  | Some _ =>
    match job_order job with
    | None => Some FailedValidationNoOrder
    | Some order =>
      match job_fee job with
      | None => Some FailedValidationNoFee
      | Some _ =>
        let expiryTimeMs := expiryTimeMs order in
        if BigNumber.isNaN expiryTimeMs
           || BigNumber.lte expiryTimeMs (BigNumber.ofZ now)
        then Some FailedExpired
        else
          match takerSignature job with
          | None => Some FailedValidationNoTakerSignature
          | Some _ => None
          end
      end
    end
  end.

(** The order of checks as the specification words it: maker endpoint,
    order, fee, taker signature, and the expiry last. *)
Definition validateJob_as_specified (job : RfqmV2JobEntity) (now : Z)
  : option RfqmJobStatus :=
  match makerUri job with
  | None => Some FailedValidationNoMakerUri
  | Some _ =>
    match job_order job with
    | None => Some FailedValidationNoOrder
    | Some order =>
      match job_fee job with
      | None => Some FailedValidationNoFee
      | Some _ =>
        match takerSignature job with
        | None => Some FailedValidationNoTakerSignature
        | Some _ =>
          if BigNumber.lte (expiryTimeMs order) (BigNumber.ofZ now)
          then Some FailedExpired
          else None
        end
      end
    end
  end.

(** The expiry test of [validateJob]: the decoded expiry, in
  milliseconds, is NaN or not after [now]. *)
Definition expiredAt (order : StoredOtcOrder) (now : Z) : bool :=
BigNumber.isNaN (expiryTimeMs order)
|| BigNumber.lte (expiryTimeMs order) (BigNumber.ofZ now).

End ValidateJob.

(** *** Reference decoders

    Used to run the model on concrete jobs.  [ofDecimalString] agrees with
    [new BigNumber(s)] on strings of decimal digits and on strings without
    any digit or sign (which give NaN); [decodeExpiry] is the top 64 bits of
    the 256-bit packed word, which is what [parseExpiryAndNonce] slices
    out, and hands NaN on. *)

Definition digit_of_ascii (c : ascii) : option Z :=
  let n := Z.of_nat (nat_of_ascii c) in
  if ((48 <=? n) && (n <=? 57))%Z then Some (n - 48)%Z else None.

Fixpoint digits_value (acc : Z) (s : string) : option Z :=
  match s with
  | EmptyString => Some acc
  | String c rest =>
      match digit_of_ascii c with
      | Some d => digits_value (10 * acc + d)%Z rest
      | None => None
      end
  end.

Definition ofDecimalString (s : string) : BigNumber.t :=
  match s with
  | EmptyString => BigNumber.NaN
  | _ => match digits_value 0 s with
         | Some z => BigNumber.ofZ z
         | None => BigNumber.NaN
         end
  end.

Definition decodeExpiry (x : BigNumber.t) : BigNumber.t :=
  match x with
  | BigNumber.Fin q =>
      if (Zpos (Qden q) =? 1)%Z && (0 <=? Qnum q)%Z && (Qnum q <? 2 ^ 256)%Z
      then BigNumber.ofZ (Z.shiftr (Qnum q) 192)
      else BigNumber.NaN
  | _ => BigNumber.NaN
  end.

(** ** Outcomes of calls that may throw *)

Inductive Exn : Type :=
| Error (message : string)
| ErrorSuccessfulCount (order_hash : string) (found : nat)
    (* `Expected exactly one successful transmission for order ...; found n` *)
| TypeError
| NotFoundError (message : string)
| ValidationError (field code reason : string)
| TooManyRequestsError (message : string)
| InternalServerError (message : string).

Inductive Outcome (A : Type) : Type :=
| Returned (a : A)
| Thrown (e : Exn).

Arguments Returned {A} a.
Arguments Thrown {A} e.

(** ** Order status *)

(** [RfqmV2TransactionSubmissionEntity] *)
Record RfqmV2TransactionSubmissionEntity : Type := mkSubmission {
  transactionHash : option string;
  createdAt : Z;                          (* [createdAt.getTime()] *)
  sub_status : RfqmTransactionSubmissionStatus;
  sub_nonce : Z;
  sub_maxFeePerGas : Q;
  sub_maxPriorityFeePerGas : Q
}.

Inductive StatusLabel := pending | submitted | failed | succeeded | confirmed.

Record TransactionData : Type := mkTransactionData {
  td_hash : string;
  td_timestamp : Z
}.

Record StatusResponse : Type := mkStatusResponse {
  sr_status : StatusLabel;
  sr_transactions : list TransactionData
}.

(** [hash ? { hash, timestamp } : null]: a missing hash and the empty
    string are both falsy. *)
Definition transformSubmission (submission : RfqmV2TransactionSubmissionEntity)
  : option TransactionData :=
  match transactionHash submission with
  | Some hash =>
      if String.eqb hash "" then None
      else Some (mkTransactionData hash (createdAt submission))
  | None => None
  end.

Definition transformSubmissions (submissions : list RfqmV2TransactionSubmissionEntity)
  : list TransactionData :=
  flat_map (fun s => match s with Some d => [d] | None => [] end)
           (map transformSubmission submissions).

Definition isSucceededSubmission (s : RfqmV2TransactionSubmissionEntity) : bool :=
  match sub_status s with
  | TxSucceededUnconfirmed | TxSucceededConfirmed => true
  | _ => false
  end.

(** [getOrderStatusAsync(orderHash)], over the answers of the two store
    queries ([findV2JobByOrderHashAsync],
    [findV2TransactionSubmissionsByOrderHashAsync]) and [Date.now()]. *)
Definition getOrderStatusAsync
  (job : option RfqmV2JobEntity)
  (transactionSubmissions : list RfqmV2TransactionSubmissionEntity)
  (now : Z) : Outcome (option StatusResponse) :=
  match job with
  | None => Returned None
  | Some job =>
    let status := job_status job in
    let expiry := job_expiry job in
    if RfqmJobStatus_eqb status PendingEnqueued
       && negb (Qle_bool (inject_Z now) (expiry * inject_Z ONE_SECOND_MS))
    then Returned (Some (mkStatusResponse failed []))
    else
      match status with
      | PendingEnqueued | PendingProcessing | PendingLastLookAccepted =>
          Returned (Some (mkStatusResponse pending []))
      | PendingSubmitted =>
          Returned (Some (mkStatusResponse submitted
                            (transformSubmissions transactionSubmissions)))
      | FailedEthCallFailed | FailedExpired | FailedLastLookDeclined
      | FailedPresignValidationFailed | FailedRevertedConfirmed
      | FailedRevertedUnconfirmed | FailedSignFailed | FailedSubmitFailed
      | FailedValidationNoCallData | FailedValidationNoFee
      | FailedValidationNoMakerUri | FailedValidationNoOrder
      | FailedValidationNoTakerSignature =>
          Returned (Some (mkStatusResponse failed
                            (transformSubmissions transactionSubmissions)))
      | SucceededConfirmed | SucceededUnconfirmed =>
          let successfulTransactions :=
            filter isSucceededSubmission transactionSubmissions in
          match successfulTransactions with
          | [successfulTransaction] =>
              match transformSubmission successfulTransaction with
              | None => Thrown (Error "Successful transaction did not have a hash")
              | Some successfulTransactionData =>
                  Returned (Some (mkStatusResponse
                    (match status with
                     | SucceededUnconfirmed => succeeded
                     | _ => confirmed
                     end)
                    [successfulTransactionData]))
              end
          | _ => Thrown (ErrorSuccessfulCount (orderHash job)
                           (List.length successfulTransactions))
          end
      end
  end.

(** ** Quote price *)

Section QuotePrice.

(** [DECIMAL_PLACES] of the BigNumber configuration in force. *)
Variable DECIMAL_PLACES : nat.

(** [Web3Wrapper.toUnitAmount(amount, decimals)] on a valid base-unit
    amount (a non-negative integer): [amount.div(10 ** decimals)]. *)
Definition toUnitAmount (amount : N) (decimals : nat) : BigNumber.t :=
  BigNumber.div DECIMAL_PLACES
    (BigNumber.ofZ (Z.of_N amount))
    (BigNumber.ofZ (10 ^ Z.of_nat decimals)).

(** The `Prepare the price` block shared by [fetchIndicativeQuoteAsync]
    and [fetchFirmQuoteAsync]. *)
Definition price (isSelling : bool)
  (makerAmount : N) (makerTokenDecimals : nat)
  (takerAmount : N) (takerTokenDecimals : nat) : BigNumber.t :=
  let makerAmountInUnit := toUnitAmount makerAmount makerTokenDecimals in
  let takerAmountInUnit := toUnitAmount takerAmount takerTokenDecimals in
  if isSelling
  then BigNumber.div DECIMAL_PLACES makerAmountInUnit takerAmountInUnit
  else BigNumber.div DECIMAL_PLACES takerAmountInUnit makerAmountInUnit.

Definition roundedPrice (isSelling : bool)
  (makerAmount : N) (makerTokenDecimals : nat)
  (takerAmount : N) (takerTokenDecimals : nat) : BigNumber.t :=
  BigNumber.decimalPlaces (PRICE_DECIMAL_PLACES + 1) BigNumber.ROUND_DOWN
    (price isSelling makerAmount makerTokenDecimals takerAmount takerTokenDecimals).

End QuotePrice.

(** The price the specification describes: the raw unit price cut to
    [PRICE_DECIMAL_PLACES] decimal places, towards zero. *)
Definition price_as_specified (DECIMAL_PLACES : nat) (isSelling : bool)
  (makerAmount : N) (makerTokenDecimals : nat)
  (takerAmount : N) (takerTokenDecimals : nat) : BigNumber.t :=
  BigNumber.decimalPlaces PRICE_DECIMAL_PLACES BigNumber.ROUND_DOWN
    (price DECIMAL_PLACES isSelling makerAmount makerTokenDecimals
           takerAmount takerTokenDecimals).

(** ** Submission to the chain: fees and the watch loop *)

Record GasFees : Type := mkGasFees {
  maxFeePerGas : Q;
  maxPriorityFeePerGas : Q
}.

(** BigNumber comparisons on finite values *)
Definition isGreaterThan (a b : Q) : bool := negb (Qle_bool a b).
Definition isGreaterThanOrEqualTo (a b : Q) : bool := Qle_bool b a.

(** Fees of the first submission: twice the fast gas price estimate plus
    the initial tip. *)
Definition initialGasFees (gasPriceEstimate initialMaxPriorityFeePerGas : Q) : GasFees :=
  mkGasFees (gasPriceEstimate * 2 + initialMaxPriorityFeePerGas)
            initialMaxPriorityFeePerGas.

(** The fee bump of one resubmission cycle. *)
Definition escalatedGasFees (old : GasFees) (newGasPriceEstimate : Q) : GasFees :=
  let newMaxPriorityFeePerGas :=
    maxPriorityFeePerGas old * MAX_PRIORITY_FEE_PER_GAS_MULTIPLIER in
  let newMaxFeePerGas :=
    Qmax (maxFeePerGas old * MAX_FEE_PER_GAS_MULTIPLIER)
         (newGasPriceEstimate * 2 + newMaxPriorityFeePerGas) in
  mkGasFees newMaxFeePerGas newMaxPriorityFeePerGas.

Definition exn_message (e : Exn) : string :=
  match e with
  | Error m | NotFoundError m | TooManyRequestsError m | InternalServerError m => m
  | ValidationError _ _ reason => reason
  | ErrorSuccessfulCount _ _ => "Expected exactly one successful transmission"
  | TypeError => "TypeError"
  end.

(** [/nonce too low/.test(err.message)] *)
Definition isNonceTooLow (e : Exn) : bool :=
  match String.index 0 "nonce too low" (exn_message e) with
  | Some _ => true
  | None => false
  end.

(** [_submitTransactionAsync]: the signed transaction is recorded as
    [Presubmit], broadcast, and the record promoted to [Submitted] with
    the hash the node returned.  [broadcast] is the outcome of the calls
    to the signer, the store and the node taken together. *)
Definition _submitTransactionAsync (gasFees : GasFees) (nonce : Z) (now : Z)
  (broadcast : Outcome string) : Outcome RfqmV2TransactionSubmissionEntity :=
  match broadcast with
  | Thrown e => Thrown e
  | Returned transactionHashFromSubmit =>
      Returned (mkSubmission (Some transactionHashFromSubmit) now TxSubmitted nonce
                             (maxFeePerGas gasFees) (maxPriorityFeePerGas gasFees))
  end.

Record Receipt : Type := mkReceipt {
  blockHash : string;
  blockNumber : Z
}.

(** What one pass of the watch loop reads from outside: the receipt query
    and the status the submission context derives from it, the clock, the
    gas price oracle, the context's transaction type and latest fees, and
    the outcome of a broadcast should one be attempted. *)
Record WatchInputs : Type := mkWatchInputs {
  minedReceipt : option Receipt;
  contextJobStatus : Outcome RfqmJobStatus;
  nowMs : Z;
  newGasPriceEstimate : Outcome Q;
  transactionType : Z;
  maxGasFees : GasFees;
  broadcast : Outcome string
}.

(** [_checkSubmissionMapReceiptsAndUpdateDbAsync]: without a mined receipt
    the job is still [PendingSubmitted]; with one, the status is the one
    the submission context derives after [updateForReceiptAsync]. *)
Definition _checkSubmissionMapReceiptsAndUpdateDbAsync (i : WatchInputs)
  : Outcome RfqmJobStatus :=
  match minedReceipt i with
  | None => Returned PendingSubmitted
  | Some _ => contextJobStatus i
  end.

(** What a pass of the watch loop decides before anything is sent. *)
Inductive WatchDecision : Type :=
| Leave (status : RfqmJobStatus)      (* [return] from the loop *)
| Watch                               (* [continue] or [break]: next pass *)
| Escalate (gasFees : GasFees)        (* resubmit with these fees *)
| Fail (e : Exn).                     (* [throw] *)

(** The body of the [while (true)] loop of [submitJobToChainAsync], up to
    the assignment of the new [gasFees].  [nowSeconds] is the clock in
    milliseconds over 1000, kept exact. *)
Definition watchDecision (expiry : Q) (i : WatchInputs) : WatchDecision :=
  match _checkSubmissionMapReceiptsAndUpdateDbAsync i with
  | Thrown e => Fail e
  | Returned jobStatus =>
    match jobStatus with
    | PendingSubmitted =>
        let nowSeconds := inject_Z (nowMs i) / inject_Z ONE_SECOND_MS in
        let secondsPastExpiration := nowSeconds - expiry in
        if isGreaterThan secondsPastExpiration (inject_Z (ONE_MINUTE_S * 2))
        then Leave FailedExpired
        else if isGreaterThan secondsPastExpiration 0
        then Watch
        else
          match newGasPriceEstimate i with
          | Thrown e => Fail e
          | Returned newGasPriceEstimate =>
            if (transactionType i =? 0)%Z
            then Fail (Error "Non-EIP-1559 transactions are not implemented")
            else
              let oldMaxFeePerGas := maxFeePerGas (maxGasFees i) in
              if isGreaterThanOrEqualTo oldMaxFeePerGas MAX_PRIORITY_FEE_PER_GAS_CAP
              then Watch
              else Escalate (escalatedGasFees (maxGasFees i) newGasPriceEstimate)
          end
    | FailedRevertedUnconfirmed | SucceededUnconfirmed => Watch
    | FailedRevertedConfirmed | SucceededConfirmed => Leave jobStatus
    | _ => Fail (Error "unreachable")
    end
  end.

(** What a pass of the watch loop does. *)
Inductive WatchAction : Type :=
| Return (status : RfqmJobStatus)
    (* leaves the loop with a final status *)
| KeepWatching
    (* next pass, nothing was sent *)
| Resubmitted (gasFees : GasFees) (tx : RfqmV2TransactionSubmissionEntity)
    (* a replacement was sent and added to the context *)
| ResubmitNonceTooLow (gasFees : GasFees)
    (* a replacement was attempted, the node answered `nonce too low` *)
| Throw (e : Exn).

(** One pass of the loop: the decision, and for an escalation the
    [try]/[catch] around [_submitTransactionAsync]. *)
Definition watchIteration (expiry : Q) (nonce : Z) (i : WatchInputs) : WatchAction :=
  match watchDecision expiry i with
  | Leave status => Return status
  | Watch => KeepWatching
  | Fail e => Throw e
  | Escalate gasFees =>
      match _submitTransactionAsync gasFees nonce (nowMs i) (broadcast i) with
      | Returned newTransaction => Resubmitted gasFees newTransaction
      | Thrown err =>
          if isNonceTooLow err
          then ResubmitNonceTooLow gasFees
          else Throw err
      end
  end.

(** Whether a pass sent, or tried to send, a replacement transaction. *)
Definition submitsTransaction (a : WatchAction) : bool :=
  match a with
  | Resubmitted _ _ | ResubmitNonceTooLow _ => true
  | _ => false
  end.

(** The loop over a finite script of passes: the final outcome when one
    pass returns or throws ([None] while it is still watching), and the
    submissions added on the way. *)
Fixpoint watchLoop (expiry : Q) (nonce : Z) (script : list WatchInputs)
  : option (Outcome RfqmJobStatus) * list RfqmV2TransactionSubmissionEntity :=
  match script with
  | [] => (None, [])
  | i :: rest =>
      match watchIteration expiry nonce i with
      | Return s => (Some (Returned s), [])
      | Throw e => (Some (Thrown e), [])
      | Resubmitted _ tx =>
          let (r, txs) := watchLoop expiry nonce rest in (r, tx :: txs)
      | KeepWatching | ResubmitNonceTooLow _ => watchLoop expiry nonce rest
      end
  end.

(** ** Job preparation: last look

    [prepareV2JobAsync] runs against the job store, the chain and the
    maker's quote server.  The world holds the job's stored row, the local
    clone [_job] the method mutates, the number of [updateRfqmJobAsync]
    calls made so far and the trace of external interactions; the
    environment scripts the answers of the outside. *)

(** [OtcOrder] of [@0x/protocol-utils], the fields the service reads. *)
Record OtcOrder : Type := mkOtcOrder {
  otc_maker : string;
  otc_taker : string;
  otc_makerToken : string;
  otc_takerToken : string;
  otc_makerAmount : BigNumber.t;
  otc_takerAmount : BigNumber.t;
  otc_expiry : Q                          (* seconds, a decoded 64-bit field *)
}.

(** An indicative quote as the maker's price endpoint answers it. *)
Record PriceResponse : Type := mkPriceResponse {
  pr_makerAmount : BigNumber.t;
  pr_takerAmount : BigNumber.t
}.

Inductive LogLevel := LogInfo | LogWarn | LogError.

Inductive Event : Type :=
| EvUpdateJob (j : RfqmV2JobEntity)          (* [updateRfqmJobAsync(j)] stored [j] *)
| EvUpdateJobRejected (j : RfqmV2JobEntity)  (* [updateRfqmJobAsync(j)] threw *)
| EvGetTokenBalances
| EvSign (attemptNum : nat)                  (* a sign request sent to the maker *)
| EvGetPrice                                 (* the decline-to-sign price request *)
| EvIsValidOrderSigner
| EvEstimateGas (attemptNum : nat)
| EvGetCurrentBlock
| EvLog (level : LogLevel) (message : string).

Record World : Type := mkWorld {
  stored : RfqmV2JobEntity;
  _job : RfqmV2JobEntity;
  updates : nat;
  trace : list Event
}.

Record Env : Type := mkEnv {
  findV2TransactionSubmissionsByOrderHashAsync : list RfqmV2TransactionSubmissionEntity;
  updateRejects : nat -> bool;     (* does the n-th [updateRfqmJobAsync] call throw? *)
  presignBalances : Outcome (BigNumber.t * BigNumber.t);
  signV2Async : nat -> Outcome (option Signature);     (* by attempt number, from 0 *)
  getPriceV2Async : Outcome (option PriceResponse);
  isValidOrderSignerAsync : Outcome bool;
  estimateGasForFillTakerSignedOtcOrderAsync : nat -> Outcome Z;
  diagnosticBalances : Outcome (BigNumber.t * BigNumber.t);
  getCurrentBlockAsync : Outcome Z
}.

(** State and exceptions: a thrown error keeps the world reached so far,
    as mutations made before a JavaScript [throw] stay made. *)
Definition M (A : Type) : Type := World -> Outcome A * World.

Definition ret {A} (a : A) : M A := fun w => (Returned a, w).

Definition bind {A B} (c : M A) (k : A -> M B) : M B :=
  fun w => match c w with
           | (Returned a, w') => k a w'
           | (Thrown e, w') => (Thrown e, w')
           end.

Definition throw {A} (e : Exn) : M A := fun w => (Thrown e, w).

Definition try_catch {A} (c : M A) (handler : Exn -> M A) : M A :=
  fun w => match c w with
           | (Returned a, w') => (Returned a, w')
           | (Thrown e, w') => handler e w'
           end.

Declare Scope m_scope.
Delimit Scope m_scope with m.
Notation "x <- c ;; k" := (bind c (fun x => k))
  (at level 61, c at next level, right associativity) : m_scope.
Notation "c ;; k" := (bind c (fun _ => k))
  (at level 61, right associativity) : m_scope.

Definition emit (e : Event) : M unit :=
  fun w => (Returned tt, mkWorld (stored w) (_job w) (updates w) (trace w ++ [e])).

Definition log (level : LogLevel) (message : string) : M unit :=
  emit (EvLog level message).

Definition getJob : M RfqmV2JobEntity := fun w => (Returned (_job w), w).

Definition modifyJob (f : RfqmV2JobEntity -> RfqmV2JobEntity) : M unit :=
  fun w => (Returned tt, mkWorld (stored w) (f (_job w)) (updates w) (trace w)).

(** An awaited external call whose answer the environment scripts. *)
Definition await {A} (ev : Event) (answer : Outcome A) : M A :=
  fun w => (answer, mkWorld (stored w) (_job w) (updates w) (trace w ++ [ev])).

(** [this._dbUtils.updateRfqmJobAsync(_job)]: a full overwrite of the
    stored row, unless the store rejects the call. *)
Definition updateRfqmJobAsync (env : Env) : M unit :=
  fun w =>
    if updateRejects env (updates w)
    then (Thrown (Error "updateRfqmJobAsync failed"),
          mkWorld (stored w) (_job w) (S (updates w))
                  (trace w ++ [EvUpdateJobRejected (_job w)]))
    else (Returned tt,
          mkWorld (_job w) (_job w) (S (updates w))
                  (trace w ++ [EvUpdateJob (_job w)])).

(** [retry(f, { maxAttempts, handleError })] of [@lifeomic/attempt]: [f] is
    tried again after a failure, [handleError] sees every failure, and the
    last failure is thrown again once no attempt remains.  Attempts are
    numbered from 0; the delays between them are not modelled. *)
Fixpoint retry {A} (attemptsRemaining : nat) (attemptNum : nat)
  (f : nat -> M A) (handleError : Exn -> nat -> nat -> M unit) : M A :=
  match attemptsRemaining with
  | O => throw (Error "retry: no attempts")
  | S remaining =>
      try_catch (f attemptNum)
        (fun e =>
           bind (handleError e attemptNum remaining) (fun _ =>
           match remaining with
           | O => throw e
           | S _ => retry remaining (S attemptNum) f handleError
           end))
  end.

Definition lowerAscii (c : ascii) : ascii :=
  let n := nat_of_ascii c in
  if (Nat.leb 65 n && Nat.leb n 90)%bool then ascii_of_nat (n + 32) else c.

(** [s.toLowerCase()], on ASCII (addresses are hexadecimal strings) *)
Fixpoint toLowerCase (s : string) : string :=
  match s with
  | EmptyString => EmptyString
  | String c rest => String (lowerAscii c) (toLowerCase rest)
  end.

Definition signature_rs_eqb (a b : Signature) : bool :=
  String.eqb (sig_r a) (sig_r b) && String.eqb (sig_s a) (sig_s b).

Section PrepareV2Job.

Local Open Scope m_scope.

(** Library and helper functions the method calls and the sources do not
    include: the BigNumber parser and the expiry decoder of
    [validateJob], the entity converters, signature padding and signer
    recovery, the ABI encoders of the exchange proxy wrapper with the
    affiliate attribution, and the arithmetic of the rejection price
    delta, a number no branch depends on. *)
Variable BigNumber_ofString : string -> BigNumber.t.
Variable parseExpiryAndNonce_expiry : BigNumber.t -> BigNumber.t.
Variable storedOtcOrderToOtcOrder : option StoredOtcOrder -> OtcOrder.
Variable padSignature : Signature -> Signature.
Variable getSignerFromHash : string -> Signature -> string.
Variable fillTakerSignedOtcOrder : OtcOrder -> Signature -> Signature -> string.
Variable fillTakerSignedOtcOrderForEth : OtcOrder -> Signature -> Signature -> string.
Variable attributeCallData : string -> option string -> string.
Variable priceDifferenceBps : OtcOrder -> PriceResponse -> option Z.

Variable env : Env.

(** [RfqBlockchainUtils.generateTakerSignedOtcOrderCallData] *)
Definition generateTakerSignedOtcOrderCallData (order : OtcOrder)
  (makerSig takerSig : Signature) (unwrap : bool) (affiliate : option string) : string :=
  let callData :=
    if unwrap
    then fillTakerSignedOtcOrderForEth order makerSig takerSig
    else fillTakerSignedOtcOrder order makerSig takerSig in
  attributeCallData callData affiliate.

Definition setStatusAndUpdate (s : RfqmJobStatus) : M unit :=
  modifyJob (set_status s) ;; updateRfqmJobAsync env.

(** `validate that order is fillable by both the maker and the taker` *)
Definition presignValidation (otcOrder : OtcOrder) : M unit :=
  balances <- await EvGetTokenBalances (presignBalances env) ;;
  let (makerBalance, takerBalance) := (balances : BigNumber.t * BigNumber.t) in
  if BigNumber.lt makerBalance (otc_makerAmount otcOrder)
     || BigNumber.lt takerBalance (otc_takerAmount otcOrder)
  then
    log LogError "Order failed pre-sign validation" ;;
    setStatusAndUpdate FailedPresignValidationFailed ;;
    throw (Error "Order failed pre-sign validation")
  else ret tt.

(** The sign request with its bounded retry; a final failure sets
    [FailedSignFailed]. *)
Definition requestMakerSignature : M (option Signature) :=
  try_catch
    (retry 3 0
       (fun attemptNum => await (EvSign attemptNum) (signV2Async env attemptNum))
       (fun _ _ _ =>
          log LogWarn "Error encountered while attempting to get market maker signature"))
    (fun _ =>
       log LogError "RFQM v2 job failed due to market maker sign failure" ;;
       setStatusAndUpdate FailedSignFailed ;;
       throw (Error "Job failed during market maker sign attempt")).

(** The price re-check after a decline: the [try] block with its inner
    [try] around saving the delta, and the [catch] that logs. *)
Definition declineToSignPriceCheck (otcOrder : OtcOrder) : M unit :=
  try_catch
    (priceResponse <- await EvGetPrice (getPriceV2Async env) ;;
     match priceResponse with
     | None => throw (Error "Failed to get a price response")
     | Some priceResponse =>
         log LogInfo "Decline to sign price check" ;;
         try_catch
           (modifyJob (set_llRejectPriceDifferenceBps
                         (priceDifferenceBps otcOrder priceResponse)) ;;
            updateRfqmJobAsync env)
           (fun _ => log LogWarn "Saving LL reject price difference failed")
     end)
    (fun _ => log LogWarn "Encountered error during decline to sign price check").

(** The branch `Market Maker has declined to sign the transaction`. *)
Definition makerDeclinedToSign {A} (otcOrder : OtcOrder) : M A :=
  modifyJob (set_lastLookResult false) ;;
  setStatusAndUpdate FailedLastLookDeclined ;;
  declineToSignPriceCheck otcOrder ;;
  throw (Error "Market Maker declined to sign").

(** The [else] branch of `if (_job.makerSignature)`: balances, the sign
    request, and the bookkeeping of its answer.  Returns the value of the
    local variable [makerSignature]. *)
Definition lastLook (otcOrder : OtcOrder) : M Signature :=
  presignValidation otcOrder ;;
  response <- requestMakerSignature ;;
  log LogInfo "Got signature response from market maker" ;;
  match response with
  | None => makerDeclinedToSign otcOrder
  | Some makerSig =>
      let paddedSignature := padSignature makerSig in
      makerSig' <-
        (if negb (signature_rs_eqb paddedSignature makerSig)
         then log LogWarn "Got market maker signature with missing bytes" ;;
              ret paddedSignature
         else ret makerSig) ;;
      modifyJob (set_makerSignature paddedSignature) ;;
      modifyJob (set_lastLookResult true) ;;
      setStatusAndUpdate PendingLastLookAccepted ;;
      ret makerSig'
  end.

(** `Verify the signer was the maker` *)
Definition verifySigner (job : RfqmV2JobEntity) (makerSig : Signature) : M unit :=
  match job_order job with
  | None => throw TypeError
  | Some order =>
      let signerAddress := toLowerCase (getSignerFromHash (orderHash job) makerSig) in
      let makerAddress := toLowerCase (maker (so_order order)) in
      if String.eqb signerAddress makerAddress then ret tt
      else
        log LogInfo "Possible use of smart contract wallet" ;;
        isValidSigner <- await EvIsValidOrderSigner (isValidOrderSignerAsync env) ;;
        if (isValidSigner : bool) then ret tt
        else
          setStatusAndUpdate FailedSignFailed ;;
          throw (Error "Invalid order signer address")
  end.

(** The [eth_call] validation with its retry, and the diagnostics
    gathered when it fails for good. *)
Definition ethCallValidation : M unit :=
  try_catch
    (retry 3 0
       (fun attemptNum =>
          await (EvEstimateGas attemptNum)
                (estimateGasForFillTakerSignedOtcOrderAsync env attemptNum) ;;
          ret tt)
       (fun _ _ _ => log LogWarn "Error during eth_call validation. Retrying."))
    (fun _ =>
       setStatusAndUpdate FailedEthCallFailed ;;
       log LogError "eth_call validation failed" ;;
       try_catch
         (await EvGetTokenBalances (diagnosticBalances env) ;;
          await EvGetCurrentBlock (getCurrentBlockAsync env) ;;
          log LogInfo "Extra context after eth_call validation failed")
         (fun _ => log LogWarn "Failed to get extra context after eth_call validation failed") ;;
       throw (Error "Eth call validation failed")).

(** The body of [prepareV2JobAsync(job, workerAddress, now)] once [_job]
    is cloned. *)
Definition prepareV2JobBody (job : RfqmV2JobEntity) (now : Z)
  : M (string * RfqmV2JobEntity) :=
  let otcOrder := storedOtcOrderToOtcOrder (job_order job) in
  let takerSig := takerSignature job in
  match findV2TransactionSubmissionsByOrderHashAsync env with
  | _ :: _ =>
      match makerSignature job with
      | None => throw (Error "Encountered a job with submissions but no maker signature")
      | Some makerSig =>
          match takerSig with
          | None => throw (Error "Encountered a job with submissions but no taker signature")
          | Some takerSig =>
              j <- getJob ;;
              ret (generateTakerSignedOtcOrderCallData otcOrder makerSig takerSig
                     (isUnwrap j) (affiliateAddress j), j)
          end
      end
  | [] =>
      match validateJob BigNumber_ofString parseExpiryAndNonce_expiry job now with
      | Some errorStatus =>
          setStatusAndUpdate errorStatus ;;
          log LogError "Job failed validation" ;;
          throw (Error "Job failed validation")
      | None =>
          match takerSig with
          | None => throw (Error "No taker signature present")
          | Some takerSig =>
              (if RfqmJobStatus_eqb (job_status job) PendingEnqueued
               then setStatusAndUpdate PendingProcessing
               else ret tt) ;;
              makerSig <-
                match makerSignature job with
                | Some makerSig => log LogInfo "Order already signed" ;; ret makerSig
                | None => lastLook otcOrder
                end ;;
              verifySigner job makerSig ;;
              j <- getJob ;;
              match makerSignature j with
              | None => throw TypeError
              | Some jobMakerSig =>
                  let calldata :=
                    generateTakerSignedOtcOrderCallData otcOrder jobMakerSig takerSig
                      (isUnwrap j) (affiliateAddress j) in
                  ethCallValidation ;;
                  j' <- getJob ;;
                  ret (calldata, j')
              end
          end
      end
  end.

(** [prepareV2JobAsync]: the body run on a fresh clone of [job], the
    stored row being the job the worker has just written. *)
Definition prepareV2JobAsync (job : RfqmV2JobEntity) (now : Z)
  : Outcome (string * RfqmV2JobEntity) * World :=
  prepareV2JobBody job now (mkWorld job job 0 []).

End PrepareV2Job.

(** The answer of the maker's sign endpoint as the retry sees it: that of
    the first of the three attempts that does not throw. *)
Definition signResponse (env : Env) : option (option Signature) :=
  match signV2Async env 0 with
  | Returned r => Some r
  | Thrown _ =>
    match signV2Async env 1 with
    | Returned r => Some r
    | Thrown _ =>
      match signV2Async env 2 with
      | Returned r => Some r
      | Thrown _ => None
      end
    end
  end.

(** The number of [updateRfqmJobAsync] calls a valid job makes before the
    last look: the one that moves it out of [PendingEnqueued]. *)
Definition updatesBeforeLastLook (job : RfqmV2JobEntity) : nat :=
  if RfqmJobStatus_eqb (job_status job) PendingEnqueued then 1 else 0.

(** The fields of a job that no step of the preparation writes. *)
Definition framed (j j' : RfqmV2JobEntity) : Prop :=
  takerSignature j' = takerSignature j /\ job_order j' = job_order j /\
  isUnwrap j' = isUnwrap j /\ affiliateAddress j' = affiliateAddress j.

Definition isSignEvent (e : Event) : bool :=
  match e with EvSign _ => true | _ => false end.

Definition isPriceEvent (e : Event) : bool :=
  match e with EvGetPrice => true | _ => false end.

(** The store accepted an update that records the decline. *)
Definition isDeclineRecorded (e : Event) : bool :=
  match e with
  | EvUpdateJob j =>
      RfqmJobStatus_eqb (job_status j) FailedLastLookDeclined
      && match lastLookResult j with Some false => true | _ => false end
  | _ => false
  end.

(** The first [p] event of a trace comes before any [q] event. *)
Fixpoint firstBefore (p q : Event -> bool) (tr : list Event) : bool :=
  match tr with
  | [] => false
  | e :: rest => if p e then true else if q e then false else firstBefore p q rest
  end.

(** ** Submission of a taker-signed order *)

(** [RfqmV2QuoteEntity] *)
Record RfqmV2QuoteEntity : Type := mkQuote {
  q_orderHash : string;
  q_order : option StoredOtcOrder;
  q_makerUri : option string;
  q_fee : option StoredFee;
  q_integratorId : option string;
  q_affiliateAddress : option string;
  q_isUnwrap : bool
}.

(** The quote and job tables of the store. *)
Record Store : Type := mkStore {
  quotes : list RfqmV2QuoteEntity;
  jobs : list RfqmV2JobEntity
}.

(** Modelled from the spec: the repository interface of the job store,
    whose implementation ([utils/rfqm_db_utils]) the sources do not
    include.  A quote is found by its order hash; the jobs with one of
    the given statuses are selected; writing a job is an insert that
    fails if the hash exists. *)
Definition findV2QuoteByOrderHashAsync (st : Store) (hash : string)
  : option RfqmV2QuoteEntity :=
  find (fun q => String.eqb (q_orderHash q) hash) (quotes st).

Definition findV2JobsWithStatusesAsync (st : Store) (statuses : list RfqmJobStatus)
  : list RfqmV2JobEntity :=
  filter (fun j => existsb (RfqmJobStatus_eqb (job_status j)) statuses) (jobs st).

Definition writeV2JobAsync (st : Store) (j : RfqmV2JobEntity) : Outcome Store :=
  if existsb (fun j' => String.eqb (orderHash j') (orderHash j)) (jobs st)
  then Thrown (Error "duplicate key value violates unique constraint")
  else Returned (mkStore (quotes st) (jobs st ++ [j])).

Definition option_string_eqb (a b : option string) : bool :=
  match a, b with
  | Some x, Some y => String.eqb x y
  | None, None => true
  | _, _ => false
  end.

(** [o?.order.taker.toLowerCase()] and [o?.order.takerToken.toLowerCase()] *)
Definition takerOf (o : option StoredOtcOrder) : option string :=
  option_map (fun o => toLowerCase (taker (so_order o))) o.

Definition takerTokenOf (o : option StoredOtcOrder) : option string :=
  option_map (fun o => toLowerCase (takerToken (so_order o))) o.

(** The predicate of [pendingJobs.some(...)]: same taker, same taker
    token, another order hash. *)
Definition conflictsWith (quote : RfqmV2QuoteEntity) (job : RfqmV2JobEntity) : bool :=
  option_string_eqb (takerOf (job_order job)) (takerOf (q_order quote))
  && option_string_eqb (takerTokenOf (job_order job)) (takerTokenOf (q_order quote))
  && negb (String.eqb (orderHash job) (q_orderHash quote)).

Definition pendingStatuses : list RfqmJobStatus :=
  [PendingEnqueued; PendingProcessing; PendingLastLookAccepted; PendingSubmitted].

Record SubmitEnv : Type := mkSubmitEnv {
  currentTimeMs : Z;
  tokenBalances : option (BigNumber.t * BigNumber.t);   (* [None]: the call failed *)
  enqueueJob : Outcome unit
}.

Section SubmitTakerSignedOtcOrder.

Variable getHash : OtcOrder -> string.
Variable padSignature : Signature -> Signature.
Variable getSignerFromHash : string -> Signature -> string.
Variable RFQM_MINIMUM_EXPIRY_DURATION_MS : Z.

(** [submitTakerSignedOtcOrderAsync(params)]: the response (the order
    hash) or the error thrown, and the store afterwards. *)
Definition submitTakerSignedOtcOrderAsync (st : Store) (env : SubmitEnv)
  (order : OtcOrder) (signature : Signature)
  : Outcome string * Store :=
  let orderHash := getHash order in
  let expiry := otc_expiry order in
  let takerAddress := toLowerCase (otc_taker order) in
  match findV2QuoteByOrderHashAsync st orderHash with
  | None => (Thrown (NotFoundError "quote not found"), st)
  | Some quote =>
    if negb (isGreaterThan (expiry * inject_Z ONE_SECOND_MS)
               (inject_Z (currentTimeMs env + RFQM_MINIMUM_EXPIRY_DURATION_MS)))
    then (Thrown (ValidationError "expiryAndNonce" "FieldInvalid"
                    "order will expire too soon"), st)
    else
      let pendingJobs := findV2JobsWithStatusesAsync st pendingStatuses in
      if existsb (conflictsWith quote) pendingJobs
      then (Thrown (TooManyRequestsError
              "a pending trade for this taker and takertoken already exists"), st)
      else
        let paddedSignature := padSignature signature in
        let takerSignature :=
          if negb (signature_rs_eqb paddedSignature signature)
          then paddedSignature else signature in
        let signerAddress := toLowerCase (getSignerFromHash orderHash takerSignature) in
        if negb (String.eqb signerAddress takerAddress)
        then (Thrown (ValidationError "signature" "InvalidSignatureOrHash"
                        "signature is not valid"), st)
        else
          match tokenBalances env with
          | None => (Thrown (Error "getTokenBalancesAsync failed"), st)
          | Some (makerBalance, takerBalance) =>
            if BigNumber.lt makerBalance (otc_makerAmount order)
               || BigNumber.lt takerBalance (otc_takerAmount order)
            then (Thrown (ValidationError "n/a" "InvalidOrder"
                            "order is not fillable"), st)
            else
              let rfqmJobOpts :=
                mkJob (q_orderHash quote) expiry (q_makerUri quote) (q_order quote)
                      (q_fee quote) (Some takerSignature) None PendingEnqueued
                      None None None (q_integratorId quote) (q_isUnwrap quote)
                      (q_affiliateAddress quote) in
              match writeV2JobAsync st rfqmJobOpts with
              | Thrown _ =>
                  (Thrown (InternalServerError
                     "failed to queue the quote for submission, it may have already been submitted"),
                   st)
              | Returned st' =>
                  match enqueueJob env with
                  | Thrown _ =>
                      (Thrown (InternalServerError
                         "failed to queue the quote for submission, it may have already been submitted"),
                       st')
                  | Returned _ => (Returned (q_orderHash quote), st')
                  end
              end
          end
  end.

End SubmitTakerSignedOtcOrder.

(** The call threw a [TooManyRequestsError]. *)
Definition isTooManyRequests {A} (r : Outcome A) : Prop :=
  exists message, r = Thrown (TooManyRequestsError message).

(** * The rest of the service

    The remaining methods of [RfqmService] and the helpers of
    [RfqBlockchainUtils] they rely on. *)

(** ** Replacement rule and proportional amounts *)

Definition MIN_GAS_PRICE_INCREASE : Q := 1 # 10.

(** [RfqmService.shouldResubmitTransaction]: Geth replaces a transaction
    only for a gas price at least 10% above the one it replaces. *)
Definition shouldResubmitTransaction (gasFees : GasFees) (gasPriceEstimate : Q) : bool :=
  isGreaterThanOrEqualTo gasPriceEstimate
    (maxFeePerGas gasFees * (MIN_GAS_PRICE_INCREASE + 1)).

Section ProportionalAmounts.

Variable DECIMAL_PLACES : nat.

(** [_getSellAmountGivenBuyAmountAndQuote]: [x / buyAmount =
    quotedTakerAmount / quotedMakerAmount], rounded to an integer
    ([decimalPlaces(0)] rounds half up, the library's default mode). *)
Definition _getSellAmountGivenBuyAmountAndQuote
  (buyAmount quotedTakerAmount quotedMakerAmount : BigNumber.t) : BigNumber.t :=
  BigNumber.decimalPlaces 0 BigNumber.ROUND_HALF_UP
    (BigNumber.times (BigNumber.div DECIMAL_PLACES quotedTakerAmount quotedMakerAmount)
                     buyAmount).

(** [_getBuyAmountGivenSellAmountAndQuote] *)
Definition _getBuyAmountGivenSellAmountAndQuote
  (sellAmount quotedTakerAmount quotedMakerAmount : BigNumber.t) : BigNumber.t :=
  BigNumber.decimalPlaces 0 BigNumber.ROUND_HALF_UP
    (BigNumber.times (BigNumber.div DECIMAL_PLACES quotedMakerAmount quotedTakerAmount)
                     sellAmount).

(** `Prepare the final takerAmount and makerAmount` of
    [fetchFirmQuoteAsync]: the requested side is returned as requested,
    the other side in proportion to the best quote.  [isSelling] is
    [sellAmount !== undefined]; the pair is (sellAmount, buyAmount) of the
    response. *)
Definition firmQuoteAmounts (sellAmount buyAmount : option BigNumber.t)
  (quotedTakerAmount quotedMakerAmount : BigNumber.t)
  : option BigNumber.t * option BigNumber.t :=
  match sellAmount with
  | Some sell =>
      (Some sell,
       Some (_getBuyAmountGivenSellAmountAndQuote sell quotedTakerAmount quotedMakerAmount))
  | None =>
      (option_map (fun buy =>
         _getSellAmountGivenBuyAmountAndQuote buy quotedTakerAmount quotedMakerAmount)
         buyAmount,
       buyAmount)
  end.

End ProportionalAmounts.

(** ** Recovery of presubmitted transactions and the first submission *)

Definition set_sub_status (st : RfqmTransactionSubmissionStatus)
  (s : RfqmV2TransactionSubmissionEntity) : RfqmV2TransactionSubmissionEntity :=
  mkSubmission (transactionHash s) (createdAt s) st (sub_nonce s)
               (sub_maxFeePerGas s) (sub_maxPriorityFeePerGas s).

Definition isPresubmit (s : RfqmV2TransactionSubmissionEntity) : bool :=
  match sub_status s with TxPresubmit => true | _ => false end.

(** [_recoverPresubmitTransactionsAsync]: a submission that is not in
    [Presubmit] is kept; one in [Presubmit] is looked up on the network by
    its hash ([getTransactionAsync] answers whether a transaction came
    back), promoted to [Submitted] and written to the store when found,
    dropped from the working set when not.  Returns the working set and
    the submissions written.  A call that rejects rejects the whole
    recovery. *)
Fixpoint _recoverPresubmitTransactionsAsync
  (getTransactionAsync : option string -> Outcome bool)
  (transactionSubmissions : list RfqmV2TransactionSubmissionEntity)
  : Outcome (list RfqmV2TransactionSubmissionEntity
             * list RfqmV2TransactionSubmissionEntity) :=
  match transactionSubmissions with
  | [] => Returned ([], [])
  | transactionSubmission :: rest =>
      if isPresubmit transactionSubmission
      then
        match getTransactionAsync (transactionHash transactionSubmission) with
        | Thrown e => Thrown e
        | Returned transactionResponse =>
            match _recoverPresubmitTransactionsAsync getTransactionAsync rest with
            | Thrown e => Thrown e
            | Returned (kept, written) =>
                if transactionResponse
                then
                  let promoted := set_sub_status TxSubmitted transactionSubmission in
                  Returned (promoted :: kept, promoted :: written)
                else Returned (kept, written)
            end
        end
      else
        match _recoverPresubmitTransactionsAsync getTransactionAsync rest with
        | Thrown e => Thrown e
        | Returned (kept, written) => Returned (transactionSubmission :: kept, written)
        end
  end.

Definition isLessThan (a b : Q) : bool := negb (Qle_bool b a).

(** What [submitJobToChainAsync] reads from outside before and during the
    watch loop. *)
Record ChainEnv : Type := mkChainEnv {
  previousSubmissionsWithPresubmits : list RfqmV2TransactionSubmissionEntity;
  getTransactionAsync : option string -> Outcome bool;
  getGasPriceEstimationAsync : Outcome Q;
  updateJobStatus : Outcome unit;        (* the [updateRfqmJobAsync] before the loop *)
  getNonceAsync : Outcome Z;
  estimateGasForExchangeProxyCallAsync : Outcome Z;
  firstBroadcast : Outcome string;
  contextNonce : Z;                      (* [submissionContext.nonce] of recovered submissions *)
  passes : list WatchInputs
}.

(** What a call of [submitJobToChainAsync] did. *)
Record ChainRun : Type := mkChainRun {
  run_outcome : option (Outcome RfqmJobStatus);  (* [None]: still watching when the script ends *)
  run_statusWritten : option RfqmJobStatus;      (* the job status stored before the loop *)
  run_nonce : option Z;                          (* the nonce of this call's transactions *)
  run_gasEstimate : option Z;                    (* the gas limit of this call's transactions *)
  run_submitted : list RfqmV2TransactionSubmissionEntity
                                                 (* the submissions it created, in order *)
}.

Section SubmitJobToChain.

Variable initialMaxPriorityFeePerGasGwei : Q.
Variable GWEI_DECIMALS : nat.

Definition initialMaxPriorityFeePerGas : Q :=
  initialMaxPriorityFeePerGasGwei * inject_Z (10 ^ Z.of_nat GWEI_DECIMALS).

Definition chainFailure (e : Exn) (written : option RfqmJobStatus) : ChainRun :=
  mkChainRun (Some (Thrown e)) written None None [].

(** [submitJobToChainAsync(job, workerAddress, calldata, now)] *)
Definition submitJobToChainAsync (job : RfqmV2JobEntity) (now : Z) (env : ChainEnv)
  : ChainRun :=
  match _recoverPresubmitTransactionsAsync (getTransactionAsync env)
          (previousSubmissionsWithPresubmits env) with
  | Thrown e => chainFailure e None
  | Returned (previousSubmissions, _) =>
    match getGasPriceEstimationAsync env with
    | Thrown e => chainFailure e None
    | Returned gasPriceEstimate =>
      let gasFees := initialGasFees gasPriceEstimate initialMaxPriorityFeePerGas in
      match previousSubmissions with
      | [] =>
          let expiry := job_expiry job in
          let nowSeconds := inject_Z now / inject_Z ONE_SECOND_MS in
          if isLessThan expiry nowSeconds
          then
            match updateJobStatus env with
            | Thrown e => chainFailure e None
            | Returned _ =>
                mkChainRun (Some (Returned FailedExpired)) (Some FailedExpired)
                           None None []
            end
          else
            match updateJobStatus env with
            | Thrown e => chainFailure e None
            | Returned _ =>
              match getNonceAsync env with
              | Thrown e => chainFailure e (Some PendingSubmitted)
              | Returned nonce =>
                match estimateGasForExchangeProxyCallAsync env with
                | Thrown e => chainFailure e (Some PendingSubmitted)
                | Returned gasEstimate =>
                  match _submitTransactionAsync gasFees nonce now (firstBroadcast env) with
                  | Thrown e => chainFailure e (Some PendingSubmitted)
                  | Returned firstSubmission =>
                      let (result, added) :=
                        watchLoop (job_expiry job) nonce (passes env) in
                      mkChainRun result (Some PendingSubmitted) (Some nonce)
                                 (Some gasEstimate) (firstSubmission :: added)
                  end
                end
              end
            end
      | _ :: _ =>
          let nonce := contextNonce env in
          let (result, added) := watchLoop (job_expiry job) nonce (passes env) in
          mkChainRun result None (Some nonce) (Some MAX_GAS_ESTIMATE) added
      end
    end
  end.

End SubmitJobToChain.

(** The statuses [submitJobToChainAsync] may return. *)
Definition isFinalChainStatus (s : RfqmJobStatus) : bool :=
  match s with
  | FailedRevertedConfirmed | FailedExpired | SucceededConfirmed => true
  | _ => false
  end.

(** ** Token decimals *)

(** The [_tokenDecimalsCache] map: the latest entry of a key comes
    first. *)
Definition TokenDecimalsCache : Type := list (string * Z).

Definition cacheGet (cache : TokenDecimalsCache) (tokenAddress : string) : option Z :=
  option_map snd (find (fun kv => String.eqb (fst kv) tokenAddress) cache).

Definition cacheSet (cache : TokenDecimalsCache) (tokenAddress : string) (decimals : Z)
  : TokenDecimalsCache :=
  (tokenAddress, decimals) :: cache.

Record DecimalsRun : Type := mkDecimalsRun {
  dr_result : Outcome Z;
  dr_cache : TokenDecimalsCache;
  dr_chainQueried : bool
}.

(** [RfqmService.getTokenDecimalsAsync]: the local token metadata first,
    then the cache (a cached 0 is falsy and does not count), then the
    chain, whose answer is cached. *)
Definition getTokenDecimalsAsync
  (getTokenMetadataIfExists : string -> option Z)
  (onchainDecimals : string -> Outcome Z)
  (cache : TokenDecimalsCache) (tokenAddress : string) : DecimalsRun :=
  match getTokenMetadataIfExists tokenAddress with
  | Some decimals => mkDecimalsRun (Returned decimals) cache false
  | None =>
      match cacheGet cache tokenAddress with
      | Some cachedDecimals =>
          if negb (cachedDecimals =? 0)%Z
          then mkDecimalsRun (Returned cachedDecimals) cache false
          else
            match onchainDecimals tokenAddress with
            | Thrown e => mkDecimalsRun (Thrown e) cache true
            | Returned d => mkDecimalsRun (Returned d) (cacheSet cache tokenAddress d) true
            end
      | None =>
          match onchainDecimals tokenAddress with
          | Thrown e => mkDecimalsRun (Thrown e) cache true
          | Returned d => mkDecimalsRun (Returned d) (cacheSet cache tokenAddress d) true
          end
      end
  end.

(** ** Worker readiness and heartbeat *)

Definition WORKER_HEARTBEAT_FREQUENCY_MS : Z := ONE_SECOND_MS * 30.

Record WorkerEnv : Type := mkWorkerEnv {
  w_gasPrice : Outcome Q;                      (* [getGasPriceEstimationAsync] *)
  w_balance : Outcome BigNumber.t;             (* [getAccountBalanceAsync] *)
  w_unresolvedJobs : Outcome (list string);    (* order hashes of [findV2UnresolvedJobsAsync] *)
  w_isWorkerReady : Outcome bool;              (* [isWorkerReadyAsync] *)
  w_now : Z;                                   (* [Date.now()] at the heartbeat test *)
  w_workerIndex : option Z;                    (* [RFQM_WORKER_INDEX] *)
  w_upsertHeartbeat : Outcome unit;            (* [upsertRfqmWorkerHeartbeatToDbAsync] *)
  w_heartbeatTime : Z                          (* [new Date()] once the heartbeat is stored *)
}.

Record WorkerRun : Type := mkWorkerRun {
  wr_result : Outcome bool;
  wr_lastHeartbeatTime : option Z;             (* [_lastHeartbeatTime] afterwards *)
  wr_reprocessed : list string;                (* jobs handed to [processJobAsync], in order *)
  wr_heartbeatWritten : bool
}.

(** [workerBeforeLogicAsync(workerAddress)].  [processJobAsync] is an
    error boundary, so every unresolved job is reprocessed in turn. *)
Definition workerBeforeLogicAsync (lastHeartbeatTime : option Z) (env : WorkerEnv)
  : WorkerRun :=
  match w_gasPrice env with
  | Thrown _ => mkWorkerRun (Returned false) lastHeartbeatTime [] false
  | Returned _ =>
    match w_balance env with
    | Thrown e => mkWorkerRun (Thrown e) lastHeartbeatTime [] false
    | Returned _ =>
      match w_unresolvedJobs env with
      | Thrown e => mkWorkerRun (Thrown e) lastHeartbeatTime [] false
      | Returned unresolvedJobOrderHashes =>
        match w_isWorkerReady env with
        | Thrown e =>
            mkWorkerRun (Thrown e) lastHeartbeatTime unresolvedJobOrderHashes false
        | Returned false =>
            mkWorkerRun (Returned false) lastHeartbeatTime unresolvedJobOrderHashes false
        | Returned true =>
            if match lastHeartbeatTime with
               | Some last => (w_now env - last <? WORKER_HEARTBEAT_FREQUENCY_MS)%Z
               | None => false
               end
            then mkWorkerRun (Returned true) lastHeartbeatTime
                             unresolvedJobOrderHashes false
            else
              match w_workerIndex env with
              | None =>
                  mkWorkerRun (Returned true) lastHeartbeatTime
                              unresolvedJobOrderHashes false
              | Some _ =>
                  match w_upsertHeartbeat env with
                  | Thrown _ =>
                      mkWorkerRun (Returned true) lastHeartbeatTime
                                  unresolvedJobOrderHashes false
                  | Returned _ =>
                      mkWorkerRun (Returned true) (Some (w_heartbeatTime env))
                                  unresolvedJobOrderHashes true
                  end
              end
        end
      end
    end
  end.

(** ** Job processing *)

Definition set_workerAddress (w : string) (j : RfqmV2JobEntity) : RfqmV2JobEntity :=
  mkJob (orderHash j) (job_expiry j) (makerUri j) (job_order j) (job_fee j)
        (takerSignature j) (makerSignature j) (job_status j) (Some w)
        (lastLookResult j) (llRejectPriceDifferenceBps j) (integratorId j)
        (isUnwrap j) (affiliateAddress j).

(** [job.workerAddress!! && job.workerAddress !== workerAddress] *)
Definition claimedByOther (job : RfqmV2JobEntity) (worker : string) : bool :=
  match workerAddress job with
  | Some w => negb (String.eqb w "") && negb (String.eqb w worker)
  | None => false
  end.

Section ProcessJob.

Local Open Scope m_scope.

Variable BigNumber_ofString : string -> BigNumber.t.
Variable parseExpiryAndNonce_expiry : BigNumber.t -> BigNumber.t.
Variable storedOtcOrderToOtcOrder : option StoredOtcOrder -> OtcOrder.
Variable padSignature : Signature -> Signature.
Variable getSignerFromHash : string -> Signature -> string.
Variable fillTakerSignedOtcOrder : OtcOrder -> Signature -> Signature -> string.
Variable fillTakerSignedOtcOrderForEth : OtcOrder -> Signature -> Signature -> string.
Variable attributeCallData : string -> option string -> string.
Variable priceDifferenceBps : OtcOrder -> PriceResponse -> option Z.

Variable env : Env.

(** The submission step, [submitJobToChainAsync(job, workerAddress,
    calldata)], as any computation over the world: it works on a clone of
    the job it is given and returns the final status. *)
Variable submitToChain : RfqmV2JobEntity -> string -> M RfqmJobStatus.

(** The [try] block of [processJobAsync], the job already looked up. *)
Definition processJobSteps (found : option RfqmV2JobEntity) (worker : string) (now : Z)
  : M unit :=
  match found with
  | None => throw (Error "No job found for order hash")
  | Some job =>
      if claimedByOther job worker
      then throw (Error "Worker was sent a job claimed by a different worker")
      else
        let claimed := set_workerAddress worker job in
        modifyJob (fun _ => claimed) ;;
        updateRfqmJobAsync env ;;
        prepared <-
          prepareV2JobBody BigNumber_ofString parseExpiryAndNonce_expiry
            storedOtcOrderToOtcOrder padSignature getSignerFromHash
            fillTakerSignedOtcOrder fillTakerSignedOtcOrderForEth attributeCallData
            priceDifferenceBps env claimed now ;;
        let (calldata, job') := (prepared : string * RfqmV2JobEntity) in
        finalStatus <- submitToChain job' calldata ;;
        modifyJob (fun _ => set_status finalStatus job') ;;
        updateRfqmJobAsync env ;;
        if RfqmJobStatus_eqb finalStatus FailedExpired
        then throw (Error "Job expired")
        else log LogInfo "Job completed without errors"
  end.

(** [processJobAsync(orderHash, workerAddress)]: the error boundary of
    job processing. *)
Definition processJobBody (found : option RfqmV2JobEntity) (worker : string) (now : Z)
  : M unit :=
  log LogInfo "Start process job" ;;
  try_catch (processJobSteps found worker now)
            (fun _ => log LogError "Job completed with error").

End ProcessJob.

(** ** Helpers of [RfqBlockchainUtils] *)

Definition RFQ_ORDER_FILLED_EVENT_TOPIC0 : string :=
  "0x829fa99d94dc4636925b38632e625736a614c154d55006b7ab6bea979c210c32".
Definition OTC_ORDER_FILLED_EVENT_TOPIC0 : string :=
  "0xac75f773e3a92f1a02b12134d65e1f47f8a14eabe4eaf1e24624918e6a8b269f".

(** [LogEntry] of [ethereum-types] *)
Record LogEntry : Type := mkLogEntry {
  log_address : string;
  log_topics : list string;
  log_data : string
}.

(** [log.topics[0] === topic0] *)
Definition hasTopic0 (topic0 : string) (log : LogEntry) : bool :=
  match log_topics log with
  | t :: _ => String.eqb t topic0
  | [] => false
  end.

Section DecodeLogs.

Variable Decoded : Type.
Variable tryToDecodeLogOrNoop : LogEntry -> Decoded.

(** [getDecodedRfqOrderFillEventLogFromLogs] *)
Fixpoint getDecodedRfqOrderFillEventLogFromLogs (logs : list LogEntry) : Outcome Decoded :=
  match logs with
  | [] => Thrown (Error "no RfqOrderFilledEvent logs among the logs passed into getDecodedRfqOrderFillEventLogFromLogs")
  | log :: rest =>
      if hasTopic0 RFQ_ORDER_FILLED_EVENT_TOPIC0 log
      then Returned (tryToDecodeLogOrNoop log)
      else getDecodedRfqOrderFillEventLogFromLogs rest
  end.

(** [getDecodedOtcOrderFillEventLogFromLogs] *)
Fixpoint getDecodedOtcOrderFillEventLogFromLogs (logs : list LogEntry) : Outcome Decoded :=
  match logs with
  | [] => Thrown (Error "no OtcOrderFilledEvent logs among the logs passed into getDecodedOtcOrderFillEventLogFromLogs")
  | log :: rest =>
      if hasTopic0 OTC_ORDER_FILLED_EVENT_TOPIC0 log
      then Returned (tryToDecodeLogOrNoop log)
      else getDecodedOtcOrderFillEventLogFromLogs rest
  end.

End DecodeLogs.

(** An entry of the [AccessList] that [eth_createAccessList] returns. *)
Record AccessListEntry : Type := mkAccessListEntry {
  al_address : string;
  al_storageKeys : option (list string)
}.

(** [TxAccessList]: an object from address to storage keys, its keys in
    insertion order. *)
Definition TxAccessList : Type := list (string * list string).

(** [o[v.address] = o[v.address] || []; o[v.address].push(...keys)] *)
Fixpoint pushStorageKeys (o : TxAccessList) (address : string) (keys : list string)
  : TxAccessList :=
  match o with
  | [] => [(address, keys)]
  | (a, ks) :: rest =>
      if String.eqb a address
      then (a, ks ++ keys) :: rest
      else (a, ks) :: pushStorageKeys rest address keys
  end.

Definition storageKeysOf (v : AccessListEntry) : list string :=
  match al_storageKeys v with Some keys => keys | None => [] end.

(** The [reduce] of [createAccessListForExchangeProxyCallAsync] *)
Definition toTxAccessList (accessList : list AccessListEntry) : TxAccessList :=
  fold_left (fun o v => pushStorageKeys o (al_address v) (storageKeysOf v))
            accessList [].

Definition accessListGet (o : TxAccessList) (address : string) : option (list string) :=
  option_map snd (find (fun kv => String.eqb (fst kv) address) o).

(** The gas estimate of [createAccessListForExchangeProxyCallAsync]:
    [gasUsed * (buffer + 1)], rounded up to an integer. *)
Definition accessListGasEstimate (gasUsed : Q) (buffer : Q) : Z :=
  Qceiling (gasUsed * (buffer + 1)).

Definition GAS_ESTIMATE_BUFFER : Q := 5 # 10.

(** [RfqBlockchainUtils._getPathByIndex(index)]; [String(index)] of an
    integer is its decimal numeral (below 1e21). *)
Definition _getPathByIndex (index : Q) : Outcome string :=
  if negb (Qle_bool 0 index) || negb (Qeq_bool index (inject_Z (Qfloor index)))
  then Thrown (Error "invalid index")
  else Returned ("m/44'/60'/0'/0/"
                 ++ NilZero.string_of_uint (N.to_uint (Z.to_N (Qfloor index))))%string.

(** * Concrete inputs

    Jobs, orders and environments on which the model is run. *)

Definition sampleSignature : Signature := mkSignature "0x01" "0x02" 27 3.

(** An order whose packed field holds expiry [e] (seconds) in its top 64
    bits, bucket and nonce zero: the decimal string of [e * 2^192]. *)
Definition orderWithPackedField (packed : string) : StoredOtcOrder :=
  mkStoredOtcOrder
    (mkOtcOrderStringFields "0xorigin" "0xMaker" "0xTaker" "0xmakertoken"
       "0xTakerToken" "1000" "2000" packed "0xproxy").

(** expiry = 1 s: [1 * 2^192] *)
Definition packedExpiry1 : string :=
  "6277101735386680763835789423207666416102355444464034512896".

(** expiry = 2000000000 s: [2000000000 * 2^192] *)
Definition packedExpiry2e9 : string :=
  "12554203470773361527671578846415332832204710888928069025792000000000".

Definition sampleFee : StoredFee := mkStoredFee "0xfeetoken" "100" "fixed".

Definition sampleJob (uri : option string) (order : option StoredOtcOrder)
  (fee : option StoredFee) (takerSig makerSig : option Signature)
  (status : RfqmJobStatus) : RfqmV2JobEntity :=
  mkJob "0xhash" (inject_Z 2000000000) uri order fee takerSig makerSig status
        None None None (Some "integrator") false None.

(** A job whose order expired at second 1 and that has no taker
    signature. *)
Definition jobExpiredNoTakerSignature : RfqmV2JobEntity :=
  sampleJob (Some "https://maker") (Some (orderWithPackedField packedExpiry1))
            (Some sampleFee) None None PendingEnqueued.



(** A job that passes validation until year 2033. *)
Definition jobValid : RfqmV2JobEntity :=
  sampleJob (Some "https://maker") (Some (orderWithPackedField packedExpiry2e9))
            (Some sampleFee) (Some sampleSignature) None PendingEnqueued.

Definition jobSucceeded : RfqmV2JobEntity :=
  sampleJob (Some "https://maker") (Some (orderWithPackedField packedExpiry2e9))
            (Some sampleFee) (Some sampleSignature) (Some sampleSignature)
            SucceededConfirmed.

Definition submissionWith (hash : option string)
  (status : RfqmTransactionSubmissionStatus) : RfqmV2TransactionSubmissionEntity :=
  mkSubmission hash 1700000000000 status 7 (inject_Z 100) (inject_Z 2).

Definition gwei (n : Z) : Q := inject_Z (n * 1000000000).

(** A pass of the watch loop at second 1 700 000 000 with no receipt, a
    gas price estimate of [estimate], and the context's latest fees. *)
Definition watchInputsAt (now : Z) (estimate : Q) (fees : GasFees) : WatchInputs :=
  mkWatchInputs None (Returned PendingSubmitted) now (Returned estimate) 2 fees
                (Returned "0xnewhash").

(** Ten seconds before the expiry of [sampleJob] (second 2 000 000 000). *)
Definition beforeExpiryMs : Z := 1999999990000.

(** The first submission at a gas price estimate of 70 gwei and the
    initial tip of 2 gwei: a fee cap of 142 gwei. *)
Definition feesAt70Gwei : GasFees := initialGasFees (gwei 70) (gwei 2).

(** The first submission at a gas price estimate of 20 gwei. *)
Definition feesAt20Gwei : GasFees := initialGasFees (gwei 20) (gwei 2).

(** One token (18 decimals) bought for three tokens (18 decimals). *)
Definition oneToken : N := 1000000000000000000.
Definition threeTokens : N := 3000000000000000000.

(** A store with one quote and one pending job of the same taker and
    taker token (in another letter case) under another order hash. *)
Definition quoteForTaker : RfqmV2QuoteEntity :=
  mkQuote "0xquote" (Some (orderWithPackedField packedExpiry2e9))
          (Some "https://maker") (Some sampleFee) (Some "integrator") None false.

Definition pendingJobOfTaker : RfqmV2JobEntity :=
  mkJob "0xother" (inject_Z 2000000000) (Some "https://maker")
        (Some (mkStoredOtcOrder
                 (mkOtcOrderStringFields "0xorigin" "0xmaker" "0xTAKER"
                    "0xmakertoken" "0xtakertoken" "5" "6" packedExpiry2e9 "0xproxy")))
        (Some sampleFee) (Some sampleSignature) None PendingProcessing
        None None None (Some "integrator") false None.

Definition storeWithPendingJob : Store :=
  mkStore [quoteForTaker] [pendingJobOfTaker].

Definition submittedOrder (expiry : Z) : OtcOrder :=
  mkOtcOrder "0xMaker" "0xTaker" "0xmakertoken" "0xTakerToken"
             (BigNumber.ofZ 1000) (BigNumber.ofZ 2000) (inject_Z expiry).

Definition submitEnvAt (now : Z) : SubmitEnv :=
  mkSubmitEnv now (Some (BigNumber.ofZ 1000, BigNumber.ofZ 2000)) (Returned tt).

(** Stand-ins for the order hash, signature padding and signer recovery. *)
Definition hashOfSample (_ : OtcOrder) : string := "0xquote".
Definition padNothing (s : Signature) : Signature := s.
Definition signerIsTaker (_ : string) (_ : Signature) : string := "0xtaker".

(** Stand-ins for the helpers of [prepareV2JobAsync]. *)
Definition sampleOtcOrder : OtcOrder :=
  mkOtcOrder "0xMaker" "0xTaker" "0xmakertoken" "0xTakerToken"
             (BigNumber.ofZ 1000) (BigNumber.ofZ 2000) (inject_Z 2000000000).

Definition convertSample (_ : option StoredOtcOrder) : OtcOrder := sampleOtcOrder.
Definition signerIsMaker (_ : string) (_ : Signature) : string := "0xmaker".
Definition encodeSample (_ : OtcOrder) (m t : Signature) : string :=
  "0xdc1600f3" ++ sig_r m ++ sig_r t.
Definition encodeSampleForEth (_ : OtcOrder) (m t : Signature) : string :=
  "0x4f948110" ++ sig_r m ++ sig_r t.
Definition attributeNothing (callData : string) (_ : option string) : string := callData.
Definition bpsSample (_ : OtcOrder) (_ : PriceResponse) : option Z := Some 3%Z.

Definition makerSignatureSample : Signature := mkSignature "0x0a" "0x0b" 28 3.

(** The maker's endpoint fails once, then declines; the price re-check
    answers, and the store rejects the update that would save the delta
    (the third update call). *)
Definition envMakerDeclines : Env :=
  mkEnv [] (fun n => Nat.eqb n 2)
        (Returned (BigNumber.ofZ 1000, BigNumber.ofZ 2000))
        (fun attempt => match attempt with
                        | 0%nat => Thrown (Error "socket hang up")
                        | _ => Returned None
                        end)
        (Returned (Some (mkPriceResponse (BigNumber.ofZ 990) (BigNumber.ofZ 2000))))
        (Returned true) (fun _ => Returned 150000%Z)
        (Returned (BigNumber.ofZ 1000, BigNumber.ofZ 2000)) (Returned 17000000%Z).

(** The maker signs at the first attempt and the [eth_call] passes. *)
Definition envMakerSigns : Env :=
  mkEnv [] (fun _ => false)
        (Returned (BigNumber.ofZ 1000, BigNumber.ofZ 2000))
        (fun _ => Returned (Some makerSignatureSample))
        (Returned None)
        (Returned true) (fun _ => Returned 150000%Z)
        (Returned (BigNumber.ofZ 1000, BigNumber.ofZ 2000)) (Returned 17000000%Z).

(** The job is found again after a crash, one submission on record; the
    maker's endpoint would decline if it were asked. *)
Definition envSubmissionsExist : Env :=
  mkEnv [submissionWith (Some "0xaa") TxSubmitted] (fun _ => true)
        (Thrown (Error "unreachable chain"))
        (fun _ => Returned None)
        (Returned None)
        (Returned false) (fun _ => Thrown (Error "execution reverted"))
        (Thrown (Error "unreachable chain")) (Thrown (Error "unreachable chain")).

(** A previous submission that never reached the network, and one that
    did. *)
Definition presubmitLost : RfqmV2TransactionSubmissionEntity :=
  submissionWith (Some "0xlost") TxPresubmit.
Definition presubmitSent : RfqmV2TransactionSubmissionEntity :=
  submissionWith (Some "0xsent") TxPresubmit.

Definition networkKnowsSent (hash : option string) : Outcome bool :=
  match hash with
  | Some h => Returned (String.eqb h "0xsent")
  | None => Returned false
  end.

Definition networkDown (_ : option string) : Outcome bool :=
  Thrown (Error "network down").

(** A pass of the watch loop whose broadcast succeeds, at a gas price
    estimate of 20 gwei. *)
Definition escalatingPass : WatchInputs :=
  watchInputsAt beforeExpiryMs (gwei 20) feesAt20Gwei.

Definition confirmedPass : WatchInputs :=
  mkWatchInputs (Some (mkReceipt "0xblock" 17000000)) (Returned SucceededConfirmed)
                beforeExpiryMs (Returned (gwei 20)) 2 feesAt20Gwei (Returned "0xunused").

(** A fresh job: nothing submitted before, the chain answers, one
    escalation and then a confirmed receipt. *)
Definition chainEnvFresh : ChainEnv :=
  mkChainEnv [presubmitLost] networkKnowsSent (Returned (gwei 20)) (Returned tt)
             (Returned 7%Z) (Returned 150000%Z) (Returned "0xfirst") 0
             [escalatingPass; confirmedPass].


(** A store that holds the quote and no job yet. *)
Definition storeWithQuote : Store := mkStore [quoteForTaker] [].

(** The balances suffice but the queue is down. *)
Definition submitEnvQueueDown (now : Z) : SubmitEnv :=
  mkSubmitEnv now (Some (BigNumber.ofZ 1000, BigNumber.ofZ 2000))
              (Thrown (Error "queue down")).

(** The maker's sign endpoint cannot be reached at any attempt. *)
Definition envMakerUnreachable : Env :=
  mkEnv [] (fun _ => false)
        (Returned (BigNumber.ofZ 1000, BigNumber.ofZ 2000))
        (fun _ => Thrown (Error "socket hang up"))
        (Returned None)
        (Returned true) (fun _ => Returned 150000%Z)
        (Returned (BigNumber.ofZ 1000, BigNumber.ofZ 2000)) (Returned 17000000%Z).

(** A submission step that confirms at once. *)
Definition chainConfirms (_ : RfqmV2JobEntity) (_ : string) : M RfqmJobStatus :=
  ret SucceededConfirmed.

(** A funded worker with index 0 at time [now], no unresolved job, whose
    heartbeat the store accepts and stamps with [now]. *)
Definition workerEnvReady (now : Z) : WorkerEnv :=
  mkWorkerEnv (Returned (gwei 20)) (Returned (BigNumber.ofZ 1000000000000000000))
              (Returned []) (Returned true) now (Some 0%Z) (Returned tt) now.

(** A token the local metadata does not know. *)
Definition noMetadata (_ : string) : option Z := None.


(** * Properties *)

(** ** [validateJob] *)

Section ValidateJobFacts.

Variable BigNumber_ofString : string -> BigNumber.t.
Variable parseExpiryAndNonce_expiry : BigNumber.t -> BigNumber.t.

Local Abbreviation validate := (validateJob BigNumber_ofString parseExpiryAndNonce_expiry).
Local Abbreviation expiryMs := (expiryTimeMs BigNumber_ofString parseExpiryAndNonce_expiry).
Local Abbreviation expired := (expiredAt BigNumber_ofString parseExpiryAndNonce_expiry).

Lemma validateJob_no_maker_uri job now :
  makerUri job = None -> validate job now = Some FailedValidationNoMakerUri.
Proof. intros H. unfold validateJob. now rewrite H. Qed.

Lemma validateJob_no_order job now :
  makerUri job <> None -> job_order job = None ->
  validate job now = Some FailedValidationNoOrder.
Proof.
  intros Hu Ho. unfold validateJob.
  destruct (makerUri job); [|congruence]. now rewrite Ho.
Qed.

Lemma validateJob_no_fee job now :
  makerUri job <> None -> job_order job <> None -> job_fee job = None ->
  validate job now = Some FailedValidationNoFee.
Proof.
  intros Hu Ho Hf. unfold validateJob.
  destruct (makerUri job); [|congruence].
  destruct (job_order job); [|congruence]. now rewrite Hf.
Qed.

Lemma validateJob_expired job now order :
  makerUri job <> None -> job_order job = Some order -> job_fee job <> None ->
  expired order now = true ->
  validate job now = Some FailedExpired.
Proof.
  intros Hu Ho Hf He. unfold validateJob.
  destruct (makerUri job); [|congruence]. rewrite Ho.
  destruct (job_fee job); [|congruence].
  unfold expiredAt in He. cbv zeta. now rewrite He.
Qed.

Lemma validateJob_no_taker_signature job now order :
  makerUri job <> None -> job_order job = Some order -> job_fee job <> None ->
  expired order now = false -> takerSignature job = None ->
  validate job now = Some FailedValidationNoTakerSignature.
Proof.
  intros Hu Ho Hf He Ht. unfold validateJob.
  destruct (makerUri job); [|congruence]. rewrite Ho.
  destruct (job_fee job); [|congruence].
  unfold expiredAt in He. cbv zeta. now rewrite He, Ht.
Qed.

Lemma validateJob_valid_iff job now :
  validate job now = None <->
  makerUri job <> None /\ job_fee job <> None /\ takerSignature job <> None /\
  exists order, job_order job = Some order /\ expired order now = false.
Proof.
  unfold validateJob, expiredAt. split.
  - destruct (makerUri job); [|discriminate].
    destruct (job_order job) as [order|]; [|discriminate].
    destruct (job_fee job); [|discriminate]. cbv zeta.
    destruct (BigNumber.isNaN (expiryMs order) ||
              BigNumber.lte (expiryMs order) (BigNumber.ofZ now)) eqn:He;
      [discriminate|].
    destruct (takerSignature job); [|discriminate].
    intros _. repeat split; try discriminate. now exists order.
  - intros (Hu & Hf & Ht & order & Ho & He).
    destruct (makerUri job); [|congruence]. rewrite Ho.
    destruct (job_fee job); [|congruence]. cbv zeta. rewrite He.
    destruct (takerSignature job); [reflexivity|congruence].
Qed.

End ValidateJobFacts.

(** C4 (as amended).  [validateJob] reports the first violated
    precondition in the order the code tests them: missing maker endpoint,
    missing order, missing fee, then the expiry (the decoded expiry in
    milliseconds is NaN or not after the evaluation time), and the missing
    taker signature last; it returns [null] exactly when none is violated.
    In particular a job with endpoint, order and fee whose decoded expiry
    is not after the evaluation time is [FailedExpired], whatever its
    taker signature. *)
Theorem validateJob_first_violation
  (BigNumber_ofString : string -> BigNumber.t)
  (parseExpiryAndNonce_expiry : BigNumber.t -> BigNumber.t)
  (job : RfqmV2JobEntity) (now : Z) :
  let validate := validateJob BigNumber_ofString parseExpiryAndNonce_expiry in
  let expired := expiredAt BigNumber_ofString parseExpiryAndNonce_expiry in
  (makerUri job = None ->
   validate job now = Some FailedValidationNoMakerUri) /\
  (makerUri job <> None -> job_order job = None ->
   validate job now = Some FailedValidationNoOrder) /\
  (makerUri job <> None -> job_order job <> None -> job_fee job = None ->
   validate job now = Some FailedValidationNoFee) /\
  (forall order,
     makerUri job <> None -> job_order job = Some order -> job_fee job <> None ->
     expired order now = true ->
     validate job now = Some FailedExpired) /\
  (forall order,
     makerUri job <> None -> job_order job = Some order -> job_fee job <> None ->
     expired order now = false -> takerSignature job = None ->
     validate job now = Some FailedValidationNoTakerSignature) /\
  (validate job now = None <->
   makerUri job <> None /\ job_fee job <> None /\ takerSignature job <> None /\
   exists order, job_order job = Some order /\ expired order now = false).
Proof.
  cbv zeta.
  split; [apply validateJob_no_maker_uri|].
  split; [apply validateJob_no_order|].
  split; [apply validateJob_no_fee|].
  split; [intros order; apply validateJob_expired|].
  split; [intros order; apply validateJob_no_taker_signature|].
  apply validateJob_valid_iff.
Qed.

(** The expired job without a taker signature is [FailedExpired]; the
    valid job yields [null]. *)
Lemma validateJob_first_violation_witness :
  validateJob ofDecimalString decodeExpiry jobExpiredNoTakerSignature 2000
    = Some FailedExpired /\
  validateJob ofDecimalString decodeExpiry jobValid 1700000000000 = None.
Proof.
  pose proof (validateJob_first_violation ofDecimalString decodeExpiry
                jobExpiredNoTakerSignature 2000) as H1.
  pose proof (validateJob_first_violation ofDecimalString decodeExpiry
                jobValid 1700000000000) as H2.
  cbv zeta in H1, H2.
  destruct H1 as (_ & _ & _ & Hexp & _).
  destruct H2 as (_ & _ & _ & _ & _ & Hvalid).
  split.
  - apply (Hexp (orderWithPackedField packedExpiry1));
      [discriminate | reflexivity | discriminate | vm_compute; reflexivity].
  - apply Hvalid. repeat split; try discriminate.
    exists (orderWithPackedField packedExpiry2e9). split; vm_compute; reflexivity.
Defined.

(** C4, as stated, fails: on a job that lacks the taker signature and
    whose order has expired, the order of checks of the specification
    gives [FailedValidationNoTakerSignature], the code gives
    [FailedExpired]. *)
Lemma validateJob_order_counterexample :
  takerSignature jobExpiredNoTakerSignature = None /\
  validateJob_as_specified ofDecimalString decodeExpiry
    jobExpiredNoTakerSignature 2000 = Some FailedValidationNoTakerSignature /\
  validateJob ofDecimalString decodeExpiry
    jobExpiredNoTakerSignature 2000 = Some FailedExpired /\
  validateJob ofDecimalString decodeExpiry jobExpiredNoTakerSignature 2000
    <> validateJob_as_specified ofDecimalString decodeExpiry
         jobExpiredNoTakerSignature 2000.
Proof. repeat split; vm_compute; congruence. Qed.




(** ** [getOrderStatusAsync] *)

Lemma filter_length_one {A} (p : A -> bool) (l : list A) :
  List.length (filter p l) = 1%nat <-> exists x, filter p l = [x].
Proof.
  split.
  - destruct (filter p l) as [|x [|y r]]; try discriminate. now exists x.
  - intros (x & ->). reflexivity.
Qed.

Lemma getOrderStatusAsync_succeeded job subs now :
  job_status job = SucceededConfirmed \/ job_status job = SucceededUnconfirmed ->
  getOrderStatusAsync (Some job) subs now =
  match filter isSucceededSubmission subs with
  | [s] =>
      match transformSubmission s with
      | None => Thrown (Error "Successful transaction did not have a hash")
      | Some d =>
          Returned (Some (mkStatusResponse
            (match job_status job with
             | SucceededUnconfirmed => succeeded
             | _ => confirmed
             end) [d]))
      end
  | l => Thrown (ErrorSuccessfulCount (orderHash job) (List.length l))
  end.
Proof.
  intros [H|H]; unfold getOrderStatusAsync; rewrite H; cbn;
    destruct (filter isSucceededSubmission subs) as [|s [|s' r]]; reflexivity.
Qed.

(** C1 (as amended).  For a job whose status is [SucceededConfirmed] or
    [SucceededUnconfirmed], [getOrderStatusAsync] throws whenever the
    number of submissions with a Succeeded status is not exactly one; when
    it is exactly one, it returns exactly one transaction, that
    submission's, if the submission carries a transaction hash, and throws
    if it carries none. *)
Theorem getOrderStatusAsync_exactly_one_success
  (job : RfqmV2JobEntity) (subs : list RfqmV2TransactionSubmissionEntity) (now : Z) :
  job_status job = SucceededConfirmed \/ job_status job = SucceededUnconfirmed ->
  let successful := filter isSucceededSubmission subs in
  (List.length successful <> 1%nat ->
   getOrderStatusAsync (Some job) subs now
     = Thrown (ErrorSuccessfulCount (orderHash job) (List.length successful))) /\
  (List.length successful = 1%nat ->
   exists s, successful = [s] /\
     match transformSubmission s with
     | Some d =>
         exists label,
           getOrderStatusAsync (Some job) subs now
             = Returned (Some (mkStatusResponse label [d]))
           /\ td_hash d <> ""
           /\ transactionHash s = Some (td_hash d)
           /\ (label = confirmed <-> job_status job = SucceededConfirmed)
           /\ (label = succeeded <-> job_status job = SucceededUnconfirmed)
     | None =>
         getOrderStatusAsync (Some job) subs now
           = Thrown (Error "Successful transaction did not have a hash")
     end).
Proof.
  intros Hs. cbv zeta.
  rewrite (getOrderStatusAsync_succeeded job subs now Hs).
  split.
  - intros Hn. destruct (filter isSucceededSubmission subs) as [|s [|s' r]];
      try reflexivity. now elim Hn.
  - intros Hn. apply filter_length_one in Hn. destruct Hn as (s & Hn).
    exists s. split; [exact Hn|]. rewrite Hn.
    destruct (transformSubmission s) as [d|] eqn:Hd; [|reflexivity].
    eexists. split; [reflexivity|].
    unfold transformSubmission in Hd.
    destruct (transactionHash s) as [h|]; [|discriminate].
    destruct (String.eqb h "") eqn:Hh; [discriminate|].
    injection Hd as <-. cbn.
    split; [now apply String.eqb_neq in Hh|].
    split; [reflexivity|].
    destruct Hs as [Hs|Hs]; rewrite Hs; split; split; congruence.
Qed.

Lemma getOrderStatusAsync_exactly_one_success_witness :
  getOrderStatusAsync (Some jobSucceeded)
    [submissionWith (Some "0xaa") TxSubmitted;
     submissionWith (Some "0xbb") TxSucceededConfirmed] 1700000001000
  = Returned (Some (mkStatusResponse confirmed
                      [mkTransactionData "0xbb" 1700000000000]))
  /\
  getOrderStatusAsync (Some jobSucceeded)
    [submissionWith (Some "0xaa") TxSucceededUnconfirmed;
     submissionWith (Some "0xbb") TxSucceededConfirmed] 1700000001000
  = Thrown (ErrorSuccessfulCount "0xhash" 2).
Proof.
  split.
  - destruct (getOrderStatusAsync_exactly_one_success jobSucceeded
                [submissionWith (Some "0xaa") TxSubmitted;
                 submissionWith (Some "0xbb") TxSucceededConfirmed]
                1700000001000 (or_introl eq_refl)) as (_ & H).
    destruct (H eq_refl) as (s & Hs & Hres).
    injection Hs as <-. cbn in Hres.
    destruct Hres as (label & Hres & _ & _ & Hc & _).
    rewrite Hres. now rewrite (proj2 Hc eq_refl).
  - destruct (getOrderStatusAsync_exactly_one_success jobSucceeded
                [submissionWith (Some "0xaa") TxSucceededUnconfirmed;
                 submissionWith (Some "0xbb") TxSucceededConfirmed]
                1700000001000 (or_introl eq_refl)) as (H & _).
    apply H. cbn. discriminate.
Defined.

(** C1, as stated, fails: with exactly one Succeeded submission, which
    has no transaction hash, no transaction is returned; the call
    throws. *)
Lemma getOrderStatusAsync_one_success_counterexample :
  job_status jobSucceeded = SucceededConfirmed /\
  List.length (filter isSucceededSubmission
                 [submissionWith None TxSucceededConfirmed]) = 1%nat /\
  getOrderStatusAsync (Some jobSucceeded)
    [submissionWith None TxSucceededConfirmed] 1700000001000
  = Thrown (Error "Successful transaction did not have a hash").
Proof. repeat split. Qed.

(** ** The watch loop of [submitJobToChainAsync] *)

Lemma isGreaterThan_true a b : isGreaterThan a b = true <-> b < a.
Proof.
  unfold isGreaterThan. rewrite negb_true_iff. split.
  - intros H. apply Qnot_le_lt. intros Hle.
    apply Qle_bool_iff in Hle. congruence.
  - intros H. destruct (Qle_bool a b) eqn:E; [|reflexivity].
    apply Qle_bool_iff in E. exfalso. exact (Qlt_not_le _ _ H E).
Qed.

Lemma isGreaterThan_false a b : isGreaterThan a b = false <-> a <= b.
Proof.
  unfold isGreaterThan. rewrite negb_false_iff. apply Qle_bool_iff.
Qed.

Lemma isGreaterThanOrEqualTo_false a b :
  isGreaterThanOrEqualTo a b = false <-> a < b.
Proof.
  unfold isGreaterThanOrEqualTo. split.
  - intros H. apply Qnot_le_lt. intros Hle.
    apply Qle_bool_iff in Hle. congruence.
  - intros H. destruct (Qle_bool b a) eqn:E; [|reflexivity].
    apply Qle_bool_iff in E. exfalso. exact (Qlt_not_le _ _ H E).
Qed.

(** The seconds past expiration the loop computes. *)
Local Abbreviation secondsPast expiry i :=
  (inject_Z (nowMs i) / inject_Z ONE_SECOND_MS - expiry).

Lemma escalatedGasFees_bounds old est :
  let g := escalatedGasFees old est in
  maxPriorityFeePerGas g == (15 # 10) * maxPriorityFeePerGas old /\
  maxFeePerGas g
    == Qmax ((11 # 10) * maxFeePerGas old) (2 * est + maxPriorityFeePerGas g) /\
  (15 # 10) * maxPriorityFeePerGas old <= maxPriorityFeePerGas g /\
  (11 # 10) * maxFeePerGas old <= maxFeePerGas g.
Proof.
  cbv zeta. unfold escalatedGasFees, MAX_PRIORITY_FEE_PER_GAS_MULTIPLIER,
    MAX_FEE_PER_GAS_MULTIPLIER. cbn [maxFeePerGas maxPriorityFeePerGas].
  split; [ring|]. split.
  - apply Q.max_compat; ring.
  - split.
    + rewrite Qmult_comm. apply Qle_refl.
    + rewrite (Qmult_comm (11 # 10)). apply Q.le_max_l.
Qed.

Lemma watchDecision_escalate_inv expiry i g :
  watchDecision expiry i = Escalate g ->
  exists est,
    newGasPriceEstimate i = Returned est /\
    g = escalatedGasFees (maxGasFees i) est /\
    secondsPast expiry i <= 0 /\
    maxFeePerGas (maxGasFees i) < MAX_PRIORITY_FEE_PER_GAS_CAP.
Proof.
  unfold watchDecision.
  destruct (_checkSubmissionMapReceiptsAndUpdateDbAsync i) as [st|e]; [|discriminate].
  destruct st; try discriminate.
  cbv zeta.
  destruct (isGreaterThan (secondsPast expiry i) (inject_Z (ONE_MINUTE_S * 2)));
    [discriminate|].
  destruct (isGreaterThan (secondsPast expiry i) 0) eqn:Hpast; [discriminate|].
  destruct (newGasPriceEstimate i) as [est|e]; [|discriminate].
  destruct (transactionType i =? 0)%Z; [discriminate|].
  destruct (isGreaterThanOrEqualTo (maxFeePerGas (maxGasFees i))
              MAX_PRIORITY_FEE_PER_GAS_CAP) eqn:Hcap; [discriminate|].
  intros H. injection H as <-. exists est.
  split; [reflexivity|]. split; [reflexivity|]. split.
  - now apply isGreaterThan_false.
  - now apply isGreaterThanOrEqualTo_false.
Qed.

Lemma watchDecision_escalates expiry i est :
  _checkSubmissionMapReceiptsAndUpdateDbAsync i = Returned PendingSubmitted ->
  secondsPast expiry i <= 0 ->
  newGasPriceEstimate i = Returned est ->
  transactionType i <> 0%Z ->
  maxFeePerGas (maxGasFees i) < MAX_PRIORITY_FEE_PER_GAS_CAP ->
  watchDecision expiry i = Escalate (escalatedGasFees (maxGasFees i) est).
Proof.
  intros Hst Hpast Hest Hty Hcap. unfold watchDecision. rewrite Hst. cbv zeta.
  assert (H120 : isGreaterThan (secondsPast expiry i) (inject_Z (ONE_MINUTE_S * 2))
                 = false).
  { apply isGreaterThan_false. eapply Qle_trans; [exact Hpast|]. discriminate. }
  rewrite H120.
  apply isGreaterThan_false in Hpast. rewrite Hpast, Hest.
  apply Z.eqb_neq in Hty. rewrite Hty.
  apply isGreaterThanOrEqualTo_false in Hcap. now rewrite Hcap.
Qed.

(** C2.  On every escalation cycle of the watch loop (no receipt yet, the
    expiry not passed, the ceiling test not met) the pass resubmits with a
    priority fee cap of exactly 1.5 times the previous one and a fee cap
    that is the maximum of 1.1 times the previous fee cap and twice the
    fresh gas price estimate plus the new priority fee cap; hence every
    resubmission raises the priority fee cap to at least 1.5 times and
    the fee cap to at least 1.1 times the old value. *)
Theorem escalation_cycle_fees (expiry : Q) (i : WatchInputs) :
  (forall est,
     _checkSubmissionMapReceiptsAndUpdateDbAsync i = Returned PendingSubmitted ->
     secondsPast expiry i <= 0 ->
     newGasPriceEstimate i = Returned est ->
     transactionType i <> 0%Z ->
     maxFeePerGas (maxGasFees i) < MAX_PRIORITY_FEE_PER_GAS_CAP ->
     watchDecision expiry i = Escalate (escalatedGasFees (maxGasFees i) est)) /\
  (forall g,
     watchDecision expiry i = Escalate g ->
     exists est,
       newGasPriceEstimate i = Returned est /\
       maxPriorityFeePerGas g == (15 # 10) * maxPriorityFeePerGas (maxGasFees i) /\
       maxFeePerGas g
         == Qmax ((11 # 10) * maxFeePerGas (maxGasFees i))
                 (2 * est + maxPriorityFeePerGas g) /\
       (15 # 10) * maxPriorityFeePerGas (maxGasFees i) <= maxPriorityFeePerGas g /\
       (11 # 10) * maxFeePerGas (maxGasFees i) <= maxFeePerGas g).
Proof.
  split.
  - intros est. apply watchDecision_escalates.
  - intros g Hg.
    destruct (watchDecision_escalate_inv expiry i g Hg) as (est & Hest & -> & _ & _).
    exists est. split; [exact Hest|].
    apply (escalatedGasFees_bounds (maxGasFees i) est).
Qed.

(** A tip of 2 gwei under a fee cap of 42 gwei, re-estimated at 20 gwei:
    the replacement carries a tip of 3 gwei and a fee cap of 46.2 gwei. *)
Lemma escalation_cycle_fees_witness :
  watchDecision (inject_Z 2000000000)
    (watchInputsAt beforeExpiryMs (gwei 20) feesAt20Gwei)
  = Escalate (escalatedGasFees feesAt20Gwei (gwei 20))
  /\ maxPriorityFeePerGas (escalatedGasFees feesAt20Gwei (gwei 20)) == gwei 3
  /\ maxFeePerGas (escalatedGasFees feesAt20Gwei (gwei 20)) == (462 # 10) * gwei 1.
Proof.
  pose proof (escalation_cycle_fees (inject_Z 2000000000)
                (watchInputsAt beforeExpiryMs (gwei 20) feesAt20Gwei)) as [Hfwd Hinv].
  assert (Hd : watchDecision (inject_Z 2000000000)
                 (watchInputsAt beforeExpiryMs (gwei 20) feesAt20Gwei)
               = Escalate (escalatedGasFees feesAt20Gwei (gwei 20))).
  { apply (Hfwd (gwei 20)).
    - reflexivity.
    - vm_compute. discriminate.
    - reflexivity.
    - discriminate.
    - vm_compute. reflexivity. }
  split; [exact Hd|].
  destruct (Hinv _ Hd) as (est & Hest & Hp & Hm & _).
  split; vm_compute; reflexivity.
Defined.

Lemma watchIteration_submits_inv expiry nonce i :
  submitsTransaction (watchIteration expiry nonce i) = true ->
  exists g, watchDecision expiry i = Escalate g.
Proof.
  unfold watchIteration.
  destruct (watchDecision expiry i) as [s| |g|e]; try discriminate.
  intros _. now exists g.
Qed.

(** C5.  Whenever no receipt is found for the current nonce: more than
    120 seconds past the order's expiry the loop returns [FailedExpired];
    past the expiry by a positive amount of at most 120 seconds it keeps
    watching and submits nothing; and a pass that escalates and resubmits
    is one where the expiry has not passed. *)
Theorem watch_expiry_grace_window (expiry : Q) (nonce : Z) (i : WatchInputs) :
  minedReceipt i = None ->
  (120 < secondsPast expiry i ->
   watchIteration expiry nonce i = Return FailedExpired) /\
  (0 < secondsPast expiry i -> secondsPast expiry i <= 120 ->
   watchIteration expiry nonce i = KeepWatching) /\
  (submitsTransaction (watchIteration expiry nonce i) = true ->
   secondsPast expiry i <= 0).
Proof.
  intros Hr.
  assert (Hst : _checkSubmissionMapReceiptsAndUpdateDbAsync i
                = Returned PendingSubmitted).
  { unfold _checkSubmissionMapReceiptsAndUpdateDbAsync. now rewrite Hr. }
  split; [|split].
  - intros H. unfold watchIteration, watchDecision. rewrite Hst. cbv zeta.
    assert (E : isGreaterThan (secondsPast expiry i) (inject_Z (ONE_MINUTE_S * 2))
                = true) by now apply isGreaterThan_true.
    now rewrite E.
  - intros H0 H120. unfold watchIteration, watchDecision. rewrite Hst. cbv zeta.
    assert (E : isGreaterThan (secondsPast expiry i) (inject_Z (ONE_MINUTE_S * 2))
                = false) by now apply isGreaterThan_false.
    rewrite E.
    assert (E0 : isGreaterThan (secondsPast expiry i) 0 = true)
      by now apply isGreaterThan_true.
    now rewrite E0.
  - intros Hs. apply watchIteration_submits_inv in Hs. destruct Hs as (g & Hg).
    now destruct (watchDecision_escalate_inv expiry i g Hg) as (_ & _ & _ & H & _).
Qed.

(** Three passes around the expiry (second 2 000 000 000) of one job:
    130 s after it, 60 s after it, and 10 s before it. *)
Lemma watch_expiry_grace_window_witness :
  watchIteration (inject_Z 2000000000) 7
    (watchInputsAt 2000000130000 (gwei 20) feesAt20Gwei) = Return FailedExpired
  /\ watchIteration (inject_Z 2000000000) 7
       (watchInputsAt 2000000060000 (gwei 20) feesAt20Gwei) = KeepWatching
  /\ secondsPast (inject_Z 2000000000)
       (watchInputsAt beforeExpiryMs (gwei 20) feesAt20Gwei) <= 0.
Proof.
  split; [|split].
  - apply (watch_expiry_grace_window (inject_Z 2000000000) 7
             (watchInputsAt 2000000130000 (gwei 20) feesAt20Gwei) eq_refl).
    vm_compute. reflexivity.
  - apply (watch_expiry_grace_window (inject_Z 2000000000) 7
             (watchInputsAt 2000000060000 (gwei 20) feesAt20Gwei) eq_refl).
    + vm_compute. reflexivity.
    + vm_compute. discriminate.
  - apply (watch_expiry_grace_window (inject_Z 2000000000) 7
             (watchInputsAt beforeExpiryMs (gwei 20) feesAt20Gwei) eq_refl).
    vm_compute. reflexivity.
Defined.

(** C3 (the code departs from it).  The ceiling test of the watch loop
    reads the fee cap, not the priority fee cap.  With a first submission
    priced at a 70 gwei estimate the fee cap is 142 gwei and the tip
    2 gwei: the tip is far below the 128 gwei ceiling, the order has not
    expired, no receipt was found, and the pass keeps watching without
    submitting a replacement. *)
Theorem watch_ceiling_reads_fee_cap :
  maxPriorityFeePerGas feesAt70Gwei == gwei 2 /\
  maxPriorityFeePerGas feesAt70Gwei < MAX_PRIORITY_FEE_PER_GAS_CAP /\
  maxFeePerGas feesAt70Gwei == gwei 142 /\
  secondsPast (inject_Z 2000000000)
    (watchInputsAt beforeExpiryMs (gwei 70) feesAt70Gwei) <= 0 /\
  watchDecision (inject_Z 2000000000)
    (watchInputsAt beforeExpiryMs (gwei 70) feesAt70Gwei) = Watch /\
  watchIteration (inject_Z 2000000000) 7
    (watchInputsAt beforeExpiryMs (gwei 70) feesAt70Gwei) = KeepWatching.
Proof.
  repeat split; vm_compute; try reflexivity; discriminate.
Qed.

(** ** Quote price *)

(** C8 (the code departs from it).  One token sold for three gives the raw
    unit price 0.333...; the code rounds with
    [decimalPlaces(PRICE_DECIMAL_PLACES + 1, ROUND_DOWN)] and returns
    0.3333333, seven decimal places, where the price cut to
    [PRICE_DECIMAL_PLACES] = 6 places is 0.333333.  The same under the
    library's default of 20 division digits and under the 78 that
    [@0x/utils] configures. *)
Theorem roundedPrice_seven_decimal_places :
  roundedPrice 78 true oneToken 18 threeTokens 18
    = BigNumber.Fin (3333333 # 10000000) /\
  price_as_specified 78 true oneToken 18 threeTokens 18
    = BigNumber.Fin (333333 # 1000000) /\
  roundedPrice 20 true oneToken 18 threeTokens 18
    = BigNumber.Fin (3333333 # 10000000) /\
  roundedPrice 78 true oneToken 18 threeTokens 18
    <> price_as_specified 78 true oneToken 18 threeTokens 18.
Proof.
  repeat split; try (vm_compute; reflexivity).
  vm_compute. discriminate.
Qed.

(** ** [submitTakerSignedOtcOrderAsync] *)

Lemma RfqmJobStatus_eqb_eq a b : RfqmJobStatus_eqb a b = true <-> a = b.
Proof.
  unfold RfqmJobStatus_eqb. destruct (RfqmJobStatus_eq_dec a b); split;
    congruence.
Qed.

Lemma option_string_eqb_eq a b : option_string_eqb a b = true <-> a = b.
Proof.
  destruct a as [x|], b as [y|]; cbn; split; try congruence.
  - intros H. apply String.eqb_eq in H. now subst.
  - intros H. injection H as ->. apply String.eqb_refl.
Qed.

Lemma conflictsWith_spec quote job :
  conflictsWith quote job = true <->
  takerOf (job_order job) = takerOf (q_order quote) /\
  takerTokenOf (job_order job) = takerTokenOf (q_order quote) /\
  orderHash job <> q_orderHash quote.
Proof.
  unfold conflictsWith.
  rewrite !andb_true_iff, !option_string_eqb_eq, negb_true_iff.
  split.
  - intros ((H1 & H2) & H3). repeat split; trivial.
    now apply String.eqb_neq.
  - intros (H1 & H2 & H3). repeat split; trivial.
    now apply String.eqb_neq.
Qed.

Lemma pending_conflict_exists st quote :
  existsb (conflictsWith quote) (findV2JobsWithStatusesAsync st pendingStatuses)
    = true <->
  exists job,
    In job (jobs st) /\ In (job_status job) pendingStatuses /\
    conflictsWith quote job = true.
Proof.
  unfold findV2JobsWithStatusesAsync. rewrite existsb_exists. split.
  - intros (job & Hin & Hc). apply filter_In in Hin. destruct Hin as (Hin & Hst).
    exists job. repeat split; trivial.
    apply existsb_exists in Hst. destruct Hst as (s & Hs & Heq).
    apply RfqmJobStatus_eqb_eq in Heq. now subst.
  - intros (job & Hin & Hst & Hc). exists job. split; [|exact Hc].
    apply filter_In. split; [exact Hin|].
    apply existsb_exists. exists (job_status job). split; [exact Hst|].
    now apply RfqmJobStatus_eqb_eq.
Qed.

(** C9 (as amended).  Once the quote is found and the order's expiry is
    more than the minimum duration away, [submitTakerSignedOtcOrderAsync]
    throws [TooManyRequestsError] exactly when the store holds a job in a
    pending status whose order has the taker and the taker token of the
    quote's order (compared in lower case, a missing order matching only a
    missing order) under another order hash; it throws that error in no
    other situation, a pending job with the same order hash does not
    trigger it, and the store is left as it was when it is thrown. *)
Theorem submit_too_many_requests
  (getHash : OtcOrder -> string) (padSignature : Signature -> Signature)
  (getSignerFromHash : string -> Signature -> string)
  (RFQM_MINIMUM_EXPIRY_DURATION_MS : Z)
  (st : Store) (env : SubmitEnv) (order : OtcOrder) (signature : Signature) :
  let result :=
    submitTakerSignedOtcOrderAsync getHash padSignature getSignerFromHash
      RFQM_MINIMUM_EXPIRY_DURATION_MS st env order signature in
  (isTooManyRequests (fst result) <->
   exists quote,
     findV2QuoteByOrderHashAsync st (getHash order) = Some quote /\
     inject_Z (currentTimeMs env + RFQM_MINIMUM_EXPIRY_DURATION_MS)
       < otc_expiry order * inject_Z ONE_SECOND_MS /\
     exists job,
       In job (jobs st) /\ In (job_status job) pendingStatuses /\
       takerOf (job_order job) = takerOf (q_order quote) /\
       takerTokenOf (job_order job) = takerTokenOf (q_order quote) /\
       orderHash job <> q_orderHash quote) /\
  (isTooManyRequests (fst result) -> snd result = st).
Proof.
  cbv zeta. unfold submitTakerSignedOtcOrderAsync, isTooManyRequests.
  destruct (findV2QuoteByOrderHashAsync st (getHash order)) as [quote|].
  2:{ cbn. split; [split|]; [intros (m & H); discriminate
                             | intros (q & H & _); discriminate | reflexivity]. }
  destruct (isGreaterThan (otc_expiry order * inject_Z ONE_SECOND_MS)
              (inject_Z (currentTimeMs env + RFQM_MINIMUM_EXPIRY_DURATION_MS)))
    eqn:Hexp; cbn [negb].
  2:{ cbn. split; [split|]; [intros (m & H); discriminate | | reflexivity].
      intros (q & _ & Hlt & _). apply isGreaterThan_true in Hlt. congruence. }
  apply isGreaterThan_true in Hexp.
  destruct (existsb (conflictsWith quote)
              (findV2JobsWithStatusesAsync st pendingStatuses)) eqn:Hpend.
  - cbn. split; [split|reflexivity].
    + intros _. exists quote. split; [reflexivity|]. split; [exact Hexp|].
      apply pending_conflict_exists in Hpend.
      destruct Hpend as (job & Hin & Hst & Hc).
      apply conflictsWith_spec in Hc. now exists job.
    + intros _. eexists. reflexivity.
  - assert (Hnone : ~ exists q,
              Some quote = Some q /\
              inject_Z (currentTimeMs env + RFQM_MINIMUM_EXPIRY_DURATION_MS)
                < otc_expiry order * inject_Z ONE_SECOND_MS /\
              exists job,
                In job (jobs st) /\ In (job_status job) pendingStatuses /\
                takerOf (job_order job) = takerOf (q_order q) /\
                takerTokenOf (job_order job) = takerTokenOf (q_order q) /\
                orderHash job <> q_orderHash q).
    { intros (q & Hq & _ & job & Hin & Hst & Hc). injection Hq as <-.
      assert (E : existsb (conflictsWith quote)
                    (findV2JobsWithStatusesAsync st pendingStatuses) = true).
      { apply pending_conflict_exists. exists job. repeat split; trivial.
        now apply conflictsWith_spec. }
      congruence. }
    assert (Hgen : forall r : Outcome string * Store,
              (forall m, fst r <> Thrown (TooManyRequestsError m)) ->
              ((exists m, fst r = Thrown (TooManyRequestsError m)) <->
               exists q,
                 Some quote = Some q /\
                 inject_Z (currentTimeMs env + RFQM_MINIMUM_EXPIRY_DURATION_MS)
                   < otc_expiry order * inject_Z ONE_SECOND_MS /\
                 exists job,
                   In job (jobs st) /\ In (job_status job) pendingStatuses /\
                   takerOf (job_order job) = takerOf (q_order q) /\
                   takerTokenOf (job_order job) = takerTokenOf (q_order q) /\
                   orderHash job <> q_orderHash q) /\
              ((exists m, fst r = Thrown (TooManyRequestsError m)) -> snd r = st)).
    { intros r Hr. split; [split|].
      - intros (m & H). now elim (Hr m).
      - intros H. now elim Hnone.
      - intros (m & H). now elim (Hr m). }
    apply Hgen. intros m.
    destruct (negb (String.eqb _ _)); [cbn; discriminate|].
    destruct (tokenBalances env) as [[mb tb]|]; [|cbn; discriminate].
    destruct (BigNumber.lt mb (otc_makerAmount order)
              || BigNumber.lt tb (otc_takerAmount order)); [cbn; discriminate|].
    destruct (writeV2JobAsync st _); [|cbn; discriminate].
    destruct (enqueueJob env); cbn; discriminate.
Qed.

(** A quote whose taker already has a pending job under another hash:
    the submission is refused and the store is untouched. *)
Lemma submit_too_many_requests_witness :
  isTooManyRequests
    (fst (submitTakerSignedOtcOrderAsync hashOfSample padNothing signerIsTaker 60000
            storeWithPendingJob (submitEnvAt 1700000000000)
            (submittedOrder 2000000000) sampleSignature))
  /\ snd (submitTakerSignedOtcOrderAsync hashOfSample padNothing signerIsTaker 60000
            storeWithPendingJob (submitEnvAt 1700000000000)
            (submittedOrder 2000000000) sampleSignature)
     = storeWithPendingJob.
Proof.
  pose proof (submit_too_many_requests hashOfSample padNothing signerIsTaker 60000
                storeWithPendingJob (submitEnvAt 1700000000000)
                (submittedOrder 2000000000) sampleSignature) as H.
  cbv zeta in H. destruct H as [Hiff Hstore].
  assert (Hthrown : isTooManyRequests
            (fst (submitTakerSignedOtcOrderAsync hashOfSample padNothing
                    signerIsTaker 60000 storeWithPendingJob
                    (submitEnvAt 1700000000000) (submittedOrder 2000000000)
                    sampleSignature))).
  { apply Hiff. exists quoteForTaker. split; [reflexivity|].
    split; [vm_compute; reflexivity|].
    exists pendingJobOfTaker. split; [left; reflexivity|].
    split; [right; left; reflexivity|].
    split; [reflexivity|]. split; [reflexivity|]. discriminate. }
  split; [exact Hthrown | exact (Hstore Hthrown)].
Defined.

(** C9, as stated, fails: a pending job with the quote's taker and taker
    token under another order hash exists, yet the order expires within
    the minimum duration and the call throws a [ValidationError]. *)
Lemma submit_too_many_requests_counterexample :
  In pendingJobOfTaker (jobs storeWithPendingJob) /\
  In (job_status pendingJobOfTaker) pendingStatuses /\
  takerOf (job_order pendingJobOfTaker) = takerOf (q_order quoteForTaker) /\
  takerTokenOf (job_order pendingJobOfTaker) = takerTokenOf (q_order quoteForTaker) /\
  orderHash pendingJobOfTaker <> q_orderHash quoteForTaker /\
  fst (submitTakerSignedOtcOrderAsync hashOfSample padNothing signerIsTaker 60000
         storeWithPendingJob (submitEnvAt 1700000000000)
         (submittedOrder 1700000030) sampleSignature)
  = Thrown (ValidationError "expiryAndNonce" "FieldInvalid"
              "order will expire too soon") /\
  ~ isTooManyRequests
      (fst (submitTakerSignedOtcOrderAsync hashOfSample padNothing signerIsTaker 60000
              storeWithPendingJob (submitEnvAt 1700000000000)
              (submittedOrder 1700000030) sampleSignature)).
Proof.
  split; [left; reflexivity|].
  split; [right; left; reflexivity|].
  split; [reflexivity|]. split; [reflexivity|].
  split; [discriminate|].
  split; [vm_compute; reflexivity|].
  intros (m & H). vm_compute in H. discriminate.
Qed.

(** ** [prepareV2JobAsync] *)

Section PrepareFacts.

Variable BigNumber_ofString : string -> BigNumber.t.
Variable parseExpiryAndNonce_expiry : BigNumber.t -> BigNumber.t.
Variable storedOtcOrderToOtcOrder : option StoredOtcOrder -> OtcOrder.
Variable padSignature : Signature -> Signature.
Variable getSignerFromHash : string -> Signature -> string.
Variable fillTakerSignedOtcOrder : OtcOrder -> Signature -> Signature -> string.
Variable fillTakerSignedOtcOrderForEth : OtcOrder -> Signature -> Signature -> string.
Variable attributeCallData : string -> option string -> string.
Variable priceDifferenceBps : OtcOrder -> PriceResponse -> option Z.

Local Abbreviation prepare :=
  (prepareV2JobAsync BigNumber_ofString parseExpiryAndNonce_expiry
     storedOtcOrderToOtcOrder padSignature getSignerFromHash
     fillTakerSignedOtcOrder fillTakerSignedOtcOrderForEth attributeCallData
     priceDifferenceBps).
Local Abbreviation calldataOf :=
  (generateTakerSignedOtcOrderCallData fillTakerSignedOtcOrder
     fillTakerSignedOtcOrderForEth attributeCallData).

Ltac innermost x :=
  lazymatch x with
  | context [match _ with _ => _ end] => fail
  | _ => idtac
  end.

(** Unfolds the operations of the monad. *)
Ltac run_monad :=
  cbv [setStatusAndUpdate retry bind ret throw try_catch emit log modifyJob
       await getJob updateRfqmJobAsync stored _job updates trace] in *.

(** One step of a run kept in a hypothesis: an equation between final
    outcomes is inverted, or the innermost scrutinee is split. *)
Ltac run_step :=
  match goal with
  | H : (_, _) = (_, _) |- _ => inversion H; clear H; subst
  | H : context [match ?x with _ => _ end] |- _ =>
      innermost x; destruct x eqn:?; cbv beta iota in H
  end.

Ltac in_trace := solve [repeat first [left; reflexivity | right]].

Lemma setStatusAndUpdate_returned env s w w' :
  setStatusAndUpdate env s w = (Returned tt, w') ->
  _job w' = set_status s (_job w) /\ stored w' = _job w'.
Proof.
  intros H. run_monad. destruct w as [st j n tr].
  repeat run_step; cbn; split; reflexivity.
Qed.

Lemma ethCallValidation_returned env w w' :
  ethCallValidation env w = (Returned tt, w') ->
  _job w' = _job w /\ stored w' = stored w.
Proof.
  intros H. unfold ethCallValidation in H. run_monad.
  destruct w as [st j n tr]. repeat run_step; cbn; split; reflexivity.
Qed.

Lemma verifySigner_returned env job makerSig w w' :
  verifySigner getSignerFromHash env job makerSig w = (Returned tt, w') ->
  _job w' = _job w /\ stored w' = stored w.
Proof.
  intros H. unfold verifySigner in H. run_monad.
  destruct w as [st j n tr]. repeat run_step; cbn; split; reflexivity.
Qed.

Lemma lastLook_returned env otcOrder makerSig w w' :
  lastLook padSignature priceDifferenceBps env otcOrder w = (Returned makerSig, w') ->
  makerSignature (_job w') <> None /\ framed (_job w) (_job w') /\
  stored w' = _job w'.
Proof.
  intros H.
  unfold lastLook, presignValidation, requestMakerSignature, makerDeclinedToSign,
    declineToSignPriceCheck in H.
  run_monad. destruct w as [st j n tr].
  repeat run_step; cbn;
    (split; [discriminate | split; [unfold framed; cbn; repeat split | reflexivity]]).
Qed.

Ltac use_blocks :=
  repeat match goal with
  | u : unit |- _ => destruct u
  | H : setStatusAndUpdate _ _ _ = (Returned tt, _) |- _ =>
      apply setStatusAndUpdate_returned in H; cbn in H; destruct H as (? & ?)
  | H : verifySigner _ _ _ _ _ = (Returned tt, _) |- _ =>
      apply verifySigner_returned in H; cbn in H; destruct H as (? & ?)
  | H : ethCallValidation _ _ = (Returned tt, _) |- _ =>
      apply ethCallValidation_returned in H; cbn in H; destruct H as (? & ?)
  | H : lastLook _ _ _ _ _ = (Returned _, _) |- _ =>
      apply lastLook_returned in H; cbn in H;
      destruct H as (_ & (? & ? & ? & ?) & ?)
  end.

(** A preparation that returns has produced the calldata of the job it
    returns, which holds both signatures and is the job the store holds. *)
Lemma prepare_success_inv env job now calldata job' w :
  prepare env job now = (Returned (calldata, job'), w) ->
  stored w = job' /\
  exists makerSig takerSig,
    makerSignature job' = Some makerSig /\
    takerSignature job' = Some takerSig /\
    job_order job' = job_order job /\
    calldata = calldataOf (storedOtcOrderToOtcOrder (job_order job))
                 makerSig takerSig (isUnwrap job') (affiliateAddress job').
Proof.
  intros H. destruct w as [st' j' n' tr'].
  unfold prepareV2JobAsync, prepareV2JobBody in H.
  cbv [bind ret throw getJob log emit stored _job updates trace] in H.
  repeat run_step; use_blocks; subst; cbn in *;
    repeat match goal with
           | H : _job _ = _ |- _ => rewrite H in *; clear H
           | H : stored _ = _ |- _ => rewrite H in *; clear H
           end;
    cbn in *;
    (split; [congruence|]);
    do 2 eexists; repeat split; try eassumption; congruence.
Qed.

Lemma prepare_reentry env job now makerSig takerSig :
  findV2TransactionSubmissionsByOrderHashAsync env <> [] ->
  makerSignature job = Some makerSig ->
  takerSignature job = Some takerSig ->
  prepare env job now
  = (Returned (calldataOf (storedOtcOrderToOtcOrder (job_order job)) makerSig takerSig
                 (isUnwrap job) (affiliateAddress job), job),
     mkWorld job job 0 []).
Proof.
  intros Hs Hm Ht. unfold prepareV2JobAsync, prepareV2JobBody.
  destruct (findV2TransactionSubmissionsByOrderHashAsync env); [congruence|].
  now rewrite Hm, Ht.
Qed.

Lemma prepare_signed_no_sign_request env job now :
  makerSignature job <> None ->
  existsb isSignEvent (trace (snd (prepare env job now))) = false.
Proof.
  intros Hm. destruct (makerSignature job) as [ms|] eqn:Hms; [|congruence].
  destruct (prepare env job now) as [r [st' j' n' tr']] eqn:H. cbn [snd trace].
  unfold prepareV2JobAsync, prepareV2JobBody in H. rewrite Hms in H.
  unfold verifySigner, ethCallValidation in H. run_monad.
  repeat run_step; reflexivity.
Qed.

(** C7.  Preparing a job that already has a submission on record and
    holds both signatures returns the calldata of its order and
    signatures and the job as it is, without any call to the store, the
    chain or the maker: no sign request, status and maker signature
    unchanged.  When the job is the one a first preparation returned and
    left in the store, that calldata is the one the first preparation
    returned.  And a job with a recorded maker signature and no
    submission is prepared without a sign request. *)
Theorem prepareV2JobAsync_idempotent :
  (forall env job now makerSig takerSig,
     findV2TransactionSubmissionsByOrderHashAsync env <> [] ->
     makerSignature job = Some makerSig ->
     takerSignature job = Some takerSig ->
     prepare env job now
     = (Returned (calldataOf (storedOtcOrderToOtcOrder (job_order job))
                    makerSig takerSig (isUnwrap job) (affiliateAddress job), job),
        mkWorld job job 0 [])) /\
  (forall env1 now1 job calldata job' w1 env2 now2,
     prepare env1 job now1 = (Returned (calldata, job'), w1) ->
     findV2TransactionSubmissionsByOrderHashAsync env2 <> [] ->
     stored w1 = job' /\
     prepare env2 (stored w1) now2
       = (Returned (calldata, job'), mkWorld job' job' 0 [])) /\
  (forall env job now,
     findV2TransactionSubmissionsByOrderHashAsync env = [] ->
     makerSignature job <> None ->
     existsb isSignEvent (trace (snd (prepare env job now))) = false).
Proof.
  split; [|split].
  - intros env job now makerSig takerSig. apply prepare_reentry.
  - intros env1 now1 job calldata job' w1 env2 now2 Hfirst Hsubs.
    destruct (prepare_success_inv _ _ _ _ _ _ Hfirst)
      as (Hstored & makerSig & takerSig & Hm & Ht & Ho & ->).
    split; [exact Hstored|]. rewrite Hstored.
    rewrite (prepare_reentry env2 job' now2 makerSig takerSig Hsubs Hm Ht).
    now rewrite Ho.
  - intros env job now _. apply prepare_signed_no_sign_request.
Qed.

(** C6.  When the maker's sign endpoint answers with no signature, the
    job's status is set to [FailedLastLookDeclined] and its
    [lastLookResult] to false, and that state is stored, before the price
    re-check is requested (if the store rejects that update the re-check
    does not run at all).  Whatever the re-check does (the request
    throws, no price comes back, or the delta cannot be saved) is caught
    and logged: the call ends by throwing `Market Maker declined to
    sign`, and the job stays [FailedLastLookDeclined], in memory and in
    the store. *)
Theorem maker_decline_recorded env job now makerBalance takerBalance :
  findV2TransactionSubmissionsByOrderHashAsync env = [] ->
  validateJob BigNumber_ofString parseExpiryAndNonce_expiry job now = None ->
  makerSignature job = None ->
  presignBalances env = Returned (makerBalance, takerBalance) ->
  BigNumber.lt makerBalance
    (otc_makerAmount (storedOtcOrderToOtcOrder (job_order job))) = false ->
  BigNumber.lt takerBalance
    (otc_takerAmount (storedOtcOrderToOtcOrder (job_order job))) = false ->
  signResponse env = Some None ->
  (forall n, (n < updatesBeforeLastLook job)%nat -> updateRejects env n = false) ->
  let result := fst (prepare env job now) in
  let w := snd (prepare env job now) in
  let declineUpdate := updatesBeforeLastLook job in
  (exists e, result = Thrown e) /\
  job_status (_job w) = FailedLastLookDeclined /\
  lastLookResult (_job w) = Some false /\
  (updateRejects env declineUpdate = true ->
   existsb isPriceEvent (trace w) = false) /\
  (updateRejects env declineUpdate = false ->
   result = Thrown (Error "Market Maker declined to sign") /\
   job_status (stored w) = FailedLastLookDeclined /\
   lastLookResult (stored w) = Some false /\
   firstBefore isDeclineRecorded isPriceEvent (trace w) = true /\
   existsb isPriceEvent (trace w) = true /\
   ((forall p, getPriceV2Async env <> Returned (Some p)) ->
    In (EvLog LogWarn "Encountered error during decline to sign price check")
       (trace w)) /\
   (forall p, getPriceV2Async env = Returned (Some p) ->
    updateRejects env (S declineUpdate) = true ->
    In (EvLog LogWarn "Saving LL reject price difference failed") (trace w))).
Proof.
  intros Hsubs Hvalid Hms Hbal Hmb Htb Hsign Hupd. cbv zeta.
  destruct (prepare env job now) as [r [st' j' n' tr']] eqn:H.
  cbn [fst snd _job stored trace].
  assert (Hts : takerSignature job <> None).
  { now apply validateJob_valid_iff in Hvalid. }
  destruct (takerSignature job) as [ts|] eqn:Hts'; [clear Hts|congruence].
  unfold prepareV2JobAsync, prepareV2JobBody in H.
  rewrite Hsubs, Hvalid, Hms, Hts' in H.
  unfold lastLook, presignValidation, requestMakerSignature, makerDeclinedToSign,
    declineToSignPriceCheck in H.
  unfold signResponse in Hsign. unfold updatesBeforeLastLook in *.
  destruct (RfqmJobStatus_eqb (job_status job) PendingEnqueued) eqn:Hst;
    [pose proof (Hupd 0%nat Nat.lt_0_1) as Hupd0|];
    run_monad; rewrite ?Hupd0, Hbal in H; cbv beta iota in H;
    rewrite Hmb, Htb in H; cbv [orb] in H.
  all: repeat run_step.
  all: try discriminate.
  all: cbn.
  all: split; [eexists; reflexivity|].
  all: do 2 (split; [reflexivity|]).
  all: split; [intros Hk; first [discriminate Hk | reflexivity]|].
  all: intros Hk; try discriminate Hk.
  all: repeat (split; [reflexivity|]).
  all: split;
    [ intros Hp; first [exfalso; eapply Hp; reflexivity | in_trace]
    | intros p0 Hp0 Hr; first [discriminate | in_trace] ].
Qed.

End PrepareFacts.

(** The maker fails once and then declines a job that was enqueued; the
    price comes back but the delta cannot be saved: the job is stored as
    declined and the failure is logged. *)
Lemma maker_decline_recorded_witness :
  let run :=
    prepareV2JobAsync ofDecimalString decodeExpiry convertSample padNothing
      signerIsMaker encodeSample encodeSampleForEth attributeNothing bpsSample
      envMakerDeclines jobValid 1700000000000 in
  fst run = Thrown (Error "Market Maker declined to sign") /\
  job_status (stored (snd run)) = FailedLastLookDeclined /\
  firstBefore isDeclineRecorded isPriceEvent (trace (snd run)) = true /\
  In (EvLog LogWarn "Saving LL reject price difference failed") (trace (snd run)).
Proof.
  cbv zeta.
  assert (Hupd : forall n, (n < updatesBeforeLastLook jobValid)%nat ->
                           updateRejects envMakerDeclines n = false).
  { intros [|n] Hn; [reflexivity|]. exfalso. cbn in Hn. lia. }
  destruct (maker_decline_recorded ofDecimalString decodeExpiry convertSample
              padNothing signerIsMaker encodeSample encodeSampleForEth
              attributeNothing bpsSample envMakerDeclines jobValid 1700000000000
              (BigNumber.ofZ 1000) (BigNumber.ofZ 2000)
              eq_refl eq_refl eq_refl eq_refl eq_refl eq_refl eq_refl Hupd)
    as (_ & _ & _ & _ & Hstored).
  destruct (Hstored eq_refl) as (Hr & Hs & _ & Hfirst & _ & _ & Hsave).
  split; [exact Hr|]. split; [exact Hs|]. split; [exact Hfirst|].
  apply (Hsave (mkPriceResponse (BigNumber.ofZ 990) (BigNumber.ofZ 2000)));
    reflexivity.
Defined.

(** A job is prepared (the maker signs), a transaction is submitted, the
    worker crashes; preparing the stored job again gives the same
    calldata, although the maker would now decline and the chain is
    unreachable. *)
Lemma prepareV2JobAsync_idempotent_witness :
  exists calldata job',
    fst (prepareV2JobAsync ofDecimalString decodeExpiry convertSample padNothing
           signerIsMaker encodeSample encodeSampleForEth attributeNothing bpsSample
           envMakerSigns jobValid 1700000000000) = Returned (calldata, job') /\
    makerSignature job' = Some makerSignatureSample /\
    job_status job' = PendingLastLookAccepted /\
    prepareV2JobAsync ofDecimalString decodeExpiry convertSample padNothing
      signerIsMaker encodeSample encodeSampleForEth attributeNothing bpsSample
      envSubmissionsExist job' 1700000000500
    = (Returned (calldata, job'), mkWorld job' job' 0 []).
Proof.
  destruct (prepareV2JobAsync_idempotent ofDecimalString decodeExpiry convertSample
              padNothing signerIsMaker encodeSample encodeSampleForEth
              attributeNothing bpsSample) as (_ & Hagain & _).
  destruct (prepareV2JobAsync ofDecimalString decodeExpiry convertSample padNothing
              signerIsMaker encodeSample encodeSampleForEth attributeNothing
              bpsSample envMakerSigns jobValid 1700000000000)
    as [[[calldata job']|e] w1] eqn:Hfirst; [|vm_compute in Hfirst; discriminate].
  exists calldata, job'.
  split; [reflexivity|].
  assert (Hsubs : findV2TransactionSubmissionsByOrderHashAsync envSubmissionsExist
                  <> []) by discriminate.
  destruct (Hagain envMakerSigns 1700000000000%Z jobValid calldata job' w1
              envSubmissionsExist 1700000000500%Z Hfirst Hsubs)
    as (Hstored & Hsecond).
  rewrite Hstored in Hsecond.
  vm_compute in Hfirst. injection Hfirst as <- <- <-.
  split; [reflexivity|]. split; [reflexivity|].
  exact Hsecond.
Defined.

(** * Further properties *)

(** ** Order status: what a response may contain *)

Lemma transformSubmissions_In subs d :
  In d (transformSubmissions subs) <->
  exists s, In s subs /\ transformSubmission s = Some d.
Proof.
  unfold transformSubmissions. rewrite in_flat_map. split.
  - intros (o & Ho & Hd). apply in_map_iff in Ho. destruct Ho as (s & <- & Hs).
    exists s. split; [exact Hs|].
    destruct (transformSubmission s) as [d'|]; [|contradiction].
    destruct Hd as [->|[]]. reflexivity.
  - intros (s & Hs & Ht). exists (Some d). split; [|now left].
    apply in_map_iff. now exists s.
Qed.

Lemma transformSubmission_Some s d :
  transformSubmission s = Some d ->
  td_hash d <> "" /\ transactionHash s = Some (td_hash d)
  /\ createdAt s = td_timestamp d.
Proof.
  unfold transformSubmission. destruct (transactionHash s) as [h|]; [|discriminate].
  destruct (String.eqb h "") eqn:Hh; [discriminate|].
  intros H. injection H as <-. cbn. repeat split.
  now apply String.eqb_neq in Hh.
Qed.

(** X1.  Whatever the job's status, every transaction that
    [getOrderStatusAsync] reports carries a non-empty hash and is the hash
    and creation time of one of the job's submissions. *)
Theorem getOrderStatusAsync_reports_real_transactions
  (job : option RfqmV2JobEntity) (subs : list RfqmV2TransactionSubmissionEntity)
  (now : Z) (r : StatusResponse) (d : TransactionData) :
  getOrderStatusAsync job subs now = Returned (Some r) ->
  In d (sr_transactions r) ->
  td_hash d <> "" /\
  exists s, In s subs /\ transactionHash s = Some (td_hash d)
            /\ createdAt s = td_timestamp d.
Proof.
  intros H Hd.
  assert (Hgen : exists s, In s subs /\ transformSubmission s = Some d).
  { unfold getOrderStatusAsync in H. destruct job as [job|]; [|discriminate].
    destruct (RfqmJobStatus_eqb (job_status job) PendingEnqueued &&
              negb (Qle_bool (inject_Z now) (job_expiry job * inject_Z ONE_SECOND_MS))).
    { injection H as <-. destruct Hd. }
    destruct (job_status job);
      try (injection H as <-; cbn in Hd; first [destruct Hd
                                               | now apply transformSubmissions_In]).
    all: destruct (filter isSucceededSubmission subs) as [|s [|s' l]] eqn:Hf;
      try discriminate;
      destruct (transformSubmission s) as [d'|] eqn:Ht; try discriminate;
      injection H as <-; destruct Hd as [<-|[]];
      exists s; split; [|exact Ht];
      assert (Hin : In s (filter isSucceededSubmission subs)) by (rewrite Hf; now left);
      now apply filter_In in Hin. }
  destruct Hgen as (s & Hs & Ht).
  destruct (transformSubmission_Some s d Ht) as (Hh & Hhash & Htime).
  split; [exact Hh|]. now exists s.
Qed.

Lemma getOrderStatusAsync_reports_real_transactions_witness :
  In (mkTransactionData "0xbb" 1700000000000)
     (sr_transactions (mkStatusResponse confirmed
                         [mkTransactionData "0xbb" 1700000000000])) /\
  exists s,
    In s [submissionWith (Some "0xaa") TxSubmitted;
          submissionWith (Some "0xbb") TxSucceededConfirmed] /\
    transactionHash s = Some "0xbb" /\ createdAt s = 1700000000000%Z.
Proof.
  split; [now left|].
  apply (getOrderStatusAsync_reports_real_transactions (Some jobSucceeded)
           [submissionWith (Some "0xaa") TxSubmitted;
            submissionWith (Some "0xbb") TxSucceededConfirmed] 1700000001000
           (mkStatusResponse confirmed [mkTransactionData "0xbb" 1700000000000])
           (mkTransactionData "0xbb" 1700000000000)).
  - reflexivity.
  - now left.
Defined.

(** X2.  [getOrderStatusAsync] throws only for a job in a Succeeded
    status; a `pending` response never lists a transaction, whatever
    submissions exist; and a job still [PendingEnqueued] after its expiry
    is reported `failed` with no transaction. *)
Theorem getOrderStatusAsync_pending_and_failed
  (job : RfqmV2JobEntity) (subs : list RfqmV2TransactionSubmissionEntity) (now : Z) :
  (forall e, getOrderStatusAsync (Some job) subs now = Thrown e ->
     job_status job = SucceededConfirmed \/ job_status job = SucceededUnconfirmed) /\
  (forall r, getOrderStatusAsync (Some job) subs now = Returned (Some r) ->
     sr_status r = pending ->
     sr_transactions r = [] /\
     (job_status job = PendingEnqueued \/ job_status job = PendingProcessing
      \/ job_status job = PendingLastLookAccepted)) /\
  (job_status job = PendingEnqueued ->
   job_expiry job * inject_Z ONE_SECOND_MS < inject_Z now ->
   getOrderStatusAsync (Some job) subs now
     = Returned (Some (mkStatusResponse failed []))).
Proof.
  split; [|split].
  - intros e. unfold getOrderStatusAsync.
    destruct (RfqmJobStatus_eqb (job_status job) PendingEnqueued && _);
      [discriminate|].
    destruct (job_status job); try discriminate; auto.
  - intros r. unfold getOrderStatusAsync.
    destruct (RfqmJobStatus_eqb (job_status job) PendingEnqueued && _);
      [intros H; injection H as <-; discriminate|].
    destruct (job_status job); intros H;
      try (injection H as <-; cbn; intros Hp; try discriminate Hp; now auto).
    all: destruct (filter isSucceededSubmission subs) as [|s [|s' l]];
      try discriminate;
      destruct (transformSubmission s); try discriminate;
      injection H as <-; cbn; discriminate.
  - intros Hst Hexp. unfold getOrderStatusAsync. rewrite Hst. cbn [RfqmJobStatus_eqb].
    assert (E : Qle_bool (inject_Z now) (job_expiry job * inject_Z ONE_SECOND_MS)
                = false).
    { destruct (Qle_bool _ _) eqn:E; [|reflexivity].
      apply Qle_bool_iff in E. exfalso. exact (Qlt_not_le _ _ Hexp E). }
    rewrite E. reflexivity.
Qed.

Lemma getOrderStatusAsync_pending_and_failed_witness :
  getOrderStatusAsync (Some jobValid)
    [submissionWith (Some "0xaa") TxSubmitted] 2000000001000
  = Returned (Some (mkStatusResponse failed [])).
Proof.
  apply (getOrderStatusAsync_pending_and_failed jobValid
           [submissionWith (Some "0xaa") TxSubmitted] 2000000001000).
  - reflexivity.
  - vm_compute. reflexivity.
Defined.

(** ** Validation over time *)

Lemma BigNumber_lte_mono x a b :
  (a <= b)%Z ->
  BigNumber.lte x (BigNumber.ofZ a) = true -> BigNumber.lte x (BigNumber.ofZ b) = true.
Proof.
  intros Hab. destruct x as [|[|]|q]; cbn; trivial.
  intros H. apply Qle_bool_iff in H. apply Qle_bool_iff.
  eapply Qle_trans; [exact H|]. unfold Qle. cbn. lia.
Qed.

(** X3.  Validity is monotone in time: a job that is valid at some time is
    valid at every earlier time, and a job that is [FailedExpired] at some
    time is [FailedExpired] at every later time. *)
Theorem validateJob_monotone_in_time
  (BigNumber_ofString : string -> BigNumber.t)
  (parseExpiryAndNonce_expiry : BigNumber.t -> BigNumber.t)
  (job : RfqmV2JobEntity) (now now' : Z) :
  (now <= now')%Z ->
  (validateJob BigNumber_ofString parseExpiryAndNonce_expiry job now' = None ->
   validateJob BigNumber_ofString parseExpiryAndNonce_expiry job now = None) /\
  (validateJob BigNumber_ofString parseExpiryAndNonce_expiry job now
     = Some FailedExpired ->
   validateJob BigNumber_ofString parseExpiryAndNonce_expiry job now'
     = Some FailedExpired).
Proof.
  intros Hle. unfold validateJob.
  destruct (makerUri job); [|split; discriminate].
  destruct (job_order job) as [order|]; [|split; discriminate].
  destruct (job_fee job); [|split; discriminate]. cbv zeta.
  set (x := expiryTimeMs BigNumber_ofString parseExpiryAndNonce_expiry order).
  destruct (BigNumber.isNaN x) eqn:Hnan; cbn [orb].
  - split; [discriminate|reflexivity].
  - destruct (BigNumber.lte x (BigNumber.ofZ now)) eqn:Hnow.
    + rewrite (BigNumber_lte_mono x now now' Hle Hnow). split; [discriminate|reflexivity].
    + split.
      * destruct (BigNumber.lte x (BigNumber.ofZ now')); [discriminate|trivial].
      * destruct (takerSignature job); discriminate.
Qed.

Lemma validateJob_monotone_in_time_witness :
  validateJob ofDecimalString decodeExpiry jobValid 1600000000000 = None /\
  validateJob ofDecimalString decodeExpiry jobExpiredNoTakerSignature 5000
    = Some FailedExpired.
Proof.
  split.
  - apply (validateJob_monotone_in_time ofDecimalString decodeExpiry jobValid
             1600000000000 1700000000000); [lia | vm_compute; reflexivity].
  - apply (validateJob_monotone_in_time ofDecimalString decodeExpiry
             jobExpiredNoTakerSignature 2000 5000); [lia | vm_compute; reflexivity].
Defined.

(** ** Fees: the replacement rule *)

Lemma isGreaterThanOrEqualTo_true a b : isGreaterThanOrEqualTo a b = true <-> b <= a.
Proof. unfold isGreaterThanOrEqualTo. apply Qle_bool_iff. Qed.

(** X4.  Every escalation satisfies the replacement rule it is made for:
    the new fee cap passes [shouldResubmitTransaction] against the fees it
    replaces, the new tip is at least 10% above a non-negative old tip,
    and positive fees grow strictly. *)
Theorem escalatedGasFees_replaces (old : GasFees) (estimate : Q) :
  0 <= maxPriorityFeePerGas old ->
  let new := escalatedGasFees old estimate in
  shouldResubmitTransaction old (maxFeePerGas new) = true /\
  maxPriorityFeePerGas old * (MIN_GAS_PRICE_INCREASE + 1) <= maxPriorityFeePerGas new /\
  (0 < maxPriorityFeePerGas old -> maxPriorityFeePerGas old < maxPriorityFeePerGas new) /\
  (0 < maxFeePerGas old -> maxFeePerGas old < maxFeePerGas new).
Proof.
  intros Hp. cbv zeta.
  destruct (escalatedGasFees_bounds old estimate) as (Hprio & Hmax & _ & Hmaxle).
  cbv zeta in Hprio, Hmax, Hmaxle.
  unfold shouldResubmitTransaction, MIN_GAS_PRICE_INCREASE.
  split; [|split; [|split]].
  - apply isGreaterThanOrEqualTo_true.
    eapply Qle_trans; [|exact Hmaxle]. lra.
  - rewrite Hprio. lra.
  - intros H. rewrite Hprio. lra.
  - intros H. eapply Qlt_le_trans; [|exact Hmaxle]. lra.
Qed.

Lemma escalatedGasFees_replaces_witness :
  shouldResubmitTransaction feesAt20Gwei
    (maxFeePerGas (escalatedGasFees feesAt20Gwei (gwei 20))) = true /\
  maxFeePerGas feesAt20Gwei < maxFeePerGas (escalatedGasFees feesAt20Gwei (gwei 20)).
Proof.
  assert (H0 : 0 <= maxPriorityFeePerGas feesAt20Gwei) by (vm_compute; discriminate).
  destruct (escalatedGasFees_replaces feesAt20Gwei (gwei 20) H0) as (H1 & _ & _ & H4).
  split; [exact H1|]. apply H4. vm_compute. reflexivity.
Defined.

(** X5.  The fee cap never falls below the tip: with a non-negative gas
    price estimate, the fees of the first submission and those of every
    escalation have [maxPriorityFeePerGas <= maxFeePerGas]. *)
Theorem fee_cap_covers_tip (estimate : Q) :
  0 <= estimate ->
  (forall tip,
     maxPriorityFeePerGas (initialGasFees estimate tip)
       <= maxFeePerGas (initialGasFees estimate tip)) /\
  (forall old,
     maxPriorityFeePerGas (escalatedGasFees old estimate)
       <= maxFeePerGas (escalatedGasFees old estimate)).
Proof.
  intros He. split.
  - intros tip. unfold initialGasFees. cbn. lra.
  - intros old. unfold escalatedGasFees. cbn.
    eapply Qle_trans; [|apply Q.le_max_r]. lra.
Qed.

Lemma fee_cap_covers_tip_witness :
  maxPriorityFeePerGas (escalatedGasFees feesAt70Gwei (gwei 70))
    <= maxFeePerGas (escalatedGasFees feesAt70Gwei (gwei 70)).
Proof.
  apply (fee_cap_covers_tip (gwei 70)). vm_compute. discriminate.
Defined.

(** ** Recovery of presubmitted transactions *)

Lemma recover_spec getTx subs kept written :
  _recoverPresubmitTransactionsAsync getTx subs = Returned (kept, written) ->
  forallb (fun s => negb (isPresubmit s)) kept = true /\
  (List.length kept <= List.length subs)%nat /\
  (forall s, In s subs -> isPresubmit s = false -> In s kept) /\
  (forall k, In k kept ->
     (In k subs /\ isPresubmit k = false) \/
     exists s, In s subs /\ isPresubmit s = true /\
               getTx (transactionHash s) = Returned true /\
               k = set_sub_status TxSubmitted s) /\
  (forall k, In k written <->
     exists s, In s subs /\ isPresubmit s = true /\
               getTx (transactionHash s) = Returned true /\
               k = set_sub_status TxSubmitted s).
Proof.
  revert kept written. induction subs as [|s rest IH]; intros kept written H.
  - injection H as <- <-.
    split; [reflexivity|]. split; [cbn; lia|]. split; [intros s []|].
    split; [intros k []|]. intros k; split; [intros [] | intros (s & [] & _)].
  - cbn [_recoverPresubmitTransactionsAsync] in H.
    destruct (isPresubmit s) eqn:Hp.
    + destruct (getTx (transactionHash s)) as [found|e] eqn:Hg; [|discriminate].
      destruct (_recoverPresubmitTransactionsAsync getTx rest) as [[k w]|e];
        [|discriminate].
      destruct (IH k w eq_refl) as (Hno & Hlen & Hkeep & Hfrom & Hw).
      destruct found; injection H as <- <-.
      * split; [cbn; now rewrite Hno|]. split; [cbn; lia|].
        split; [|split].
        -- intros x [<-|Hx] Hx'; [congruence|]. right. now apply Hkeep.
        -- intros x [<-|Hx].
           ++ right. exists s. repeat split; trivial. now left.
           ++ destruct (Hfrom x Hx) as [(Hin & Hnp)|(y & Hy & Hyp & Hyg & ->)].
              ** left. split; [now right|exact Hnp].
              ** right. exists y. repeat split; trivial. now right.
        -- intros x. split.
           ++ intros [<-|Hx].
              ** exists s. repeat split; trivial. now left.
              ** apply Hw in Hx. destruct Hx as (y & Hy & Hyp & Hyg & ->).
                 exists y. repeat split; trivial. now right.
           ++ intros (y & [<-|Hy] & Hyp & Hyg & ->); [now left|].
              right. apply Hw. now exists y.
      * split; [exact Hno|]. split; [cbn; lia|].
        split; [|split].
        -- intros x [<-|Hx] Hx'; [congruence|]. now apply Hkeep.
        -- intros x Hx.
           destruct (Hfrom x Hx) as [(Hin & Hnp)|(y & Hy & Hyp & Hyg & ->)].
           ++ left. split; [now right|exact Hnp].
           ++ right. exists y. repeat split; trivial. now right.
        -- intros x. split.
           ++ intros Hx. apply Hw in Hx. destruct Hx as (y & Hy & Hyp & Hyg & ->).
              exists y. repeat split; trivial. now right.
           ++ intros (y & [<-|Hy] & Hyp & Hyg & ->); [congruence|].
              apply Hw. now exists y.
    + destruct (_recoverPresubmitTransactionsAsync getTx rest) as [[k w]|e];
        [|discriminate].
      destruct (IH k w eq_refl) as (Hno & Hlen & Hkeep & Hfrom & Hw).
      injection H as <- <-.
      split; [cbn; now rewrite Hp, Hno|]. split; [cbn; lia|].
      split; [|split].
      * intros x [<-|Hx] Hx'; [now left|]. right. now apply Hkeep.
      * intros x [<-|Hx].
        -- left. split; [now left|exact Hp].
        -- destruct (Hfrom x Hx) as [(Hin & Hnp)|(y & Hy & Hyp & Hyg & ->)].
           ++ left. split; [now right|exact Hnp].
           ++ right. exists y. repeat split; trivial. now right.
      * intros x. split.
        -- intros Hx. apply Hw in Hx. destruct Hx as (y & Hy & Hyp & Hyg & ->).
           exists y. repeat split; trivial. now right.
        -- intros (y & [<-|Hy] & Hyp & Hyg & ->); [congruence|].
           apply Hw. now exists y.
Qed.

Lemma recover_without_presubmit getTx subs :
  forallb (fun s => negb (isPresubmit s)) subs = true ->
  _recoverPresubmitTransactionsAsync getTx subs = Returned (subs, []).
Proof.
  induction subs as [|s rest IH]; [reflexivity|].
  cbn. intros H. apply andb_true_iff in H. destruct H as (Hs & Hrest).
  apply negb_true_iff in Hs. rewrite Hs, (IH Hrest). reflexivity.
Qed.

(** X6.  When the recovery of presubmitted transactions returns, its
    working set holds no [Presubmit] entry and is no longer than the
    input; every submission that was not in [Presubmit] is kept as it was;
    every other entry is a [Presubmit] the network knew, promoted to
    [Submitted]; and exactly those promoted entries are written to the
    store. *)
Theorem recoverPresubmit_working_set
  (getTx : option string -> Outcome bool)
  (subs kept written : list RfqmV2TransactionSubmissionEntity) :
  _recoverPresubmitTransactionsAsync getTx subs = Returned (kept, written) ->
  (forall k, In k kept -> sub_status k <> TxPresubmit) /\
  (List.length kept <= List.length subs)%nat /\
  (forall s, In s subs -> sub_status s <> TxPresubmit -> In s kept) /\
  (forall k, In k kept ->
     In k subs \/
     exists s, In s subs /\ sub_status s = TxPresubmit /\
               getTx (transactionHash s) = Returned true /\
               k = set_sub_status TxSubmitted s) /\
  (forall k, In k written <->
     exists s, In s subs /\ sub_status s = TxPresubmit /\
               getTx (transactionHash s) = Returned true /\
               k = set_sub_status TxSubmitted s).
Proof.
  intros H.
  assert (Hpre : forall s, isPresubmit s = true <-> sub_status s = TxPresubmit).
  { intros s. unfold isPresubmit. destruct (sub_status s); split; congruence. }
  destruct (recover_spec getTx subs kept written H) as (Hno & Hlen & Hkeep & Hfrom & Hw).
  split; [|split; [exact Hlen|split; [|split]]].
  - intros k Hk Hs. rewrite forallb_forall in Hno. specialize (Hno k Hk).
    apply Hpre in Hs. now rewrite Hs in Hno.
  - intros s Hs Hn. apply Hkeep; [exact Hs|].
    destruct (isPresubmit s) eqn:E; [|reflexivity]. now apply Hpre in E.
  - intros k Hk. destruct (Hfrom k Hk) as [(Hin & _)|(s & Hs & Hp & Hg & ->)];
      [now left|]. right. exists s. repeat split; trivial. now apply Hpre.
  - intros k. rewrite Hw. split; intros (s & Hs & Hp & Hg & ->); exists s;
      repeat split; trivial; now apply Hpre.
Qed.

Lemma recoverPresubmit_working_set_witness :
  In (set_sub_status TxSubmitted presubmitSent)
     [submissionWith (Some "0xaa") TxSubmitted;
      set_sub_status TxSubmitted presubmitSent] /\
  sub_status (set_sub_status TxSubmitted presubmitSent) <> TxPresubmit.
Proof.
  split; [right; now left|].
  apply (recoverPresubmit_working_set networkKnowsSent
           [presubmitLost; submissionWith (Some "0xaa") TxSubmitted; presubmitSent]
           [submissionWith (Some "0xaa") TxSubmitted;
            set_sub_status TxSubmitted presubmitSent]
           [set_sub_status TxSubmitted presubmitSent]).
  - reflexivity.
  - right. now left.
Defined.

(** X7.  Recovery is idempotent: run again on the working set it
    returned, it returns that set, writes nothing and does not consult the
    network (it succeeds even when every lookup would fail). *)
Theorem recoverPresubmit_idempotent
  (getTx getTx' : option string -> Outcome bool)
  (subs kept written : list RfqmV2TransactionSubmissionEntity) :
  _recoverPresubmitTransactionsAsync getTx subs = Returned (kept, written) ->
  _recoverPresubmitTransactionsAsync getTx' kept = Returned (kept, []).
Proof.
  intros H. apply recover_without_presubmit.
  now destruct (recover_spec getTx subs kept written H) as (Hno & _).
Qed.

Lemma recoverPresubmit_idempotent_witness :
  _recoverPresubmitTransactionsAsync networkDown
    [submissionWith (Some "0xaa") TxSubmitted; set_sub_status TxSubmitted presubmitSent]
  = Returned ([submissionWith (Some "0xaa") TxSubmitted;
               set_sub_status TxSubmitted presubmitSent], []).
Proof.
  apply (recoverPresubmit_idempotent networkKnowsSent networkDown
           [presubmitLost; submissionWith (Some "0xaa") TxSubmitted; presubmitSent]
           _ [set_sub_status TxSubmitted presubmitSent]).
  reflexivity.
Defined.

(** ** Submission to the chain: the whole call *)

Lemma watchDecision_leave expiry i s :
  watchDecision expiry i = Leave s -> isFinalChainStatus s = true.
Proof.
  unfold watchDecision.
  destruct (_checkSubmissionMapReceiptsAndUpdateDbAsync i) as [st|e]; [|discriminate].
  destruct st; try discriminate; try (intros H; injection H as <-; reflexivity).
  cbv zeta.
  destruct (isGreaterThan _ _); [intros H; injection H as <-; reflexivity|].
  destruct (isGreaterThan _ _); [discriminate|].
  destruct (newGasPriceEstimate i); [|discriminate].
  destruct (transactionType i =? 0)%Z; [discriminate|].
  destruct (isGreaterThanOrEqualTo _ _); discriminate.
Qed.

Lemma watchDecision_escalate_not_expired expiry i g :
  watchDecision expiry i = Escalate g -> secondsPast expiry i <= 0.
Proof.
  intros H. now destruct (watchDecision_escalate_inv expiry i g H) as (_ & _ & _ & Hp & _).
Qed.

Lemma watchLoop_spec expiry nonce script :
  (forall s, fst (watchLoop expiry nonce script) = Some (Returned s) ->
             isFinalChainStatus s = true) /\
  (forall tx, In tx (snd (watchLoop expiry nonce script)) ->
     sub_nonce tx = nonce /\ sub_status tx = TxSubmitted /\
     transactionHash tx <> None) /\
  (List.length (snd (watchLoop expiry nonce script)) <= List.length script)%nat.
Proof.
  induction script as [|i rest IH]; cbn [watchLoop].
  - split; [discriminate|]. split; [intros tx []|cbn; lia].
  - destruct IH as (IHs & IHt & IHl).
    unfold watchIteration.
    destruct (watchDecision expiry i) as [st| |g|e] eqn:Hd.
    + split; [|split; [intros tx []|cbn; lia]].
      cbn. intros s H. injection H as <-. exact (watchDecision_leave _ _ _ Hd).
    + split; [exact IHs|]. split; [exact IHt|]. cbn [List.length]. lia.
    + unfold _submitTransactionAsync.
      destruct (broadcast i) as [h|err].
      * destruct (watchLoop expiry nonce rest) as [r txs]. cbn [fst snd] in *.
        split; [exact IHs|]. split; [|cbn; lia].
        intros tx [<-|Hin]; [cbn; repeat split; discriminate|]. now apply IHt.
      * destruct (isNonceTooLow err).
        -- split; [exact IHs|]. split; [exact IHt|]. cbn [List.length]. lia.
        -- split; [discriminate|]. split; [intros tx []|cbn; lia].
    + split; [discriminate|]. split; [intros tx []|cbn; lia].
Qed.

Lemma watchLoop_after_expiry expiry nonce script :
  Forall (fun i => 0 < secondsPast expiry i) script ->
  snd (watchLoop expiry nonce script) = [].
Proof.
  induction 1 as [|i rest Hi Hrest IH]; [reflexivity|].
  cbn [watchLoop]. unfold watchIteration.
  destruct (watchDecision expiry i) as [st| |g|e] eqn:Hd; trivial.
  exfalso. apply watchDecision_escalate_not_expired in Hd.
  exact (Qlt_not_le _ _ Hi Hd).
Qed.

(** X8.  [submitJobToChainAsync] returns nothing but [FailedExpired],
    [FailedRevertedConfirmed] or [SucceededConfirmed]: it never hands back
    a pending or an unconfirmed status. *)
Theorem submitJobToChainAsync_returns_final
  (tipGwei : Q) (GWEI_DECIMALS : nat)
  (job : RfqmV2JobEntity) (now : Z) (env : ChainEnv) (s : RfqmJobStatus) :
  run_outcome (submitJobToChainAsync tipGwei GWEI_DECIMALS job now env)
    = Some (Returned s) ->
  s = FailedExpired \/ s = FailedRevertedConfirmed \/ s = SucceededConfirmed.
Proof.
  intros H.
  assert (Hf : isFinalChainStatus s = true).
  { unfold submitJobToChainAsync, chainFailure in H.
    destruct (_recoverPresubmitTransactionsAsync _ _) as [[prev w]|e]; [|discriminate].
    destruct (getGasPriceEstimationAsync env); [|discriminate].
    destruct prev as [|p prev].
    - destruct (isLessThan _ _).
      + destruct (updateJobStatus env); [|discriminate].
        cbn in H. injection H as <-. reflexivity.
      + destruct (updateJobStatus env); [|discriminate].
        destruct (getNonceAsync env) as [nonce|]; [|discriminate].
        destruct (estimateGasForExchangeProxyCallAsync env); [|discriminate].
        destruct (_submitTransactionAsync _ _ _ _); [|discriminate].
        destruct (watchLoop_spec (job_expiry job) nonce (passes env)) as (Hs & _).
        destruct (watchLoop (job_expiry job) nonce (passes env)) as [r txs].
        cbn in H. now apply Hs.
    - destruct (watchLoop_spec (job_expiry job) (contextNonce env) (passes env))
        as (Hs & _).
      destruct (watchLoop (job_expiry job) (contextNonce env) (passes env)) as [r txs].
      cbn in H. now apply Hs. }
  destruct s; try discriminate; auto.
Qed.

Lemma submitJobToChainAsync_returns_final_witness :
  run_outcome (submitJobToChainAsync 2 9 jobSucceeded 1999999980000 chainEnvFresh)
    = Some (Returned SucceededConfirmed) /\
  (SucceededConfirmed = FailedExpired \/ SucceededConfirmed = FailedRevertedConfirmed
   \/ SucceededConfirmed = SucceededConfirmed).
Proof.
  split; [vm_compute; reflexivity|].
  apply (submitJobToChainAsync_returns_final 2 9 jobSucceeded 1999999980000
           chainEnvFresh).
  vm_compute. reflexivity.
Defined.

(** X9.  All the transactions one call of [submitJobToChainAsync]
    creates, the first submission and every fee-bump replacement, carry
    the same nonce, are recorded as [Submitted] with a hash, and number at
    most one more than the passes of the watch loop; when earlier
    submissions were recovered, the nonce is the one of their context and
    the gas limit is [MAX_GAS_ESTIMATE]. *)
Theorem submitJobToChainAsync_one_nonce
  (tipGwei : Q) (GWEI_DECIMALS : nat)
  (job : RfqmV2JobEntity) (now : Z) (env : ChainEnv) :
  let run := submitJobToChainAsync tipGwei GWEI_DECIMALS job now env in
  (forall tx, In tx (run_submitted run) ->
     run_nonce run = Some (sub_nonce tx) /\ sub_status tx = TxSubmitted /\
     transactionHash tx <> None) /\
  (List.length (run_submitted run) <= S (List.length (passes env)))%nat /\
  (forall kept written p estimate,
     _recoverPresubmitTransactionsAsync (getTransactionAsync env)
       (previousSubmissionsWithPresubmits env) = Returned (p :: kept, written) ->
     getGasPriceEstimationAsync env = Returned estimate ->
     run_nonce run = Some (contextNonce env) /\
     run_gasEstimate run = Some MAX_GAS_ESTIMATE /\
     run_statusWritten run = None).
Proof.
  cbv zeta. unfold submitJobToChainAsync, chainFailure.
  destruct (_recoverPresubmitTransactionsAsync _ _) as [[prev w]|e].
  2:{ cbn. split; [intros tx []|]. split; [lia|]. discriminate. }
  destruct (getGasPriceEstimationAsync env) as [est|e].
  2:{ cbn. split; [intros tx []|]. split; [lia|]. discriminate. }
  destruct prev as [|p prev].
  - destruct (isLessThan _ _).
    + destruct (updateJobStatus env); cbn;
        (split; [intros tx []|]; split; [lia|]; discriminate).
    + destruct (updateJobStatus env);
        [|cbn; split; [intros tx []|]; split; [lia|]; discriminate].
      destruct (getNonceAsync env) as [nonce|];
        [|cbn; split; [intros tx []|]; split; [lia|]; discriminate].
      destruct (estimateGasForExchangeProxyCallAsync env);
        [|cbn; split; [intros tx []|]; split; [lia|]; discriminate].
      unfold _submitTransactionAsync.
      destruct (firstBroadcast env);
        [|cbn; split; [intros tx []|]; split; [lia|]; discriminate].
      destruct (watchLoop_spec (job_expiry job) nonce (passes env)) as (_ & Ht & Hl).
      destruct (watchLoop (job_expiry job) nonce (passes env)) as [r txs].
      cbn [fst snd] in *. cbn.
      split; [|split; [lia|discriminate]].
      intros tx [<-|Hin]; [cbn; repeat split; discriminate|].
      destruct (Ht tx Hin) as (-> & Hs & Hh). now repeat split.
  - destruct (watchLoop_spec (job_expiry job) (contextNonce env) (passes env))
      as (_ & Ht & Hl).
    destruct (watchLoop (job_expiry job) (contextNonce env) (passes env)) as [r txs].
    cbn [fst snd] in *. cbn.
    split; [|split; [lia|]].
    + intros tx Hin. destruct (Ht tx Hin) as (-> & Hs & Hh). now repeat split.
    + intros kept written p' estimate _ _. repeat split.
Qed.

Lemma submitJobToChainAsync_one_nonce_witness :
  List.length (run_submitted
                 (submitJobToChainAsync 2 9 jobSucceeded 1999999980000 chainEnvFresh))
    = 2%nat /\
  exists tx,
    nth_error (run_submitted
                 (submitJobToChainAsync 2 9 jobSucceeded 1999999980000 chainEnvFresh))
              1 = Some tx /\
    run_nonce (submitJobToChainAsync 2 9 jobSucceeded 1999999980000 chainEnvFresh)
      = Some (sub_nonce tx) /\
    sub_nonce tx = 7%Z.
Proof.
  split; [vm_compute; reflexivity|].
  destruct (nth_error (run_submitted
              (submitJobToChainAsync 2 9 jobSucceeded 1999999980000 chainEnvFresh)) 1)
    as [tx|] eqn:Hnth; [|vm_compute in Hnth; discriminate].
  exists tx. split; [reflexivity|].
  destruct (submitJobToChainAsync_one_nonce 2 9 jobSucceeded 1999999980000
              chainEnvFresh) as (H & _).
  destruct (H tx (nth_error_In _ _ Hnth)) as (Hn & _).
  split; [exact Hn|].
  vm_compute in Hnth. injection Hnth as <-. reflexivity.
Defined.

Lemma recover_all_lost getTx subs :
  Forall (fun s => sub_status s = TxPresubmit /\
                   getTx (transactionHash s) = Returned false) subs ->
  _recoverPresubmitTransactionsAsync getTx subs = Returned ([], []).
Proof.
  induction 1 as [|s rest (Hs & Hg) Hrest IH]; [reflexivity|].
  cbn. unfold isPresubmit. now rewrite Hs, Hg, IH.
Qed.

(** X10.  A job with no submission the network knows (none recorded, or
    only [Presubmit] records that were never broadcast) whose expiry lies
    before the current time is closed as [FailedExpired] without any
    broadcast: no nonce is fetched and no submission created, whatever the
    watch loop would have seen.  There is no grace window here, and at the
    very second of the expiry the job is still submitted. *)
Theorem submitJobToChainAsync_expired_before_first_submission
  (tipGwei : Q) (GWEI_DECIMALS : nat)
  (job : RfqmV2JobEntity) (now : Z) (env : ChainEnv) (estimate : Q) :
  Forall (fun s => sub_status s = TxPresubmit /\
                   getTransactionAsync env (transactionHash s) = Returned false)
         (previousSubmissionsWithPresubmits env) ->
  getGasPriceEstimationAsync env = Returned estimate ->
  updateJobStatus env = Returned tt ->
  (job_expiry job < inject_Z now / inject_Z ONE_SECOND_MS ->
   submitJobToChainAsync tipGwei GWEI_DECIMALS job now env
     = mkChainRun (Some (Returned FailedExpired)) (Some FailedExpired) None None []) /\
  (inject_Z now / inject_Z ONE_SECOND_MS <= job_expiry job ->
   run_statusWritten (submitJobToChainAsync tipGwei GWEI_DECIMALS job now env)
     = Some PendingSubmitted).
Proof.
  intros Hlost Hest Hupd. unfold submitJobToChainAsync, chainFailure.
  rewrite (recover_all_lost _ _ Hlost), Hest, Hupd. cbv zeta.
  split.
  - intros Hexp.
    assert (E : isLessThan (job_expiry job) (inject_Z now / inject_Z ONE_SECOND_MS)
                = true).
    { unfold isLessThan. rewrite negb_true_iff.
      destruct (Qle_bool _ _) eqn:E; [|reflexivity].
      apply Qle_bool_iff in E. exfalso. exact (Qlt_not_le _ _ Hexp E). }
    now rewrite E.
  - intros Hnot.
    assert (E : isLessThan (job_expiry job) (inject_Z now / inject_Z ONE_SECOND_MS)
                = false).
    { unfold isLessThan. rewrite negb_false_iff. now apply Qle_bool_iff. }
    rewrite E.
    destruct (getNonceAsync env); [|reflexivity].
    destruct (estimateGasForExchangeProxyCallAsync env); [|reflexivity].
    destruct (_submitTransactionAsync _ _ _ _); [|reflexivity].
    now destruct (watchLoop _ _ _).
Qed.

Lemma submitJobToChainAsync_expired_before_first_submission_witness :
  submitJobToChainAsync 2 9 jobSucceeded 2000000001000 chainEnvFresh
    = mkChainRun (Some (Returned FailedExpired)) (Some FailedExpired) None None [] /\
  run_statusWritten (submitJobToChainAsync 2 9 jobSucceeded 2000000000000 chainEnvFresh)
    = Some PendingSubmitted.
Proof.
  assert (Hlost : Forall (fun s => sub_status s = TxPresubmit /\
                            getTransactionAsync chainEnvFresh (transactionHash s)
                            = Returned false)
                         (previousSubmissionsWithPresubmits chainEnvFresh)).
  { repeat constructor. }
  split.
  - apply (submitJobToChainAsync_expired_before_first_submission 2 9 jobSucceeded
             2000000001000 chainEnvFresh (gwei 20) Hlost eq_refl eq_refl).
    vm_compute. reflexivity.
  - apply (submitJobToChainAsync_expired_before_first_submission 2 9 jobSucceeded
             2000000000000 chainEnvFresh (gwei 20) Hlost eq_refl eq_refl).
    vm_compute. discriminate.
Defined.

(** X11.  Once the order's expiry has passed, the watch loop submits
    nothing more: over any passes that all lie after the expiry, receipts
    or not, no submission is added. *)
Theorem watchLoop_submits_nothing_after_expiry
  (expiry : Q) (nonce : Z) (script : list WatchInputs) :
  Forall (fun i => expiry < inject_Z (nowMs i) / inject_Z ONE_SECOND_MS) script ->
  snd (watchLoop expiry nonce script) = [].
Proof.
  intros H. apply watchLoop_after_expiry.
  eapply Forall_impl; [|exact H]. cbv beta. intros i Hi. lra.
Qed.

Lemma watchLoop_submits_nothing_after_expiry_witness :
  snd (watchLoop (inject_Z 2000000000) 7
         [watchInputsAt 2000000060000 (gwei 20) feesAt20Gwei;
          watchInputsAt 2000000090000 (gwei 20) feesAt20Gwei]) = [].
Proof.
  apply watchLoop_submits_nothing_after_expiry.
  repeat constructor.
Defined.

(** ** Rounding *)

Lemma pow10_pos dp : (0 < 10 ^ Z.of_nat dp)%Z.
Proof. apply Z.pow_pos_nonneg; lia. Qed.

Lemma roundQ_value rm dp q :
  BigNumber.roundQ rm dp q == BigNumber.scaled rm dp q # Z.to_pos (10 ^ Z.of_nat dp).
Proof. unfold BigNumber.roundQ. apply Qred_correct. Qed.

Lemma Qnum_nonneg q : 0 <= q <-> (0 <= Qnum q)%Z.
Proof. unfold Qle. cbn. lia. Qed.

Lemma scaled_down_bounds dp q :
  0 <= q ->
  let s := BigNumber.scaled BigNumber.ROUND_DOWN dp q in
  (0 <= s)%Z /\
  (s * Zpos (Qden q) <= Qnum q * 10 ^ Z.of_nat dp)%Z /\
  (Qnum q * 10 ^ Z.of_nat dp < (s + 1) * Zpos (Qden q))%Z.
Proof.
  intros Hq. apply Qnum_nonneg in Hq. cbv zeta. unfold BigNumber.scaled.
  pose proof (pow10_pos dp) as Hp.
  assert (Hn : (0 <= Qnum q * 10 ^ Z.of_nat dp)%Z) by nia.
  rewrite Z.quot_div_nonneg by lia.
  pose proof (Z.div_mod (Qnum q * 10 ^ Z.of_nat dp) (Zpos (Qden q)) ltac:(lia)) as Hdm.
  pose proof (Z.mod_pos_bound (Qnum q * 10 ^ Z.of_nat dp) (Zpos (Qden q)) ltac:(lia)) as Hm.
  split; [apply Z.div_pos; lia|]. nia.
Qed.

Lemma roundQ_down_bounds dp q :
  0 <= q ->
  let r := BigNumber.roundQ BigNumber.ROUND_DOWN dp q in
  0 <= r /\ r <= q /\ q < r + (1 # Z.to_pos (10 ^ Z.of_nat dp)).
Proof.
  intros Hq. cbv zeta. rewrite (roundQ_value BigNumber.ROUND_DOWN dp q).
  destruct (scaled_down_bounds dp q Hq) as (H0 & Hlo & Hhi).
  pose proof (pow10_pos dp) as Hp.
  set (s := BigNumber.scaled BigNumber.ROUND_DOWN dp q) in *. clearbody s.
  set (P := (10 ^ Z.of_nat dp)%Z) in *. clearbody P.
  destruct q as [n d]. cbn [Qnum Qden] in *.
  unfold Qle, Qlt, Qplus. cbn [Qnum Qden].
  rewrite ?Pos2Z.inj_mul, !Z2Pos.id by lia.
  repeat split; nia.
Qed.

Lemma scaled_half_up_nonneg dp q :
  0 <= q -> (0 <= BigNumber.scaled BigNumber.ROUND_HALF_UP dp q)%Z.
Proof.
  intros Hq. apply Qnum_nonneg in Hq. unfold BigNumber.scaled.
  pose proof (pow10_pos dp) as Hp.
  apply Z.mul_nonneg_nonneg.
  - apply Z.sgn_nonneg. nia.
  - apply Z.div_pos; lia.
Qed.

Lemma roundQ_half_up_nonneg dp q :
  0 <= q -> 0 <= BigNumber.roundQ BigNumber.ROUND_HALF_UP dp q.
Proof.
  intros Hq. rewrite (roundQ_value BigNumber.ROUND_HALF_UP dp q).
  apply Qnum_nonneg. cbn. now apply scaled_half_up_nonneg.
Qed.
Lemma pow10_not_zero d : Qeq_bool (inject_Z (10 ^ Z.of_nat d)) 0 = false.
Proof.
  pose proof (pow10_pos d) as Hp.
  destruct (Qeq_bool _ 0) eqn:E; [|reflexivity].
  apply Qeq_bool_iff in E. unfold Qeq in E. cbn in E. lia.
Qed.

Lemma Qdiv_nonneg a b : 0 <= a -> 0 <= b -> 0 <= a / b.
Proof.
  intros Ha Hb. unfold Qdiv. apply Qmult_le_0_compat; [assumption|].
  now apply Qinv_le_0_compat.
Qed.

Lemma div_fin_nonneg DP a b p :
  0 <= a -> 0 <= b ->
  BigNumber.div DP (BigNumber.Fin a) (BigNumber.Fin b) = BigNumber.Fin p -> 0 <= p.
Proof.
  intros Ha Hb. cbn [BigNumber.div]. destruct (Qeq_bool b 0).
  - destruct (Qeq_bool a 0); discriminate.
  - intros [= <-]. apply roundQ_half_up_nonneg. now apply Qdiv_nonneg.
Qed.

Lemma toUnitAmount_fin DP amount d :
  exists u, toUnitAmount DP amount d = BigNumber.Fin u /\ 0 <= u /\
            (amount = 0%N -> Qeq_bool u 0 = true).
Proof.
  unfold toUnitAmount, BigNumber.ofZ. cbn [BigNumber.div].
  rewrite pow10_not_zero. eexists. split; [reflexivity|]. split.
  - apply roundQ_half_up_nonneg. apply Qdiv_nonneg.
    + apply Qnum_nonneg. cbn. lia.
    + apply Qnum_nonneg. cbn. pose proof (pow10_pos d). lia.
  - intros ->. apply Qeq_bool_iff. rewrite roundQ_value.
    unfold BigNumber.scaled, Qeq. cbn [Qnum Qden inject_Z Qdiv Qmult]. rewrite !Z.mul_0_l. reflexivity.
Qed.

(** X12.  The price of a quote is truncated, never rounded up: when the
    rounded price is finite, so is the raw price [p], and the rounded
    price [r] is non-negative with [r <= p < r + 10^-7].  The response
    never shows a better price than the quote gives, and it is off by
    less than one unit of the seventh decimal place. *)
Theorem roundedPrice_truncates DP isSelling m md t td r :
  roundedPrice DP isSelling m md t td = BigNumber.Fin r ->
  exists p, price DP isSelling m md t td = BigNumber.Fin p /\
            0 <= r /\ r <= p /\ p < r + (1 # 10000000).
Proof.
  unfold roundedPrice.
  destruct (price DP isSelling m md t td) as [| |p] eqn:Hp; cbn [BigNumber.decimalPlaces]; try discriminate.
  intros [= <-]. exists p. split; [reflexivity|].
  assert (Hpos : 0 <= p).
  { unfold price in Hp.
    destruct (toUnitAmount_fin DP m md) as (um & Em & Hum & _).
    destruct (toUnitAmount_fin DP t td) as (ut & Et & Hut & _).
    rewrite Em, Et in Hp.
    destruct isSelling; eapply div_fin_nonneg; try exact Hp; assumption. }
  exact (roundQ_down_bounds (PRICE_DECIMAL_PLACES + 1) p Hpos).
Qed.

(** X13.  A quote with a zero amount on the dividing side has no finite
    price: when selling, a taker amount of 0, and when buying, a maker
    amount of 0, make the rounded price NaN or infinite, whatever the
    other amount and the token decimals. *)
Theorem roundedPrice_zero_divisor DP md td :
  (forall m r, roundedPrice DP true m md 0%N td <> BigNumber.Fin r) /\
  (forall t r, roundedPrice DP false 0%N md t td <> BigNumber.Fin r).
Proof.
  split; intros x r; unfold roundedPrice, price.
  - destruct (toUnitAmount_fin DP x md) as (um & -> & _ & _).
    destruct (toUnitAmount_fin DP 0%N td) as (ut & -> & _ & Hz).
    cbn [BigNumber.div]. rewrite (Hz eq_refl).
    destruct (Qeq_bool um 0); cbn [BigNumber.decimalPlaces]; discriminate.
  - destruct (toUnitAmount_fin DP 0%N md) as (um & -> & _ & Hz).
    destruct (toUnitAmount_fin DP x td) as (ut & -> & _ & _).
    cbn [BigNumber.div]. rewrite (Hz eq_refl).
    destruct (Qeq_bool ut 0); cbn [BigNumber.decimalPlaces]; discriminate.
Qed.

Lemma roundedPrice_truncates_witness :
  exists p, price 20 true 1 0 3 0 = BigNumber.Fin p /\
            0 <= (3333333 # 10000000) /\ (3333333 # 10000000) <= p /\
            p < (3333333 # 10000000) + (1 # 10000000).
Proof. apply (roundedPrice_truncates 20 true 1 0 3 0). vm_compute. reflexivity. Defined.

Lemma half_up_div x d :
  (0 <= x)%Z -> (0 < d)%Z ->
  (Z.sgn x * ((2 * Z.abs x + d) / (2 * d)) = (2 * x + d) / (2 * d))%Z.
Proof.
  intros Hx Hd. rewrite Z.abs_eq by assumption.
  destruct (Z.eq_dec x 0) as [->|Hne].
  - cbn [Z.sgn]. rewrite Z.mul_0_l. symmetry. apply Z.div_small. lia.
  - rewrite Z.sgn_pos by lia. lia.
Qed.

Lemma half_up_bounds x d :
  (0 < d)%Z ->
  let y := ((2 * x + d) / (2 * d))%Z in
  (2 * d * y <= 2 * x + d)%Z /\ (2 * x + d < 2 * d * y + 2 * d)%Z.
Proof.
  intros Hd. cbv zeta.
  pose proof (Z.div_mod (2 * x + d) (2 * d) ltac:(lia)) as Hdm.
  pose proof (Z.mod_pos_bound (2 * x + d) (2 * d) ltac:(lia)) as Hm.
  lia.
Qed.

Lemma inject_Z_red z : Qred (inject_Z z) = inject_Z z.
Proof.
  unfold inject_Z, Qred.
  pose proof (Z.ggcd_gcd z 1) as Hg. pose proof (Z.ggcd_correct_divisors z 1) as Hc.
  destruct (Z.ggcd z 1) as [g [aa bb]]. cbn [fst snd] in *.
  rewrite Z.gcd_1_r in Hg. subst g. destruct Hc as [Ha Hb].
  rewrite Z.mul_1_l in Ha, Hb. subst. reflexivity.
Qed.

(** A quantity of [b] units at the rate [a / b] is [a], however the
    rate was rounded, when [b] is below [10 ^ DECIMAL_PLACES]. *)
Lemma proportional_exact DP a b :
  (0 <= a)%Z -> (0 < b < 10 ^ Z.of_nat DP)%Z ->
  BigNumber.decimalPlaces 0 BigNumber.ROUND_HALF_UP
    (BigNumber.times (BigNumber.div DP (BigNumber.ofZ a) (BigNumber.ofZ b))
                     (BigNumber.ofZ b))
  = BigNumber.ofZ a.
Proof.
  intros Ha [Hb HbP]. unfold BigNumber.ofZ. cbn [BigNumber.div].
  assert (Hbz : Qeq_bool (inject_Z b) 0 = false).
  { destruct (Qeq_bool _ 0) eqn:E; [|reflexivity].
    apply Qeq_bool_iff in E. unfold Qeq in E. cbn in E. lia. }
  rewrite Hbz. cbn [BigNumber.times BigNumber.decimalPlaces]. f_equal.
  pose proof (roundQ_value BigNumber.ROUND_HALF_UP DP (inject_Z a / inject_Z b)) as Hr.
  assert (Hs : BigNumber.scaled BigNumber.ROUND_HALF_UP DP (inject_Z a / inject_Z b)
               = ((2 * (a * 10 ^ Z.of_nat DP) + b) / (2 * b))%Z).
  { unfold BigNumber.scaled. destruct b as [|pb|pb]; try lia.
    cbn [Qnum Qden inject_Z Qdiv Qmult Qinv].
    rewrite Z.mul_1_r, Pos.mul_1_l. apply half_up_div; [|lia].
    pose proof (pow10_pos DP). nia. }
  rewrite Hs in Hr. clear Hs.
  pose proof (pow10_pos DP) as HP.
  pose proof (half_up_bounds (a * 10 ^ Z.of_nat DP) b Hb) as [Hlo Hhi].
  set (s := ((2 * (a * 10 ^ Z.of_nat DP) + b) / (2 * b))%Z) in *. clearbody s.
  set (P := (10 ^ Z.of_nat DP)%Z) in *. clearbody P.
  set (r := BigNumber.roundQ BigNumber.ROUND_HALF_UP DP (inject_Z a / inject_Z b)) in *.
  clearbody r. destruct r as [rn rd].
  unfold Qeq in Hr. cbn [Qnum Qden] in Hr. rewrite Z2Pos.id in Hr by lia.
  transitivity (Qred (inject_Z a)); [|apply inject_Z_red].
  unfold BigNumber.roundQ. f_equal.
  change (Z.to_pos (10 ^ Z.of_nat 0)) with 1%positive.
  unfold inject_Z. f_equal.
  unfold BigNumber.scaled. cbn [Qnum Qden Qmult].
  change (10 ^ Z.of_nat 0)%Z with 1%Z.
  rewrite Z.mul_1_r, Pos.mul_1_r.
  assert (Hs0 : (0 <= s)%Z) by nia.
  assert (Hrn : (0 <= rn)%Z) by nia.
  rewrite half_up_div by nia.
  symmetry. apply (Z.div_unique _ _ a (2 * (rn * b) + Zpos rd - 2 * Zpos rd * a)%Z); [|lia].
  left. split; nia.
Qed.

(** X14.  A firm quote that fills exactly the requested amount answers
    with the quoted amounts: for positive quoted amounts below
    [10 ^ DECIMAL_PLACES], selling the quoted taker amount buys the
    quoted maker amount, and buying the quoted maker amount sells the
    quoted taker amount, although the rate between them was rounded to
    [DECIMAL_PLACES] digits on the way. *)
Theorem firmQuoteAmounts_full_fill DP (taker maker : Z) :
  (0 < taker < 10 ^ Z.of_nat DP)%Z -> (0 < maker < 10 ^ Z.of_nat DP)%Z ->
  let quoted := (Some (BigNumber.ofZ taker), Some (BigNumber.ofZ maker)) in
  firmQuoteAmounts DP (Some (BigNumber.ofZ taker)) None
    (BigNumber.ofZ taker) (BigNumber.ofZ maker) = quoted /\
  firmQuoteAmounts DP None (Some (BigNumber.ofZ maker))
    (BigNumber.ofZ taker) (BigNumber.ofZ maker) = quoted.
Proof.
  intros Ht Hm. cbv zeta.
  unfold firmQuoteAmounts, _getBuyAmountGivenSellAmountAndQuote,
    _getSellAmountGivenBuyAmountAndQuote. cbn [option_map].
  rewrite !proportional_exact by lia. split; reflexivity.
Qed.

Lemma firmQuoteAmounts_full_fill_witness :
  let quoted := (Some (BigNumber.ofZ 3), Some (BigNumber.ofZ 7)) in
  firmQuoteAmounts 2 (Some (BigNumber.ofZ 3)) None
    (BigNumber.ofZ 3) (BigNumber.ofZ 7) = quoted /\
  firmQuoteAmounts 2 None (Some (BigNumber.ofZ 7))
    (BigNumber.ofZ 3) (BigNumber.ofZ 7) = quoted.
Proof. apply (firmQuoteAmounts_full_fill 2 3 7); cbn; lia. Defined.

(** ** Token decimals *)

Lemma cacheGet_cacheSet cache t d : cacheGet (cacheSet cache t d) t = Some d.
Proof. unfold cacheGet, cacheSet. cbn. now rewrite String.eqb_refl. Qed.

(** X15.  Token decimals are fetched from the chain at most once: after a
    call that returned a nonzero number of decimals for a token, the next
    call for that token returns the same number without a chain query and
    leaves the cache as it is, even if the chain would now fail or answer
    otherwise. *)
Theorem getTokenDecimalsAsync_served_from_cache
  meta onchain onchain' cache tokenAddress d :
  let first := getTokenDecimalsAsync meta onchain cache tokenAddress in
  let second := getTokenDecimalsAsync meta onchain' (dr_cache first) tokenAddress in
  dr_result first = Returned d ->
  d <> 0%Z ->
  dr_result second = Returned d /\
  dr_chainQueried second = false /\
  dr_cache second = dr_cache first.
Proof.
  cbv zeta. intros Hres Hd. unfold getTokenDecimalsAsync in *.
  destruct (meta tokenAddress) as [m|] eqn:Hm.
  - cbn in *. auto.
  - destruct (cacheGet cache tokenAddress) as [c|] eqn:Hc.
    + destruct (negb (c =? 0)%Z) eqn:Hz.
      * cbn in *. rewrite Hc, Hz. cbn. auto.
      * destruct (onchain tokenAddress) as [x|e]; cbn in Hres; [|discriminate].
        injection Hres as ->. cbn [dr_cache]. rewrite cacheGet_cacheSet.
        apply Z.eqb_neq in Hd. rewrite Hd. cbn. auto.
    + destruct (onchain tokenAddress) as [x|e]; cbn in Hres; [|discriminate].
      injection Hres as ->. cbn [dr_cache]. rewrite cacheGet_cacheSet.
      apply Z.eqb_neq in Hd. rewrite Hd. cbn. auto.
Qed.

(** X16.  A cached 0 is never served: for a token without local metadata,
    a call that returns 0 decimals has asked the chain, and 0 is what
    the chain answered, whatever the cache held. *)
Theorem getTokenDecimalsAsync_zero_never_cached meta onchain cache tokenAddress :
  meta tokenAddress = None ->
  dr_result (getTokenDecimalsAsync meta onchain cache tokenAddress) = Returned 0%Z ->
  dr_chainQueried (getTokenDecimalsAsync meta onchain cache tokenAddress) = true /\
  onchain tokenAddress = Returned 0%Z.
Proof.
  intros Hm. unfold getTokenDecimalsAsync. rewrite Hm.
  destruct (cacheGet cache tokenAddress) as [c|].
  - destruct (c =? 0)%Z eqn:Hz; cbn.
    + destruct (onchain tokenAddress); cbn; intros H; [|discriminate].
      split; [reflexivity|exact H].
    + intros [= ->]. discriminate.
  - destruct (onchain tokenAddress); cbn; intros H; [|discriminate].
    split; [reflexivity|exact H].
Qed.

(** ** Worker readiness *)

(** X17.  Heartbeats are throttled: after a run of
    [workerBeforeLogicAsync] that stored a heartbeat, a run that starts
    its heartbeat test less than [WORKER_HEARTBEAT_FREQUENCY_MS] after
    that heartbeat's time stores none, whatever else it finds, and
    keeps the time of the last heartbeat. *)
Theorem workerBeforeLogicAsync_heartbeat_throttled last env1 env2 :
  let first := workerBeforeLogicAsync last env1 in
  let second := workerBeforeLogicAsync (wr_lastHeartbeatTime first) env2 in
  wr_heartbeatWritten first = true ->
  (w_now env2 - w_heartbeatTime env1 < WORKER_HEARTBEAT_FREQUENCY_MS)%Z ->
  wr_heartbeatWritten second = false /\
  wr_lastHeartbeatTime second = Some (w_heartbeatTime env1).
Proof.
  cbv zeta. intros Hw Hnow.
  assert (Hlast : wr_lastHeartbeatTime (workerBeforeLogicAsync last env1)
                  = Some (w_heartbeatTime env1)).
  { revert Hw. unfold workerBeforeLogicAsync.
    destruct (w_gasPrice env1); [|cbn; discriminate].
    destruct (w_balance env1); [|cbn; discriminate].
    destruct (w_unresolvedJobs env1); [|cbn; discriminate].
    destruct (w_isWorkerReady env1) as [[|]|]; cbn; try discriminate.
    destruct last as [l|]; [destruct (w_now env1 - l <? _)%Z|];
      cbn; try discriminate;
      destruct (w_workerIndex env1); cbn; try discriminate;
      destruct (w_upsertHeartbeat env1); cbn; try discriminate; reflexivity. }
  rewrite Hlast. apply Z.ltb_lt in Hnow.
  unfold workerBeforeLogicAsync. rewrite Hnow.
  destruct (w_gasPrice env2); [|split; reflexivity].
  destruct (w_balance env2); [|split; reflexivity].
  destruct (w_unresolvedJobs env2); [|split; reflexivity].
  destruct (w_isWorkerReady env2) as [[|]|]; split; reflexivity.
Qed.

(** The chain answers 18 decimals once; asked again while the chain is
    down, the service answers from its cache. *)
Lemma getTokenDecimalsAsync_served_from_cache_witness :
  let first := getTokenDecimalsAsync noMetadata (fun _ => Returned 18%Z) [] "0xtoken" in
  let second := getTokenDecimalsAsync noMetadata (fun _ => Thrown (Error "chain down"))
                  (dr_cache first) "0xtoken" in
  dr_result second = Returned 18%Z /\
  dr_chainQueried second = false /\
  dr_cache second = dr_cache first.
Proof.
  apply (getTokenDecimalsAsync_served_from_cache noMetadata
           (fun _ => Returned 18%Z) (fun _ => Thrown (Error "chain down")) []
           "0xtoken" 18%Z); [reflexivity|lia].
Defined.

(** A token of 0 decimals, cached as such, is asked of the chain again. *)
Lemma getTokenDecimalsAsync_zero_never_cached_witness :
  dr_chainQueried (getTokenDecimalsAsync noMetadata (fun _ => Returned 0%Z)
                     [("0xtoken", 0%Z)] "0xtoken") = true /\
  (fun _ : string => Returned 0%Z) "0xtoken" = Returned 0%Z.
Proof.
  apply (getTokenDecimalsAsync_zero_never_cached noMetadata (fun _ => Returned 0%Z)
           [("0xtoken", 0%Z)] "0xtoken"); reflexivity.
Defined.

(** A heartbeat stored at second 1000 and a second run 10 s later. *)
Lemma workerBeforeLogicAsync_heartbeat_throttled_witness :
  let first := workerBeforeLogicAsync None (workerEnvReady 1000000) in
  let second := workerBeforeLogicAsync (wr_lastHeartbeatTime first)
                  (workerEnvReady 1010000) in
  wr_heartbeatWritten second = false /\
  wr_lastHeartbeatTime second = Some 1000000%Z.
Proof.
  apply (workerBeforeLogicAsync_heartbeat_throttled None (workerEnvReady 1000000)
           (workerEnvReady 1010000)); reflexivity.
Defined.

(** ** Helpers of [RfqBlockchainUtils] *)

Lemma firstMatch_spec {A D} (p : A -> bool) (decode : A -> D) (e : Exn)
  (get : list A -> Outcome D) :
  (get [] = Thrown e) ->
  (forall x rest, get (x :: rest) = if p x then Returned (decode x) else get rest) ->
  forall l,
    match find p l with
    | Some x => get l = Returned (decode x)
    | None => get l = Thrown e
    end.
Proof.
  intros Hnil Hcons l. induction l as [|x rest IH]; cbn; [exact Hnil|].
  rewrite Hcons. destruct (p x); [reflexivity|exact IH].
Qed.

(** X18.  The fill event is decoded from the first log with the event's
    topic: a log with the RFQ (OTC) fill topic that no such log precedes
    is the one [getDecodedRfqOrderFillEventLogFromLogs]
    ([getDecodedOtcOrderFillEventLogFromLogs]) decodes, later matches
    and logs of other events are ignored, and each function throws
    exactly when no log carries its topic. *)
Theorem getDecodedFillEventLogFromLogs_first_match
  (Decoded : Type) (tryToDecodeLogOrNoop : LogEntry -> Decoded) (logs : list LogEntry) :
  (forall before log after,
     logs = before ++ log :: after ->
     forallb (fun l => negb (hasTopic0 RFQ_ORDER_FILLED_EVENT_TOPIC0 l)) before = true ->
     hasTopic0 RFQ_ORDER_FILLED_EVENT_TOPIC0 log = true ->
     getDecodedRfqOrderFillEventLogFromLogs Decoded tryToDecodeLogOrNoop logs
     = Returned (tryToDecodeLogOrNoop log)) /\
  (forall before log after,
     logs = before ++ log :: after ->
     forallb (fun l => negb (hasTopic0 OTC_ORDER_FILLED_EVENT_TOPIC0 l)) before = true ->
     hasTopic0 OTC_ORDER_FILLED_EVENT_TOPIC0 log = true ->
     getDecodedOtcOrderFillEventLogFromLogs Decoded tryToDecodeLogOrNoop logs
     = Returned (tryToDecodeLogOrNoop log)) /\
  (existsb (hasTopic0 RFQ_ORDER_FILLED_EVENT_TOPIC0) logs = false <->
   exists e, getDecodedRfqOrderFillEventLogFromLogs Decoded tryToDecodeLogOrNoop logs
             = Thrown e) /\
  (existsb (hasTopic0 OTC_ORDER_FILLED_EVENT_TOPIC0) logs = false <->
   exists e, getDecodedOtcOrderFillEventLogFromLogs Decoded tryToDecodeLogOrNoop logs
             = Thrown e).
Proof.
  assert (Hfirst : forall (p : LogEntry -> bool) before log after,
            forallb (fun l => negb (p l)) before = true -> p log = true ->
            find p (before ++ log :: after) = Some log).
  { intros p before log after Hb Hl. induction before as [|b before IH]; cbn.
    - now rewrite Hl.
    - cbn in Hb. apply andb_prop in Hb as [Hb1 Hb2].
      apply negb_true_iff in Hb1. rewrite Hb1. now apply IH. }
  assert (Hnone : forall (p : LogEntry -> bool) l,
            existsb p l = false <-> find p l = None).
  { intros p l. induction l as [|x l IH]; cbn; [tauto|].
    destruct (p x); cbn; [split; discriminate|exact IH]. }
  pose proof (firstMatch_spec (hasTopic0 RFQ_ORDER_FILLED_EVENT_TOPIC0)
                tryToDecodeLogOrNoop _
                (getDecodedRfqOrderFillEventLogFromLogs Decoded tryToDecodeLogOrNoop)
                eq_refl (fun _ _ => eq_refl) logs) as Hrfq.
  pose proof (firstMatch_spec (hasTopic0 OTC_ORDER_FILLED_EVENT_TOPIC0)
                tryToDecodeLogOrNoop _
                (getDecodedOtcOrderFillEventLogFromLogs Decoded tryToDecodeLogOrNoop)
                eq_refl (fun _ _ => eq_refl) logs) as Hotc.
  split; [|split; [|split]].
  - intros before log after -> Hb Hl. now rewrite (Hfirst _ _ _ _ Hb Hl) in Hrfq.
  - intros before log after -> Hb Hl. now rewrite (Hfirst _ _ _ _ Hb Hl) in Hotc.
  - rewrite Hnone. clear Hotc. revert Hrfq.
    destruct (find (hasTopic0 RFQ_ORDER_FILLED_EVENT_TOPIC0) logs); intros Hrfq; split.
    + intros [=].
    + intros [e He]. rewrite Hrfq in He. discriminate.
    + intros _. eexists. exact Hrfq.
    + reflexivity.
  - rewrite Hnone. clear Hrfq. revert Hotc.
    destruct (find (hasTopic0 OTC_ORDER_FILLED_EVENT_TOPIC0) logs); intros Hotc; split.
    + intros [=].
    + intros [e He]. rewrite Hotc in He. discriminate.
    + intros _. eexists. exact Hotc.
    + reflexivity.
Qed.

Lemma getDecodedFillEventLogFromLogs_first_match_witness :
  getDecodedRfqOrderFillEventLogFromLogs string log_data
    [mkLogEntry "0xa" [] "none"; mkLogEntry "0xb" [OTC_ORDER_FILLED_EVENT_TOPIC0] "otc";
     mkLogEntry "0xc" [RFQ_ORDER_FILLED_EVENT_TOPIC0] "rfq";
     mkLogEntry "0xd" [RFQ_ORDER_FILLED_EVENT_TOPIC0] "late"]
  = Returned "rfq".
Proof.
  apply (proj1 (getDecodedFillEventLogFromLogs_first_match string log_data _)
           [mkLogEntry "0xa" [] "none";
            mkLogEntry "0xb" [OTC_ORDER_FILLED_EVENT_TOPIC0] "otc"]
           (mkLogEntry "0xc" [RFQ_ORDER_FILLED_EVENT_TOPIC0] "rfq")
           [mkLogEntry "0xd" [RFQ_ORDER_FILLED_EVENT_TOPIC0] "late"]);
    reflexivity.
Defined.

(** *** The access list *)

Lemma accessListGet_push o address keys a :
  accessListGet (pushStorageKeys o address keys) a
  = if String.eqb address a
    then Some (match accessListGet o address with
               | Some old => old ++ keys
               | None => keys
               end)
    else accessListGet o a.
Proof.
  unfold accessListGet. induction o as [|[b ks] rest IH].
  - cbn. destruct (String.eqb address a); reflexivity.
  - cbn [pushStorageKeys]. destruct (String.eqb b address) eqn:Hb.
    + apply String.eqb_eq in Hb. subst b. cbn [find fst].
      rewrite String.eqb_refl. destruct (String.eqb address a); reflexivity.
    + cbn [find fst]. rewrite Hb. destruct (String.eqb b a) eqn:Hba.
      * destruct (String.eqb address a) eqn:Haa; [|reflexivity].
        apply String.eqb_eq in Haa, Hba. subst. rewrite String.eqb_refl in Hb.
        discriminate.
      * exact IH.
Qed.

Lemma push_keys_addresses o address keys :
  map fst (pushStorageKeys o address keys)
  = if existsb (fun kv => String.eqb (fst kv) address) o
    then map fst o else map fst o ++ [address].
Proof.
  induction o as [|[b ks] rest IH]; cbn [pushStorageKeys existsb map fst app];
    [reflexivity|].
  destruct (String.eqb b address); cbn [orb map fst]; [reflexivity|].
  rewrite IH. destruct (existsb _ rest); reflexivity.
Qed.

Lemma push_keys_NoDup o address keys :
  NoDup (map fst o) -> NoDup (map fst (pushStorageKeys o address keys)).
Proof.
  intros Hnd. rewrite push_keys_addresses.
  destruct (existsb _ o) eqn:He; [exact Hnd|].
  apply NoDup_app; [exact Hnd|repeat constructor; intros []|].
  intros x Hx [<-|[]]. apply in_map_iff in Hx as (kv & Hkv & Hin).
  assert (existsb (fun kv0 => String.eqb (fst kv0) address) o = true).
  { apply existsb_exists. exists kv. split; [exact Hin|].
    rewrite Hkv. apply String.eqb_refl. }
  congruence.
Qed.

Lemma filter_none {A} (p : A -> bool) l : existsb p l = false -> filter p l = [].
Proof.
  induction l as [|x l IH]; cbn; [reflexivity|].
  destruct (p x); cbn; [discriminate|exact IH].
Qed.

Lemma fold_push_get l : forall o a,
  accessListGet
    (fold_left (fun o v => pushStorageKeys o (al_address v) (storageKeysOf v)) l o) a
  = if existsb (fun v => String.eqb (al_address v) a) l
    then Some (match accessListGet o a with Some old => old | None => [] end
               ++ List.concat (map storageKeysOf
                    (filter (fun v => String.eqb (al_address v) a) l)))
    else accessListGet o a.
Proof.
  induction l as [|v l IH]; intros o a; cbn [fold_left existsb filter]; [reflexivity|].
  rewrite IH, accessListGet_push.
  destruct (String.eqb (al_address v) a) eqn:Hv; cbn [orb]; [|reflexivity].
  apply String.eqb_eq in Hv. rewrite Hv. cbn [map List.concat].
  destruct (existsb _ l) eqn:He.
  - destruct (accessListGet o a); cbn [app]; now rewrite ?app_assoc.
  - rewrite (filter_none _ _ He). cbn [map List.concat]. rewrite app_nil_r.
    destruct (accessListGet o a); reflexivity.
Qed.

Lemma fold_push_NoDup l : forall o,
  NoDup (map fst o) ->
  NoDup (map fst
    (fold_left (fun o v => pushStorageKeys o (al_address v) (storageKeysOf v)) l o)).
Proof.
  induction l as [|v l IH]; intros o Ho; cbn [fold_left]; [exact Ho|].
  apply IH. now apply push_keys_NoDup.
Qed.

(** X19.  The access list object groups the storage keys by address: an
    address is a key of the result exactly when an entry names it, its
    value is the concatenation of the storage keys of its entries in the
    order of the list (a missing [storageKeys] counts as none), and no
    address is a key twice. *)
Theorem toTxAccessList_groups_by_address (accessList : list AccessListEntry) :
  (forall address,
     accessListGet (toTxAccessList accessList) address
     = if existsb (fun v => String.eqb (al_address v) address) accessList
       then Some (List.concat (map storageKeysOf
                    (filter (fun v => String.eqb (al_address v) address) accessList)))
       else None) /\
  NoDup (map fst (toTxAccessList accessList)).
Proof.
  split.
  - intros address. unfold toTxAccessList. rewrite fold_push_get. reflexivity.
  - apply fold_push_NoDup. constructor.
Qed.

(** *** Derivation paths *)

Lemma to_uint_nonnil n : N.to_uint n <> Decimal.Nil.
Proof.
  destruct n as [|p]; [discriminate|]. apply DecimalPos.Unsigned.to_uint_nonnil.
Qed.

Lemma string_of_N_inj n m :
  NilZero.string_of_uint (N.to_uint n) = NilZero.string_of_uint (N.to_uint m) -> n = m.
Proof.
  intros H. apply DecimalN.Unsigned.to_uint_inj.
  pose proof (NilZero.usu _ (to_uint_nonnil n)) as Hn.
  pose proof (NilZero.usu _ (to_uint_nonnil m)) as Hm.
  rewrite H in Hn. congruence.
Qed.

Lemma getPathByIndex_returned index path :
  _getPathByIndex index = Returned path ->
  0 <= index /\ index == inject_Z (Qfloor index) /\
  path = ("m/44'/60'/0'/0/"
          ++ NilZero.string_of_uint (N.to_uint (Z.to_N (Qfloor index))))%string.
Proof.
  unfold _getPathByIndex.
  destruct (Qle_bool 0 index) eqn:Hle; cbn [negb orb]; [|discriminate].
  destruct (Qeq_bool index (inject_Z (Qfloor index))) eqn:Heq; cbn [negb];
    [|discriminate].
  intros [= <-]. apply Qle_bool_iff in Hle. apply Qeq_bool_iff in Heq. auto.
Qed.

(** X20.  Worker indices that get a derivation path get different ones:
    two indices for which [_getPathByIndex] returns the same path are
    equal. *)
Theorem getPathByIndex_injective i j path :
  _getPathByIndex i = Returned path ->
  _getPathByIndex j = Returned path ->
  i == j.
Proof.
  intros Hi Hj.
  apply getPathByIndex_returned in Hi as (Hi0 & Hie & Hip).
  apply getPathByIndex_returned in Hj as (Hj0 & Hje & Hjp).
  rewrite Hip in Hjp. cbn [String.append] in Hjp.
  injection Hjp as Hs. apply string_of_N_inj in Hs.
  assert (Hfi : (0 <= Qfloor i)%Z).
  { change 0%Z with (Qfloor 0). now apply Qfloor_resp_le. }
  assert (Hfj : (0 <= Qfloor j)%Z).
  { change 0%Z with (Qfloor 0). now apply Qfloor_resp_le. }
  apply Z2N.inj in Hs; [|assumption..].
  rewrite Hie, Hje, Hs. reflexivity.
Qed.

Lemma getPathByIndex_injective_witness : 7 == 14 # 2.
Proof.
  apply (getPathByIndex_injective 7 (14 # 2) "m/44'/60'/0'/0/7"); reflexivity.
Defined.

(** ** [submitTakerSignedOtcOrderAsync]: effects on the store *)

Section SubmitFacts.

Variable getHash : OtcOrder -> string.
Variable padSignature : Signature -> Signature.
Variable getSignerFromHash : string -> Signature -> string.
Variable RFQM_MINIMUM_EXPIRY_DURATION_MS : Z.

Local Abbreviation submit :=
  (submitTakerSignedOtcOrderAsync getHash padSignature getSignerFromHash
     RFQM_MINIMUM_EXPIRY_DURATION_MS).

Lemma find_quote_hash st hash quote :
  findV2QuoteByOrderHashAsync st hash = Some quote -> q_orderHash quote = hash.
Proof.
  unfold findV2QuoteByOrderHashAsync. intros H. apply find_some in H as [_ H].
  now apply String.eqb_eq in H.
Qed.

Lemma writeV2JobAsync_returned st j st' :
  writeV2JobAsync st j = Returned st' ->
  st' = mkStore (quotes st) (jobs st ++ [j]) /\
  forall j', In j' (jobs st) -> orderHash j' <> orderHash j.
Proof.
  unfold writeV2JobAsync. destruct (existsb _ (jobs st)) eqn:He; [discriminate|].
  intros [= <-]. split; [reflexivity|]. intros j' Hin Heq.
  assert (existsb (fun j0 => String.eqb (orderHash j0) (orderHash j)) (jobs st) = true).
  { apply existsb_exists. exists j'. split; [exact Hin|].
    rewrite Heq. apply String.eqb_refl. }
  congruence.
Qed.

Lemma submit_returned_inv st env order signature hash st' :
  submit st env order signature = (Returned hash, st') ->
  exists quote job,
    findV2QuoteByOrderHashAsync st (getHash order) = Some quote /\
    hash = getHash order /\
    orderHash job = hash /\
    job_status job = PendingEnqueued /\
    makerSignature job = None /\
    workerAddress job = None /\
    (takerSignature job = Some signature \/
     takerSignature job = Some (padSignature signature)) /\
    job_order job = q_order quote /\
    job_expiry job = otc_expiry order /\
    st' = mkStore (quotes st) (jobs st ++ [job]) /\
    (forall j', In j' (jobs st) -> orderHash j' <> hash).
Proof.
  unfold submitTakerSignedOtcOrderAsync.
  destruct (findV2QuoteByOrderHashAsync st (getHash order)) as [quote|] eqn:Hq;
    [|discriminate].
  pose proof (find_quote_hash _ _ _ Hq) as Hh.
  destruct (negb (isGreaterThan _ _)); [discriminate|].
  destruct (existsb _ _); [discriminate|].
  destruct (negb (String.eqb _ _)); [discriminate|].
  destruct (tokenBalances env) as [[mb tb]|]; [|discriminate].
  destruct (_ || _); [discriminate|].
  destruct (writeV2JobAsync st _) as [st1|] eqn:Hw; [|discriminate].
  destruct (enqueueJob env); [|discriminate].
  intros [= <- <-]. apply writeV2JobAsync_returned in Hw as [-> Hfresh].
  lazymatch type of Hfresh with
  | forall j', In j' _ -> _ <> orderHash ?j => exists quote, j
  end.
  split; [reflexivity|]. split; [exact Hh|].
  split; [reflexivity|]. split; [reflexivity|]. split; [reflexivity|].
  split; [reflexivity|].
  split; [cbn [takerSignature];
          destruct (negb (signature_rs_eqb _ _)); [right|left]; reflexivity|].
  split; [reflexivity|]. split; [reflexivity|]. split; [reflexivity|].
  exact Hfresh.
Qed.

End SubmitFacts.

(** X21.  A successful [submitTakerSignedOtcOrderAsync] returns the hash
    of the order and enqueues exactly one job: the quotes are untouched,
    no job had that hash before, and the job table grows by one job with
    that hash, status [PendingEnqueued], the order's expiry, the taker's
    signature (as sent or padded), no maker signature and no worker. *)
Theorem submitTakerSignedOtcOrderAsync_enqueues_one_job
  getHash padSignature getSignerFromHash minimumExpiryMs st env order signature hash st' :
  submitTakerSignedOtcOrderAsync getHash padSignature getSignerFromHash minimumExpiryMs
    st env order signature = (Returned hash, st') ->
  hash = getHash order /\
  quotes st' = quotes st /\
  (forall j, In j (jobs st) -> orderHash j <> hash) /\
  exists job,
    jobs st' = jobs st ++ [job] /\
    orderHash job = hash /\
    job_status job = PendingEnqueued /\
    makerSignature job = None /\
    workerAddress job = None /\
    job_expiry job = otc_expiry order /\
    (takerSignature job = Some signature \/
     takerSignature job = Some (padSignature signature)).
Proof.
  intros H. apply submit_returned_inv in H
    as (quote & job & _ & Hh & Hj & Hs & Hm & Hw & Ht & _ & He & -> & Hfresh).
  split; [exact Hh|]. split; [reflexivity|]. split; [exact Hfresh|].
  exists job. cbn [jobs]. repeat (split; [first [reflexivity | assumption]|]).
  exact Ht.
Qed.

(** X22.  An order is accepted once: after a successful submission, every
    further submission of the same order to the resulting store throws
    and leaves the store as it is, whatever the time, the balances, the
    queue and the signature sent. *)
Theorem submitTakerSignedOtcOrderAsync_twice
  getHash padSignature getSignerFromHash minimumExpiryMs
  st env order signature hash st' env2 signature2 :
  submitTakerSignedOtcOrderAsync getHash padSignature getSignerFromHash minimumExpiryMs
    st env order signature = (Returned hash, st') ->
  (exists e,
     fst (submitTakerSignedOtcOrderAsync getHash padSignature getSignerFromHash
            minimumExpiryMs st' env2 order signature2) = Thrown e) /\
  snd (submitTakerSignedOtcOrderAsync getHash padSignature getSignerFromHash
         minimumExpiryMs st' env2 order signature2) = st'.
Proof.
  intros H. apply submit_returned_inv in H
    as (quote & job & Hq & Hh & Hj & _ & _ & _ & _ & _ & _ & -> & _).
  unfold submitTakerSignedOtcOrderAsync.
  unfold findV2QuoteByOrderHashAsync in *. cbn [quotes]. rewrite Hq.
  destruct (negb (isGreaterThan _ _)); [split; [eexists|]; reflexivity|].
  destruct (existsb _ _); [split; [eexists|]; reflexivity|].
  destruct (negb (String.eqb _ _)); [split; [eexists|]; reflexivity|].
  destruct (tokenBalances env2) as [[mb tb]|]; [|split; [eexists|]; reflexivity].
  destruct (_ || _); [split; [eexists|]; reflexivity|].
  assert (Hdup : forall j,
            orderHash j = hash ->
            writeV2JobAsync {| quotes := quotes st; jobs := jobs st ++ [job] |} j
            = Thrown (Error "duplicate key value violates unique constraint")).
  { intros j Hjh. unfold writeV2JobAsync. cbn [jobs].
    rewrite existsb_app. cbn [existsb]. rewrite Hj, Hjh, String.eqb_refl.
    now rewrite orb_true_r. }
  rewrite Hdup; [split; [eexists|]; reflexivity|].
  cbn [orderHash]. rewrite Hh. apply find_some in Hq as [_ Hq].
  now apply String.eqb_eq in Hq.
Qed.

(** X23.  A submission that throws leaves the store untouched, with one
    exception: when the job was written and the queue then refused it,
    the call throws the [InternalServerError] and the job stays written,
    in status [PendingEnqueued]. *)
Theorem submitTakerSignedOtcOrderAsync_failure_store
  getHash padSignature getSignerFromHash minimumExpiryMs st env order signature e st' :
  submitTakerSignedOtcOrderAsync getHash padSignature getSignerFromHash minimumExpiryMs
    st env order signature = (Thrown e, st') ->
  st' = st \/
  (exists e', enqueueJob env = Thrown e') /\
  e = InternalServerError
        "failed to queue the quote for submission, it may have already been submitted" /\
  exists job, st' = mkStore (quotes st) (jobs st ++ [job]) /\
              orderHash job = getHash order /\ job_status job = PendingEnqueued.
Proof.
  unfold submitTakerSignedOtcOrderAsync.
  destruct (findV2QuoteByOrderHashAsync st (getHash order)) as [quote|] eqn:Hq;
    [|intros [= <- <-]; now left].
  pose proof (find_quote_hash _ _ _ Hq) as Hh.
  destruct (negb (isGreaterThan _ _)); [intros [= <- <-]; now left|].
  destruct (existsb _ _); [intros [= <- <-]; now left|].
  destruct (negb (String.eqb _ _)); [intros [= <- <-]; now left|].
  destruct (tokenBalances env) as [[mb tb]|]; [|intros [= <- <-]; now left].
  destruct (_ || _); [intros [= <- <-]; now left|].
  destruct (writeV2JobAsync st _) as [st1|] eqn:Hw; [|intros [= <- <-]; now left].
  destruct (enqueueJob env) as [|e'] eqn:Hen; [discriminate|].
  intros [= <- <-]. right. apply writeV2JobAsync_returned in Hw as [-> _].
  split; [now exists e'|]. split; [reflexivity|].
  eexists. split; [reflexivity|]. split; [exact Hh|reflexivity].
Qed.

(** The quote is in the store and the taker has no other trade pending:
    the order is accepted and its job enqueued. *)
Lemma submitTakerSignedOtcOrderAsync_enqueues_one_job_witness :
  let st' := snd (submitTakerSignedOtcOrderAsync hashOfSample padNothing signerIsTaker
                    60000 storeWithQuote (submitEnvAt 1700000000000)
                    (submittedOrder 2000000000) sampleSignature) in
  "0xquote" = hashOfSample (submittedOrder 2000000000) /\
  quotes st' = quotes storeWithQuote /\
  (forall j, In j (jobs storeWithQuote) -> orderHash j <> "0xquote") /\
  exists job,
    jobs st' = jobs storeWithQuote ++ [job] /\
    orderHash job = "0xquote" /\
    job_status job = PendingEnqueued /\
    makerSignature job = None /\
    workerAddress job = None /\
    job_expiry job = otc_expiry (submittedOrder 2000000000) /\
    (takerSignature job = Some sampleSignature \/
     takerSignature job = Some (padNothing sampleSignature)).
Proof.
  apply (submitTakerSignedOtcOrderAsync_enqueues_one_job hashOfSample padNothing
           signerIsTaker 60000 storeWithQuote (submitEnvAt 1700000000000)
           (submittedOrder 2000000000) sampleSignature).
  vm_compute. reflexivity.
Defined.

(** The same order sent again a second later, the queue now down. *)
Lemma submitTakerSignedOtcOrderAsync_twice_witness :
  let st' := snd (submitTakerSignedOtcOrderAsync hashOfSample padNothing signerIsTaker
                    60000 storeWithQuote (submitEnvAt 1700000000000)
                    (submittedOrder 2000000000) sampleSignature) in
  (exists e,
     fst (submitTakerSignedOtcOrderAsync hashOfSample padNothing signerIsTaker 60000
            st' (submitEnvQueueDown 1700000001000) (submittedOrder 2000000000)
            makerSignatureSample) = Thrown e) /\
  snd (submitTakerSignedOtcOrderAsync hashOfSample padNothing signerIsTaker 60000
         st' (submitEnvQueueDown 1700000001000) (submittedOrder 2000000000)
         makerSignatureSample) = st'.
Proof.
  apply (submitTakerSignedOtcOrderAsync_twice hashOfSample padNothing signerIsTaker
           60000 storeWithQuote (submitEnvAt 1700000000000)
           (submittedOrder 2000000000) sampleSignature "0xquote").
  vm_compute. reflexivity.
Defined.

(** The queue is down: the call throws and the job stays written. *)
Lemma submitTakerSignedOtcOrderAsync_failure_store_witness :
  let st' := snd (submitTakerSignedOtcOrderAsync hashOfSample padNothing signerIsTaker
                    60000 storeWithQuote (submitEnvQueueDown 1700000000000)
                    (submittedOrder 2000000000) sampleSignature) in
  st' = storeWithQuote \/
  (exists e', enqueueJob (submitEnvQueueDown 1700000000000) = Thrown e') /\
  InternalServerError
    "failed to queue the quote for submission, it may have already been submitted"
  = InternalServerError
      "failed to queue the quote for submission, it may have already been submitted" /\
  exists job, st' = mkStore (quotes storeWithQuote) (jobs storeWithQuote ++ [job]) /\
              orderHash job = hashOfSample (submittedOrder 2000000000) /\
              job_status job = PendingEnqueued.
Proof.
  apply (submitTakerSignedOtcOrderAsync_failure_store hashOfSample padNothing
           signerIsTaker 60000 storeWithQuote (submitEnvQueueDown 1700000000000)
           (submittedOrder 2000000000) sampleSignature).
  vm_compute. reflexivity.
Defined.

(** ** [prepareV2JobAsync]: rejected jobs, the last look and its retries *)

Section PrepareMoreFacts.

Variable BigNumber_ofString : string -> BigNumber.t.
Variable parseExpiryAndNonce_expiry : BigNumber.t -> BigNumber.t.
Variable storedOtcOrderToOtcOrder : option StoredOtcOrder -> OtcOrder.
Variable padSignature : Signature -> Signature.
Variable getSignerFromHash : string -> Signature -> string.
Variable fillTakerSignedOtcOrder : OtcOrder -> Signature -> Signature -> string.
Variable fillTakerSignedOtcOrderForEth : OtcOrder -> Signature -> Signature -> string.
Variable attributeCallData : string -> option string -> string.
Variable priceDifferenceBps : OtcOrder -> PriceResponse -> option Z.

Local Abbreviation prepare :=
  (prepareV2JobAsync BigNumber_ofString parseExpiryAndNonce_expiry
     storedOtcOrderToOtcOrder padSignature getSignerFromHash
     fillTakerSignedOtcOrder fillTakerSignedOtcOrderForEth attributeCallData
     priceDifferenceBps).

Ltac innermost_scrutinee x :=
  lazymatch x with
  | context [match _ with _ => _ end] => fail
  | _ => idtac
  end.

Ltac run_ops :=
  cbv [setStatusAndUpdate retry bind ret throw try_catch emit log modifyJob
       await getJob updateRfqmJobAsync stored _job updates trace] in *.

Ltac run_case :=
  match goal with
  | H : (_, _) = (_, _) |- _ => inversion H; clear H; subst
  | H : context [match ?x with _ => _ end] |- _ =>
      innermost_scrutinee x; destruct x eqn:?; cbv beta iota in H
  end.


Lemma lastLook_returned_signed env otcOrder makerSig w w' :
  lastLook padSignature priceDifferenceBps env otcOrder w = (Returned makerSig, w') ->
  exists sig,
    signResponse env = Some (Some sig) /\
    _job w' = set_status PendingLastLookAccepted
                (set_lastLookResult true
                   (set_makerSignature (padSignature sig) (_job w))) /\
    stored w' = _job w'.
Proof.
  intros H.
  unfold lastLook, presignValidation, requestMakerSignature, makerDeclinedToSign,
    declineToSignPriceCheck in H.
  run_ops. destruct w as [st j n tr].
  repeat run_case; eexists; unfold signResponse;
    repeat match goal with
           | E : signV2Async _ _ = _ |- _ => rewrite E; clear E
           end;
    (split; [reflexivity|split; reflexivity]).
Qed.

(** X25.  A job that enters the preparation unsigned and leaves it
    prepared went through an accepted last look: the maker answered one
    of the three sign attempts with a signature, the returned job holds
    that signature padded, [lastLookResult] true and the status
    [PendingLastLookAccepted], and it is the job the store holds. *)
Theorem prepareV2JobAsync_accepts_last_look env job now calldata job' w :
  prepare env job now = (Returned (calldata, job'), w) ->
  makerSignature job = None ->
  exists sig,
    signResponse env = Some (Some sig) /\
    makerSignature job' = Some (padSignature sig) /\
    lastLookResult job' = Some true /\
    job_status job' = PendingLastLookAccepted /\
    stored w = job'.
Proof.
  intros H Hms. destruct w as [st' j' n' tr'].
  unfold prepareV2JobAsync, prepareV2JobBody in H. rewrite Hms in H.
  cbv [bind ret throw getJob log emit stored _job updates trace] in H.
  repeat run_case;
    repeat match goal with
    | u : unit |- _ => destruct u
    | H : verifySigner _ _ _ _ _ = (Returned tt, _) |- _ =>
        apply verifySigner_returned in H; cbn in H; destruct H as (? & ?)
    | H : ethCallValidation _ _ = (Returned tt, _) |- _ =>
        apply ethCallValidation_returned in H; cbn in H; destruct H as (? & ?)
    | H : lastLook _ _ _ _ _ = (Returned _, _) |- _ =>
        apply lastLook_returned_signed in H; cbn in H;
        destruct H as (sig & ? & ? & ?)
    end;
    subst; cbn in *;
    repeat match goal with
           | H : _job _ = _ |- _ => rewrite H in *; clear H
           | H : stored _ = _ |- _ => rewrite H in *; clear H
           end;
    cbn in *; exists sig; repeat split; congruence.
Qed.

(** X26.  The maker is asked to sign at most three times per preparation,
    by attempts 0, 1, 2 in this order: on every run the sign requests
    of the trace are a prefix of these three. *)
Theorem prepareV2JobAsync_sign_requests env job now :
  exists k, (k <= 3)%nat /\
    filter isSignEvent (trace (snd (prepare env job now)))
    = firstn k [EvSign 0; EvSign 1; EvSign 2].
Proof.
  destruct (prepare env job now) as [r [st' j' n' tr']] eqn:H. cbn [snd trace].
  unfold prepareV2JobAsync, prepareV2JobBody in H.
  unfold lastLook, presignValidation, requestMakerSignature, makerDeclinedToSign,
    declineToSignPriceCheck, verifySigner, ethCallValidation in H.
  run_ops.
  repeat run_case.
  all: cbn;
    first [ exists 0%nat; split; [lia|reflexivity]
          | exists 1%nat; split; [lia|reflexivity]
          | exists 2%nat; split; [lia|reflexivity]
          | exists 3%nat; split; [lia|reflexivity] ].
Qed.

(** X27.  When all three sign attempts fail, the preparation gives up:
    for a valid unsigned job with sufficient balances and a store that
    accepts every update, it throws `Job failed during market maker sign
    attempt` after exactly the three sign requests, and the stored job
    is [FailedSignFailed] without a maker signature. *)
Theorem prepareV2JobAsync_sign_retries_exhausted env job now makerBalance takerBalance :
  findV2TransactionSubmissionsByOrderHashAsync env = [] ->
  validateJob BigNumber_ofString parseExpiryAndNonce_expiry job now = None ->
  makerSignature job = None ->
  presignBalances env = Returned (makerBalance, takerBalance) ->
  BigNumber.lt makerBalance
    (otc_makerAmount (storedOtcOrderToOtcOrder (job_order job))) = false ->
  BigNumber.lt takerBalance
    (otc_takerAmount (storedOtcOrderToOtcOrder (job_order job))) = false ->
  signResponse env = None ->
  (forall n, updateRejects env n = false) ->
  let result := fst (prepare env job now) in
  let w := snd (prepare env job now) in
  result = Thrown (Error "Job failed during market maker sign attempt") /\
  job_status (stored w) = FailedSignFailed /\
  makerSignature (stored w) = None /\
  filter isSignEvent (trace w) = [EvSign 0; EvSign 1; EvSign 2].
Proof.
  intros Hsubs Hvalid Hms Hbal Hmb Htb Hsign Hupd. cbv zeta.
  destruct (prepare env job now) as [r [st' j' n' tr']] eqn:H.
  cbn [fst snd _job stored trace].
  assert (Hts : takerSignature job <> None).
  { now apply validateJob_valid_iff in Hvalid. }
  destruct (takerSignature job) as [ts|] eqn:Hts'; [clear Hts|congruence].
  unfold prepareV2JobAsync, prepareV2JobBody in H.
  rewrite Hsubs, Hvalid, Hms, Hts' in H.
  unfold lastLook, presignValidation, requestMakerSignature in H.
  unfold signResponse in Hsign.
  destruct (RfqmJobStatus_eqb (job_status job) PendingEnqueued) eqn:Hst;
    run_ops; rewrite ?Hupd, Hbal in H; cbv beta iota in H;
    rewrite Hmb, Htb in H; cbv [orb] in H.
  all: repeat run_case.
  all: try discriminate.
  all: try match goal with
           | E : updateRejects _ _ = true |- _ => rewrite Hupd in E; discriminate E
           end.
  all: cbn; rewrite ?Hms; repeat split; reflexivity.
Qed.

End PrepareMoreFacts.


(** The maker signs at the first attempt. *)
Lemma prepareV2JobAsync_accepts_last_look_witness :
  let run := prepareV2JobAsync ofDecimalString decodeExpiry convertSample padNothing
               signerIsMaker encodeSample encodeSampleForEth attributeNothing bpsSample
               envMakerSigns jobValid 1700000000000 in
  exists sig,
    signResponse envMakerSigns = Some (Some sig) /\
    makerSignature (stored (snd run)) = Some (padNothing sig) /\
    lastLookResult (stored (snd run)) = Some true /\
    job_status (stored (snd run)) = PendingLastLookAccepted /\
    stored (snd run) = stored (snd run).
Proof.
  apply (prepareV2JobAsync_accepts_last_look ofDecimalString decodeExpiry convertSample
           padNothing signerIsMaker encodeSample encodeSampleForEth attributeNothing
           bpsSample envMakerSigns jobValid 1700000000000
           "0xdc1600f30x0a0x01"); vm_compute; reflexivity.
Defined.

(** The maker's endpoint is unreachable. *)
Lemma prepareV2JobAsync_sign_retries_exhausted_witness :
  let run := prepareV2JobAsync ofDecimalString decodeExpiry convertSample padNothing
               signerIsMaker encodeSample encodeSampleForEth attributeNothing bpsSample
               envMakerUnreachable jobValid 1700000000000 in
  fst run = Thrown (Error "Job failed during market maker sign attempt") /\
  job_status (stored (snd run)) = FailedSignFailed /\
  makerSignature (stored (snd run)) = None /\
  filter isSignEvent (trace (snd run)) = [EvSign 0; EvSign 1; EvSign 2].
Proof.
  apply (prepareV2JobAsync_sign_retries_exhausted ofDecimalString decodeExpiry
           convertSample padNothing signerIsMaker encodeSample encodeSampleForEth
           attributeNothing bpsSample envMakerUnreachable jobValid 1700000000000
           (BigNumber.ofZ 1000) (BigNumber.ofZ 2000));
    vm_compute; reflexivity.
Defined.

(** ** [processJobAsync]: the error boundary *)

Section ProcessJobFacts.

Variable BigNumber_ofString : string -> BigNumber.t.
Variable parseExpiryAndNonce_expiry : BigNumber.t -> BigNumber.t.
Variable storedOtcOrderToOtcOrder : option StoredOtcOrder -> OtcOrder.
Variable padSignature : Signature -> Signature.
Variable getSignerFromHash : string -> Signature -> string.
Variable fillTakerSignedOtcOrder : OtcOrder -> Signature -> Signature -> string.
Variable fillTakerSignedOtcOrderForEth : OtcOrder -> Signature -> Signature -> string.
Variable attributeCallData : string -> option string -> string.
Variable priceDifferenceBps : OtcOrder -> PriceResponse -> option Z.
Variable env : Env.
Variable submitToChain : RfqmV2JobEntity -> string -> M RfqmJobStatus.

Local Abbreviation processJob :=
  (processJobBody BigNumber_ofString parseExpiryAndNonce_expiry
     storedOtcOrderToOtcOrder padSignature getSignerFromHash
     fillTakerSignedOtcOrder fillTakerSignedOtcOrderForEth attributeCallData
     priceDifferenceBps env submitToChain).
Local Abbreviation steps :=
  (processJobSteps BigNumber_ofString parseExpiryAndNonce_expiry
     storedOtcOrderToOtcOrder padSignature getSignerFromHash
     fillTakerSignedOtcOrder fillTakerSignedOtcOrderForEth attributeCallData
     priceDifferenceBps env submitToChain).
Local Abbreviation prepareBody :=
  (prepareV2JobBody BigNumber_ofString parseExpiryAndNonce_expiry
     storedOtcOrderToOtcOrder padSignature getSignerFromHash
     fillTakerSignedOtcOrder fillTakerSignedOtcOrderForEth attributeCallData
     priceDifferenceBps env).

Lemma bind_returned {A B} (c : M A) (k : A -> M B) w b w' :
  bind c k w = (Returned b, w') ->
  exists a w1, c w = (Returned a, w1) /\ k a w1 = (Returned b, w').
Proof.
  unfold bind. destruct (c w) as [[a|e] w1]; [|discriminate].
  intros H. now exists a, w1.
Qed.

Lemma steps_returned_logs found worker now w w' :
  steps found worker now w = (Returned tt, w') ->
  exists tr, trace w' = tr ++ [EvLog LogInfo "Job completed without errors"].
Proof.
  unfold processJobSteps. destruct found as [job|]; [|discriminate].
  destruct (claimedByOther job worker); [discriminate|].
  intros H.
  apply bind_returned in H as (? & w1 & _ & H).
  apply bind_returned in H as (? & w2 & _ & H).
  apply bind_returned in H as ([calldata job'] & w3 & _ & H).
  apply bind_returned in H as (finalStatus & w4 & _ & H).
  apply bind_returned in H as (? & w5 & _ & H).
  apply bind_returned in H as (? & w6 & _ & H).
  destruct (RfqmJobStatus_eqb finalStatus FailedExpired); [discriminate|].
  cbv [log emit] in H. injection H as <-. cbn [trace]. now eexists.
Qed.

(** X28.  [processJobAsync] is an error boundary: whatever the lookup,
    the store, the maker and the submission step do, the call returns,
    and the last line it logs is either `Job completed without errors`
    or `Job completed with error`. *)
Theorem processJobAsync_never_throws found worker now w :
  let run :=
    processJobBody BigNumber_ofString parseExpiryAndNonce_expiry
      storedOtcOrderToOtcOrder padSignature getSignerFromHash
      fillTakerSignedOtcOrder fillTakerSignedOtcOrderForEth attributeCallData
      priceDifferenceBps env submitToChain found worker now w in
  fst run = Returned tt /\
  exists tr,
    trace (snd run) = tr ++ [EvLog LogInfo "Job completed without errors"] \/
    trace (snd run) = tr ++ [EvLog LogError "Job completed with error"].
Proof.
  cbv zeta. unfold processJobBody, bind, try_catch. cbv [log emit].
  destruct (steps found worker now _) as [[[]|e] w'] eqn:H; cbn [fst snd trace].
  - split; [reflexivity|].
    apply steps_returned_logs in H as [tr ->]. exists tr. now left.
  - split; [reflexivity|]. exists (trace w'). now right.
Qed.

(** X29.  A worker does not touch a job it must not process: when the
    job is not found, or is claimed by another worker, [processJobAsync]
    logs its start and the error and does nothing else: no store update,
    no change of the job, no call to the maker or the chain. *)
Theorem processJobAsync_leaves_foreign_job found worker now w :
  (found = None \/
   exists job, found = Some job /\ claimedByOther job worker = true) ->
  processJob found worker now w
  = (Returned tt,
     mkWorld (stored w) (_job w) (updates w)
       ((trace w ++ [EvLog LogInfo "Start process job"])
          ++ [EvLog LogError "Job completed with error"])).
Proof.
  intros [->|(job & -> & Hc)]; unfold processJobBody, processJobSteps;
    rewrite ?Hc; reflexivity.
Qed.

(** X30.  The job is closed with the status the submission returned:
    when the claim is stored, the preparation returns a job and the
    submission step a final status, and the store accepts the closing
    update, [processJobAsync] stores the prepared job with that status
    and returns; the run is logged as an error exactly when the status
    is [FailedExpired], which is stored all the same. *)
Theorem processJobAsync_stores_final_status
  job worker now w calldata job' w2 finalStatus w3 :
  claimedByOther job worker = false ->
  updateRejects env (updates w) = false ->
  let claimed := set_workerAddress worker job in
  let w1 := mkWorld claimed claimed (S (updates w))
              ((trace w ++ [EvLog LogInfo "Start process job"])
                 ++ [EvUpdateJob claimed]) in
  prepareBody claimed now w1 = (Returned (calldata, job'), w2) ->
  submitToChain job' calldata w2 = (Returned finalStatus, w3) ->
  updateRejects env (updates w3) = false ->
  let final := set_status finalStatus job' in
  processJob (Some job) worker now w
  = (Returned tt,
     mkWorld final final (S (updates w3))
       ((trace w3 ++ [EvUpdateJob final])
          ++ [if RfqmJobStatus_eqb finalStatus FailedExpired
              then EvLog LogError "Job completed with error"
              else EvLog LogInfo "Job completed without errors"])).
Proof.
  intros Hc Hu0. cbv zeta. intros Hprep Hsub Hu3.
  destruct w as [st0 j0 n0 tr0]. cbn [stored _job updates trace] in *.
  unfold processJobBody, processJobSteps. rewrite Hc.
  cbv [bind try_catch log emit modifyJob updateRfqmJobAsync stored _job updates trace].
  rewrite Hu0.
  cbv [bind try_catch log emit modifyJob updateRfqmJobAsync stored _job updates trace]
    in Hprep.
  rewrite Hprep, Hsub.
  destruct w3 as [st3 j3 n3 tr3]. cbn [updates] in Hu3. rewrite Hu3.
  destruct (RfqmJobStatus_eqb finalStatus FailedExpired); reflexivity.
Qed.

End ProcessJobFacts.

(** A job another worker has claimed. *)
Lemma processJobAsync_leaves_foreign_job_witness :
  let w := mkWorld jobValid jobValid 0 [] in
  processJobBody ofDecimalString decodeExpiry convertSample padNothing signerIsMaker
    encodeSample encodeSampleForEth attributeNothing bpsSample envMakerSigns
    chainConfirms (Some (set_workerAddress "0xother" jobValid)) "0xworker"
    1700000000000 w
  = (Returned tt,
     mkWorld (stored w) (_job w) (updates w)
       ((trace w ++ [EvLog LogInfo "Start process job"])
          ++ [EvLog LogError "Job completed with error"])).
Proof.
  apply (processJobAsync_leaves_foreign_job ofDecimalString decodeExpiry convertSample
           padNothing signerIsMaker encodeSample encodeSampleForEth attributeNothing
           bpsSample envMakerSigns chainConfirms
           (Some (set_workerAddress "0xother" jobValid)) "0xworker" 1700000000000
           (mkWorld jobValid jobValid 0 [])).
  right. exists (set_workerAddress "0xother" jobValid). split; reflexivity.
Defined.

(** The maker signs and the submission confirms: the job is stored as
    [SucceededConfirmed], claimed by the worker. *)
Lemma processJobAsync_stores_final_status_witness :
  let w := mkWorld jobValid jobValid 0 [] in
  let result := processJobBody ofDecimalString decodeExpiry convertSample padNothing
                  signerIsMaker encodeSample encodeSampleForEth attributeNothing
                  bpsSample envMakerSigns chainConfirms (Some jobValid) "0xworker"
                  1700000000000 w in
  fst result = Returned tt /\
  job_status (stored (snd result)) = SucceededConfirmed /\
  workerAddress (stored (snd result)) = Some "0xworker" /\
  makerSignature (stored (snd result)) = Some makerSignatureSample /\
  updates (snd result) = 4%nat.
Proof.
  cbv zeta.
  set (claimed := set_workerAddress "0xworker" jobValid).
  set (w1 := mkWorld claimed claimed 1
               (([] ++ [EvLog LogInfo "Start process job"]) ++ [EvUpdateJob claimed])).
  set (run := prepareV2JobBody ofDecimalString decodeExpiry convertSample padNothing
                signerIsMaker encodeSample encodeSampleForEth attributeNothing
                bpsSample envMakerSigns claimed 1700000000000 w1).
  rewrite (processJobAsync_stores_final_status ofDecimalString decodeExpiry
             convertSample padNothing signerIsMaker encodeSample encodeSampleForEth
             attributeNothing bpsSample envMakerSigns chainConfirms
             jobValid "0xworker" 1700000000000 (mkWorld jobValid jobValid 0 [])
             "0xdc1600f30x0a0x01" (stored (snd run)) (snd run)
             SucceededConfirmed (snd run));
    try (vm_compute; reflexivity).
  vm_compute. repeat split.
Defined.
